(** * Health-Hero: medical-bill pipeline, verified model

    A shallow embedding of the deterministic scaffolding of the backend:

    - [backend/agents/extraction_agent.py], [backend/agents/analysis_agent.py]:
      the tolerant normalisation of the completion service's JSON answers;
    - [backend/agents/pipeline.py]: the three-stage pipeline and its summary
      statistics;
    - [backend/agents/debate.py]: the fighter / hospital debate manager;
    - [backend/ocr/pipeline.py], [backend/ocr/pdf_extractor.py],
      [backend/ocr/image_ocr.py]: direct text extraction with OCR fallback.

    Python values are modelled as they are at run time: [float] is IEEE
    binary64 (Rocq's primitive floats), [int] is [Z], [str] is [string],
    [dict] is an insertion-ordered association list, exceptions are an
    explicit result type, and calls to the outside world (completion
    service, PDF and OCR libraries) are threaded through a state that logs
    every call. *)

From Stdlib Require Import ZArith Bool List String Ascii Lia Floats.
From Stdlib Require DecimalString.
Import ListNotations.

Local Open Scope string_scope.
Local Open Scope Z_scope.

(* ================================================================== *)
(** * Python strings *)

Module PyStr.

(** [str.isspace] on the code points below 256. *)
Definition isspace (c : ascii) : bool :=
  let n := nat_of_ascii c in
  ((9 <=? n)%nat && (n <=? 13)%nat)
  || ((28 <=? n)%nat && (n <=? 32)%nat)
  || (n =? 133)%nat || (n =? 160)%nat.

Fixpoint lstrip (s : string) : string :=
  match s with
  | EmptyString => EmptyString
  | String c s' => if isspace c then lstrip s' else s
  end.

Fixpoint rstrip (s : string) : string :=
  match s with
  | EmptyString => EmptyString
  | String c s' =>
      match rstrip s' with
      | EmptyString => if isspace c then EmptyString else String c EmptyString
      | r => String c r
      end
  end.

(** [s.strip()] *)
Definition strip (s : string) : string := rstrip (lstrip s).

(** [str.lower] on the code points below 256: A-Z and the Latin-1
    capitals move by 32, everything else stays. *)
Definition lower_char (c : ascii) : ascii :=
  let n := nat_of_ascii c in
  if ((65 <=? n)%nat && (n <=? 90)%nat)
     || ((192 <=? n)%nat && (n <=? 222)%nat && negb (n =? 215)%nat)
  then ascii_of_nat (n + 32) else c.

Fixpoint lower (s : string) : string :=
  match s with
  | EmptyString => EmptyString
  | String c s' => String (lower_char c) (lower s')
  end.

(** [len(s)] *)
Definition len (s : string) : Z := Z.of_nat (String.length s).

(** [sep.join(parts)] *)
Fixpoint join (sep : string) (parts : list string) : string :=
  match parts with
  | [] => ""
  | [p] => p
  | p :: rest => p ++ sep ++ join sep rest
  end.

(** [x in xs] for a list of strings *)
Definition mem (x : string) (xs : list string) : bool :=
  existsb (String.eqb x) xs.

(** The line feed, and the quotation mark. *)
Definition nl : string := String (ascii_of_nat 10) EmptyString.
Definition dquote : ascii := ascii_of_nat 34.

(** [needle in haystack] for strings *)
Fixpoint contains (needle haystack : string) : bool :=
  String.prefix needle haystack
  || match haystack with
     | EmptyString => false
     | String _ h' => contains needle h'
     end.

End PyStr.

(* ================================================================== *)
(** * Python values, as [json.loads] builds them *)

#[local] Set Warnings "-register-all".
Inductive value : Type :=
| VNone
| VBool (b : bool)
| VInt (z : Z)
| VFloat (f : float)
| VStr (s : string)
| VList (l : list value)
| VDict (d : list (string * value)).

#[local] Set Warnings "+register-all".

(** A [dict] with string keys, in insertion order. *)
Definition dict : Type := list (string * value).

Fixpoint dict_lookup (k : string) (d : dict) : option value :=
  match d with
  | [] => None
  | (k', v) :: d' => if String.eqb k k' then Some v else dict_lookup k d'
  end.

(** [k in d] *)
Definition dict_mem (k : string) (d : dict) : bool :=
  match dict_lookup k d with Some _ => true | None => false end.

(** [d.get(k, default)] *)
Definition dict_get (d : dict) (k : string) (default : value) : value :=
  match dict_lookup k d with Some v => v | None => default end.

(** [list(d.values())] *)
Definition dict_values (d : dict) : list value := map snd d.

Definition is_list (v : value) : bool :=
  match v with VList _ => true | _ => false end.

Definition is_dict (v : value) : bool :=
  match v with VDict _ => true | _ => false end.

(** Truth value of an object, [bool(v)]. *)
Definition truthy (v : value) : bool :=
  match v with
  | VNone => false
  | VBool b => b
  | VInt z => negb (z =? 0)
  | VFloat f => negb (PrimFloat.eqb f 0%float)
  | VStr s => negb (String.eqb s "")
  | VList l => match l with [] => false | _ => true end
  | VDict d => match d with [] => false | _ => true end
  end.

(* ================================================================== *)
(** * Exceptions *)

Inductive exn : Type :=
| ValueError (msg : string)
| TypeError (msg : string)
| AttributeError (msg : string)
| OverflowError (msg : string)
| RuntimeError (msg : string)
| FileNotFoundError (msg : string)
| OtherError (msg : string).

(** [str(e)] *)
Definition exn_str (e : exn) : string :=
  match e with
  | ValueError m | TypeError m | AttributeError m | OverflowError m
  | RuntimeError m | FileNotFoundError m | OtherError m => m
  end.

Definition is_ValueError (e : exn) : bool :=
  match e with ValueError _ => true | _ => false end.

Definition is_FileNotFoundError (e : exn) : bool :=
  match e with FileNotFoundError _ => true | _ => false end.

Inductive result (A : Type) : Type :=
| Ok (a : A)
| Raise (e : exn).
Arguments Ok {A} a.
Arguments Raise {A} e.

Definition rbind {A B} (r : result A) (k : A -> result B) : result B :=
  match r with
  | Ok a => k a
  | Raise e => Raise e
  end.

Notation "x <- e ;; k" := (rbind e (fun x => k))
  (at level 61, e at next level, right associativity).

Definition is_ok {A} (r : result A) : bool :=
  match r with Ok _ => true | Raise _ => false end.

(** Error-propagating map: the first failure aborts. *)
Fixpoint mapM {A B} (f : A -> result B) (l : list A) : result (list B) :=
  match l with
  | [] => Ok []
  | a :: l' => b <- f a ;; bs <- mapM f l' ;; Ok (b :: bs)
  end.

(** ** Computations that talk to the outside world

    A computation takes the current state, returns a value or raises, and
    leaves a new state; the state survives an exception, as it does in
    Python. *)

Definition M (S A : Type) : Type := S -> result A * S.

Definition mret {S A} (a : A) : M S A := fun s => (Ok a, s).

Definition mraise {S A} (e : exn) : M S A := fun s => (Raise e, s).

Definition mbind {S A B} (m : M S A) (k : A -> M S B) : M S B :=
  fun s => match m s with
           | (Ok a, s') => k a s'
           | (Raise e, s') => (Raise e, s')
           end.

(** [try: m  except Exception as e: h e] *)
Definition mtry {S A} (m : M S A) (h : exn -> M S A) : M S A :=
  fun s => match m s with
           | (Ok a, s') => (Ok a, s')
           | (Raise e, s') => h e s'
           end.

Definition mlift {S A} (r : result A) : M S A := fun s => (r, s).

Notation "x <~ e ;; k" := (mbind e (fun x => k))
  (at level 61, e at next level, right associativity).

(* ================================================================== *)
(** * Numbers *)

(** Python's numeric results in the aggregator: [sum] of no item is the
    [int] 0, [sum] of floats is a [float]. *)
Inductive number : Type :=
| NInt (z : Z)
| NFloat (f : float).

(** [float(z)] for an [int]: round to nearest even; an [int] beyond the
    binary64 range raises [OverflowError]. *)
Definition float_of_Z (z : Z) : float :=
  SF2Prim (binary_normalize prec emax z 0 false).

Definition float_of_int (z : Z) : result float :=
  let f := float_of_Z z in
  if PrimFloat.is_infinity f
  then Raise (OverflowError "int too large to convert to float")
  else Ok f.

(** [a == b] on numbers: an [int] is compared with a [float] by value. *)
Definition num_eqb (a b : number) : bool :=
  match a, b with
  | NInt x, NInt y => x =? y
  | NFloat x, NFloat y => PrimFloat.eqb x y
  | NInt x, NFloat y | NFloat y, NInt x =>
      match Prim2SF y with
      | S754_zero _ => x =? 0
      | S754_finite s m e =>
          let q := Z.pos m * 2 ^ e in
          (e >=? 0) && (x =? (if s then - q else q))
          || (e <? 0) && (x * 2 ^ (- e) =? (if s then - Z.pos m else Z.pos m))
      | _ => false
      end
  end.

(* ================================================================== *)
(** * The library functions the code calls *)

Inductive loads_result : Type :=
| Parsed (v : value)
| JSONDecodeError (msg : string).

(** What the code takes from the Python runtime and the [json] module. *)
Class PyLib : Type := {
  (** [json.loads(text)]: a value, or [json.JSONDecodeError]. *)
  json_loads : string -> loads_result;
  (** [json.dumps(v)] *)
  json_dumps : value -> string;
  (** [float(s)] for a [str]: a float, or [ValueError]. *)
  float_of_str : string -> result float;
  (** [str(v)] for a value that is not a [str]. *)
  repr : value -> string;
  (** [round(x, 2)] for a [float]. *)
  round2 : float -> float;
  (** [sum(xs)] for floats [xs], not empty: the sum from left to right,
      which CPython compensates for rounding errors since 3.12. *)
  sum_floats : list float -> float
}.

(* ================================================================== *)
(** * Built-in conversions *)

Section Builtins.
Context {L : PyLib}.

(** [str(v)] *)
Definition py_str (v : value) : string :=
  match v with
  | VStr s => s
  | _ => repr v
  end.

(** [float(v)]: [bool] is an [int]; [None], lists and dicts are refused. *)
Definition py_float (v : value) : result float :=
  match v with
  | VFloat f => Ok f
  | VInt z => float_of_int z
  | VBool b => Ok (if b then 1%float else 0%float)
  | VStr s => float_of_str s
  | VNone | VList _ | VDict _ =>
      Raise (TypeError "float() argument must be a string or a real number")
  end.

(** [item.get(k) if item.get(k) else None] *)
Definition truthy_or_none (item : dict) (k : string) : value :=
  if truthy (dict_get item k VNone) then dict_get item k VNone else VNone.

(** [next((v for v in d.values() if isinstance(v, list)), [])] *)
Definition first_list_value (d : dict) : value :=
  match find is_list (dict_values d) with
  | Some v => v
  | None => VList []
  end.

End Builtins.

(* ================================================================== *)
(** * Extraction agent: [backend/agents/extraction_agent.py] *)

Module Extraction.

(** The dict built at lines 139-145. *)
Record LineItem : Type := {
  code : string;
  description : string;
  quantity : float;
  price : float;
  notes : value
}.

Section WithLib.
Context {L : PyLib}.

(** Lines 114-127: where the list is looked for. *)
Definition select_payload (parsed : value) : value :=
  match parsed with
  | VDict d =>
      if dict_mem "line_items" d then dict_get d "line_items" VNone
      else if dict_mem "items" d then dict_get d "items" VNone
      else if (Z.of_nat (List.length d) =? 1) then hd VNone (dict_values d)
      else first_list_value d
  | _ => parsed
  end.

(** Lines 139-145. The fields are evaluated in the order of the dict
    display, so the first failing cast decides the exception. *)
Definition normalize_item (item : dict) : result LineItem :=
  let code := PyStr.strip (py_str (dict_get item "code" (VStr ""))) in
  let description := PyStr.strip (py_str (dict_get item "description" (VStr ""))) in
  quantity <- py_float (dict_get item "quantity" (VFloat 1%float)) ;;
  price <- py_float (dict_get item "price" (VFloat 0%float)) ;;
  Ok {| code := code;
        description := description;
        quantity := quantity;
        price := price;
        notes := truthy_or_none item "notes" |}.

(** Lines 134-146: the loop; an element that is not a dict is skipped. *)
Fixpoint normalize_items (line_items : list value) : result (list LineItem) :=
  match line_items with
  | [] => Ok []
  | VDict item :: rest =>
      normalized <- normalize_item item ;;
      normalized_items <- normalize_items rest ;;
      Ok (normalized :: normalized_items)
  | _ :: rest => normalize_items rest
  end.

(** Lines 111-154: from the parsed value to the records. *)
Definition normalize_parsed (parsed : value) : result (list LineItem) :=
  match select_payload parsed with
  | VList line_items => normalize_items line_items
  | _ => Raise (ValueError "Response is not a list")
  end.

(** Lines 111-154: from the text of the completion to the records. *)
Definition parse_response (text : string) : result (list LineItem) :=
  match json_loads text with
  | Parsed parsed => normalize_parsed parsed
  | JSONDecodeError e =>
      Raise (ValueError ("Invalid JSON response from Extraction Agent: " ++ e))
  end.

Definition parse_content (content : option string) : result (list LineItem) :=
  match content with
  | Some text => parse_response text
  | None =>
      Raise (TypeError "the JSON object must be str, bytes or bytearray, not NoneType")
  end.

End WithLib.

(** The record as the dict it is, for [json.dumps]. *)
Definition to_value (i : LineItem) : value :=
  VDict [("code", VStr (code i));
         ("description", VStr (description i));
         ("quantity", VFloat (quantity i));
         ("price", VFloat (price i));
         ("notes", notes i)].

End Extraction.

(* ================================================================== *)
(** * Analysis agent: [backend/agents/analysis_agent.py] *)

Module Analysis.

(** The dict built at lines 151-162, with the check of lines 165-166. *)
Record AnalysisItem : Type := {
  code : string;
  description : string;
  quantity : float;
  price : float;
  notes : value;
  expected_cost : float;
  overcharge_flag : bool;
  flag_level : string;
  issue : value
}.

Definition flag_levels : list string := ["low"; "medium"; "high"].

Section WithLib.
Context {L : PyLib}.

(** Lines 127-139. *)
Definition select_payload (parsed : value) : value :=
  match parsed with
  | VDict d =>
      if dict_mem "line_items" d then dict_get d "line_items" VNone
      else if dict_mem "items" d then dict_get d "items" VNone
      else if dict_mem "analysis" d then dict_get d "analysis" VNone
      else if (Z.of_nat (List.length d) =? 1) then hd VNone (dict_values d)
      else first_list_value d
  | _ => parsed
  end.

(** Lines 164-166. *)
Definition validate_flag_level (level : string) : string :=
  if PyStr.mem level flag_levels then level else "low".

(** Lines 151-166: the fields are evaluated in the order of the dict
    display, so the first failing cast decides the exception. *)
Definition normalize_item (item : dict) : result AnalysisItem :=
  let code := PyStr.strip (py_str (dict_get item "code" (VStr ""))) in
  let description := PyStr.strip (py_str (dict_get item "description" (VStr ""))) in
  quantity <- py_float (dict_get item "quantity" (VFloat 1%float)) ;;
  price <- py_float (dict_get item "price" (VFloat 0%float)) ;;
  expected_cost <-
    py_float (dict_get item "expected_cost" (dict_get item "price" (VFloat 0%float))) ;;
  Ok {| code := code;
        description := description;
        quantity := quantity;
        price := price;
        notes := truthy_or_none item "notes";
        expected_cost := expected_cost;
        overcharge_flag := truthy (dict_get item "overcharge_flag" (VBool false));
        flag_level :=
          validate_flag_level
            (PyStr.lower (py_str (dict_get item "flag_level" (VStr "low"))));
        issue := truthy_or_none item "issue" |}.

(** Lines 145-168. *)
Fixpoint normalize_items (enriched_items : list value) : result (list AnalysisItem) :=
  match enriched_items with
  | [] => Ok []
  | VDict item :: rest =>
      normalized <- normalize_item item ;;
      normalized_items <- normalize_items rest ;;
      Ok (normalized :: normalized_items)
  | _ :: rest => normalize_items rest
  end.

(** Lines 125-171. *)
Definition normalize_parsed (parsed : value) : result (list AnalysisItem) :=
  match select_payload parsed with
  | VList enriched_items => normalize_items enriched_items
  | _ => Raise (ValueError "Response is not a list")
  end.

Definition parse_response (text : string) : result (list AnalysisItem) :=
  match json_loads text with
  | Parsed parsed => normalize_parsed parsed
  | JSONDecodeError e =>
      Raise (ValueError ("Invalid JSON response from Analysis Agent: " ++ e))
  end.

Definition parse_content (content : option string) : result (list AnalysisItem) :=
  match content with
  | Some text => parse_response text
  | None =>
      Raise (TypeError "the JSON object must be str, bytes or bytearray, not NoneType")
  end.

End WithLib.

(** The record as the dict it is, for [json.dumps]. *)
Definition to_value (i : AnalysisItem) : value :=
  VDict [("code", VStr (code i));
         ("description", VStr (description i));
         ("quantity", VFloat (quantity i));
         ("price", VFloat (price i));
         ("notes", notes i);
         ("expected_cost", VFloat (expected_cost i));
         ("overcharge_flag", VBool (overcharge_flag i));
         ("flag_level", VStr (flag_level i));
         ("issue", issue i)].

End Analysis.

(* ================================================================== *)
(** * The completion service *)

Inductive persona : Type := Fighter | Hospital.

(** One call of [client.chat.completions.create], by the data its prompt is
    built from. *)
Inductive request : Type :=
| ExtractionRequest (ocr_text : string) (model : string) (temperature : float)
| AnalysisRequest (line_items : list Extraction.LineItem)
    (model : string) (temperature : float)
| NegotiationRequest (analysis_items : list Analysis.AnalysisItem)
    (model : string) (temperature : float)
| DebateRequest (who : persona) (previous_message : option string)
    (bill_json : value) (round_number : Z) (model : string) (temperature : float).

(** The outside world of the agents. *)
Class Services : Type := {
  World : Type;
  (** The call and the reading of [response.choices[0].message.content]:
      the content (which may be [None]) or the exception of the client. *)
  chat_completion : request -> World -> result (option string) * World;
  (** [get_openai_api_key()]: the key of the environment, or [RuntimeError]. *)
  env_api_key : result string;
  (** The user prompt of a debate turn (the bill summary, [json.dumps] of the
      bill, the f-string); it raises on bill data it cannot sum or print. *)
  debate_prompt : persona -> option string -> value -> Z -> result string
}.

Section Agents.
Context {L : PyLib} {Sv : Services}.

(** The state of a run: the world, and every completion call made so far. *)
Record state : Type := {
  world : World;
  calls : list request
}.

Definition call_service (req : request) : M state (option string) :=
  fun st =>
    let '(r, w) := chat_completion req (world st) in
    (r, {| world := w; calls := (calls st ++ [req])%list |}).

(** The head of every agent: [if api_key is None: ... get_openai_api_key()],
    a [RuntimeError] becoming a [ValueError]. *)
Definition resolve_api_key (api_key : option string) : result string :=
  match api_key with
  | Some k => Ok k
  | None =>
      match env_api_key with
      | Raise (RuntimeError m) => Raise (ValueError m)
      | r => r
      end
  end.

(** [extraction_agent(ocr_text, api_key, model, temperature)] *)
Definition extraction_agent (ocr_text : string) (api_key : option string)
    (model : string) (temperature : float)
  : M state (list Extraction.LineItem) :=
  _ <~ mlift (resolve_api_key api_key) ;;
  content <~ call_service (ExtractionRequest ocr_text model temperature) ;;
  mlift (Extraction.parse_content content).

(** [analysis_agent(line_items, api_key, model, temperature)] *)
Definition analysis_agent (line_items : list Extraction.LineItem)
    (api_key : option string) (model : string) (temperature : float)
  : M state (list Analysis.AnalysisItem) :=
  _ <~ mlift (resolve_api_key api_key) ;;
  content <~ call_service (AnalysisRequest line_items model temperature) ;;
  mlift (Analysis.parse_content content).

(** ** Negotiation agent: [backend/agents/negotiation_agent.py] *)

Record NegotiationMaterials : Type := {
  email : string;
  phone_script : string;
  summary : string
}.

(** Lines 118-140. *)
Definition parse_negotiation (content : option string) : result NegotiationMaterials :=
  match content with
  | None =>
      Raise (TypeError "the JSON object must be str, bytes or bytearray, not NoneType")
  | Some text =>
      match json_loads text with
      | JSONDecodeError e =>
          Raise (ValueError ("Invalid JSON response from Negotiation Agent: " ++ e))
      | Parsed (VDict parsed) =>
          Ok {| email := PyStr.strip (py_str (dict_get parsed "email" (VStr "")));
                phone_script :=
                  PyStr.strip (py_str (dict_get parsed "phone_script" (VStr "")));
                summary := PyStr.strip (py_str (dict_get parsed "summary" (VStr ""))) |}
      | Parsed _ => Raise (AttributeError "object has no attribute 'get'")
      end
  end.

Definition negotiation_agent (analysis_items : list Analysis.AnalysisItem)
    (api_key : option string) (model : string) (temperature : float)
  : M state NegotiationMaterials :=
  _ <~ mlift (resolve_api_key api_key) ;;
  content <~ call_service (NegotiationRequest analysis_items model temperature) ;;
  mlift (parse_negotiation content).

(** ** Pipeline: [backend/agents/pipeline.py] *)

(** [sum(xs)] for floats: the start value is the [int] 0, which is what
    the sum of no item is; with an item the sum is a [float]. *)
Definition py_sum (xs : list float) : number :=
  match xs with
  | [] => NInt 0
  | _ :: _ => NFloat (sum_floats xs)
  end.

(** [a - b]; an [int] meets a [float] only as the 0 of an empty sum. *)
Definition py_sub (a b : number) : number :=
  match a, b with
  | NInt x, NInt y => NInt (x - y)
  | NFloat x, NFloat y => NFloat (x - y)%float
  | NInt x, NFloat y => NFloat (float_of_Z x - y)%float
  | NFloat x, NInt y => NFloat (x - float_of_Z y)%float
  end.

(** [round(n, 2)]: an [int] is returned as it is. *)
Definition py_round2 (n : number) : number :=
  match n with
  | NInt z => NInt z
  | NFloat f => NFloat (round2 f)
  end.

Record SummaryStats : Type := {
  total_items : Z;
  total_billed : number;
  total_expected : number;
  potential_savings : number;
  flagged_items : Z
}.

(** Line 130 and line 131, before rounding. *)
Definition sum_billed (analysis_items : list Analysis.AnalysisItem) : number :=
  py_sum (map (fun item => (Analysis.price item * Analysis.quantity item)%float)
              analysis_items).

Definition sum_expected (analysis_items : list Analysis.AnalysisItem) : number :=
  py_sum (map (fun item => (Analysis.expected_cost item * Analysis.quantity item)%float)
              analysis_items).

(** Line 132. *)
Definition count_flagged (analysis_items : list Analysis.AnalysisItem) : Z :=
  Z.of_nat (List.length (filter Analysis.overcharge_flag analysis_items)).

(** Lines 130-140. *)
Definition summarize (analysis_items : list Analysis.AnalysisItem) : SummaryStats :=
  let total_billed := sum_billed analysis_items in
  let total_expected := sum_expected analysis_items in
  let flagged_items := count_flagged analysis_items in
  {| total_items := Z.of_nat (List.length analysis_items);
     total_billed := py_round2 total_billed;
     total_expected := py_round2 total_expected;
     potential_savings := py_round2 (py_sub total_billed total_expected);
     flagged_items := flagged_items |}.

(** Lines 123-127. *)
Definition placeholder_materials : NegotiationMaterials :=
  {| email :=
       "No line items were extracted from this bill. Please review the document manually.";
     phone_script :=
       "No specific issues were identified. Please review the bill with the billing department.";
     summary :=
       "The bill could not be automatically processed. Please review it manually or try again with a clearer image/PDF." |}.

Record PipelineResult : Type := {
  extraction : list Extraction.LineItem;
  analysis : list Analysis.AnalysisItem;
  negotiation : NegotiationMaterials;
  summary_stats : SummaryStats
}.

Definition nonempty {A} (l : list A) : bool :=
  match l with [] => false | _ => true end.

(** [process_medical_bill], lines 85-155. *)
Definition process_medical_bill (ocr_text : string) (api_key : option string)
    (model : string)
    (extraction_temperature analysis_temperature negotiation_temperature : float)
  : M state PipelineResult :=
  line_items <~ extraction_agent ocr_text api_key model extraction_temperature ;;
  analysis_items <~
    (if nonempty line_items
     then analysis_agent line_items api_key model analysis_temperature
     else mret []) ;;
  negotiation_materials <~
    (if nonempty analysis_items
     then negotiation_agent analysis_items api_key model negotiation_temperature
     else mret placeholder_materials) ;;
  mret {| extraction := line_items;
          analysis := analysis_items;
          negotiation := negotiation_materials;
          summary_stats := summarize analysis_items |}.

(** ** Debate: [backend/agents/debate.py] *)

Record DebateMessage : Type := {
  role : string;
  content : string
}.

Record DebateManager : Type := {
  dm_model : string;
  dm_temperature : float;
  max_rounds : Z
}.

(** [DebateManager.__init__], lines 302-319: both agents resolve the key. *)
Definition new_DebateManager (api_key : option string) (model : string)
    (temperature : float) (max_rounds : Z) : result DebateManager :=
  _ <- resolve_api_key api_key ;;
  _ <- resolve_api_key api_key ;;
  Ok {| dm_model := model; dm_temperature := temperature; max_rounds := max_rounds |}.

(** [generate_response] of either agent: the prompt is built, the service
    is called, and the answer is measured ([len(content)] in the debug
    line) and stripped. *)
Definition generate_response (self : DebateManager) (who : persona)
    (previous_message : option string) (bill_json : value) (round_number : Z)
  : M state string :=
  _ <~ mlift (debate_prompt who previous_message bill_json round_number) ;;
  content <~ call_service
    (DebateRequest who previous_message bill_json round_number
                   (dm_model self) (dm_temperature self)) ;;
  match content with
  | Some c => mret (PyStr.strip c)
  | None => mraise (TypeError "object of type 'NoneType' has no len()")
  end.

Definition say (who : string) (text : string) : DebateMessage :=
  {| role := who; content := text |}.

(** [DebateManager.run_debate], lines 321-424. *)
Definition run_debate (self : DebateManager) (bill_json : value)
    (num_rounds : option Z) : M state (list DebateMessage) :=
  if negb (truthy bill_json) || negb (is_list bill_json)
  then mraise (ValueError "bill_json must be a non-empty list of line items")
  else
    let num_rounds :=
      match num_rounds with Some n => n | None => max_rounds self end in
    let num_rounds := Z.max 1 (Z.min num_rounds (max_rounds self)) in
    let transcript : list DebateMessage := [] in
    (* Round 1 *)
    fighter_msg <~ generate_response self Fighter None bill_json 1 ;;
    let transcript := (transcript ++ [say "fighter" fighter_msg])%list in
    let previous_message := fighter_msg in
    hospital_msg <~
      generate_response self Hospital (Some previous_message) bill_json 1 ;;
    let transcript := (transcript ++ [say "hospital" hospital_msg])%list in
    let previous_message := hospital_msg in
    (* Round 2 *)
    r2 <~
      (if num_rounds >=? 2
       then
         fighter_msg <~
           generate_response self Fighter (Some previous_message) bill_json 2 ;;
         let transcript := (transcript ++ [say "fighter" fighter_msg])%list in
         let previous_message := fighter_msg in
         hospital_msg <~
           generate_response self Hospital (Some previous_message) bill_json 2 ;;
         let transcript := (transcript ++ [say "hospital" hospital_msg])%list in
         let previous_message := hospital_msg in
         mret (transcript, previous_message)
       else mret (transcript, previous_message)) ;;
    let '(transcript, previous_message) := r2 in
    (* Round 3 *)
    transcript <~
      (if num_rounds >=? 3
       then
         fighter_msg <~
           generate_response self Fighter (Some previous_message) bill_json 3 ;;
         let transcript := (transcript ++ [say "fighter" fighter_msg])%list in
         let previous_message := fighter_msg in
         hospital_msg <~
           generate_response self Hospital (Some previous_message) bill_json 3 ;;
         let transcript := (transcript ++ [say "hospital" hospital_msg])%list in
         mret transcript
       else mret transcript) ;;
    mret transcript.

End Agents.

(* ================================================================== *)
(** * OCR: [backend/ocr/] *)

Module Ocr.

(** What the PDF and OCR libraries answer for one [file_input]. *)
Record Document : Type := {
  (** [isinstance(file_input, (str, Path))], and the path if so *)
  is_path : bool;
  file_path : string;
  (** [file_path.exists()] *)
  path_exists : bool;
  (** [pdfplumber.open(...)] and its pages: for each page the outcome of
      [page.extract_text()], which may be [None] *)
  pdf_pages : result (list (result (option string)));
  (** [pytesseract.get_tesseract_version()] *)
  tesseract_version : result unit;
  (** [convert_from_path] / [convert_from_bytes]: for each image the
      outcome of [pytesseract.image_to_string(image)] *)
  page_images : result (list (result string))
}.

(** [TextPDFExtractor.extract], pdf_extractor.py lines 35-67. *)
Definition text_page (outcome : result (option string)) : string :=
  match outcome with
  | Ok (Some page_text) => if String.eqb page_text "" then "" else page_text
  | Ok None => ""
  | Raise _ => ""
  end.

Definition text_extract (doc : Document) : result (list string) :=
  if is_path doc && negb (path_exists doc)
  then Raise (FileNotFoundError ("PDF file not found: " ++ file_path doc))
  else
    match pdf_pages doc with
    | Ok pages => Ok (map text_page pages)
    | Raise (FileNotFoundError m) => Raise (FileNotFoundError m)
    | Raise e => Raise (ValueError ("Failed to extract text from PDF: " ++ exn_str e))
    end.

(** [ImageOCRExtractor.extract], image_ocr.py lines 59-115. *)
Definition ocr_page (outcome : result string) : string :=
  match outcome with
  | Ok page_text => if String.eqb page_text "" then "" else PyStr.strip page_text
  | Raise _ => ""
  end.

Definition convert_error (doc : Document) (e : exn) : exn :=
  if is_path doc
  then ValueError ("Failed to convert PDF to images. "
                   ++ "Make sure poppler-utils is installed. Error: " ++ exn_str e)
  else ValueError ("Failed to convert PDF to images from bytes. "
                   ++ "Make sure poppler-utils is installed. Error: " ++ exn_str e).

Definition ocr_extract (doc : Document) : result (list string) :=
  match tesseract_version doc with
  | Raise _ =>
      Raise (ValueError
               ("Tesseract OCR is not installed or not found in PATH. "
                ++ "Please install Tesseract OCR. "
                ++ "See README.md for installation instructions."))
  | Ok _ =>
      if is_path doc && negb (path_exists doc)
      then Raise (FileNotFoundError ("File not found: " ++ file_path doc))
      else
        match page_images doc with
        | Raise e => Raise (convert_error doc e)
        | Ok images => Ok (map ocr_page images)
        end
  end.

(** ** [OCRPipeline.extract], pipeline.py lines 32-109 *)

Inductive strategy : Type := Direct | Fallback.

(** The calls of the two extractors, in order. *)
Definition log : Type := list strategy.

Definition call_text_extractor (doc : Document) : M log (list string) :=
  fun l => (text_extract doc, (l ++ [Direct])%list).

Definition call_ocr_extractor (doc : Document) : M log (list string) :=
  fun l => (ocr_extract doc, (l ++ [Fallback])%list).

Inductive extracted : Type :=
| WithPages (text : string) (pages : list string) (method : string)
| TextOnly (text : string).

Definition both_failed (text_error ocr_error : exn) : exn :=
  ValueError ("Both text extraction and OCR failed. "
              ++ "Text extraction error: " ++ exn_str text_error ++ ". "
              ++ "OCR error: " ++ exn_str ocr_error).

(** The default of the parameter [min_text_threshold], line 36. *)
Definition default_min_text_threshold : Z := 50.

(** [len("".join(pages).strip())] *)
Definition total_length (pages : list string) : Z :=
  PyStr.len (PyStr.strip (PyStr.join "" pages)).

Definition extract (doc : Document) (return_pages : bool) (min_text_threshold : Z)
  : M log extracted :=
  r <~
    mtry
      (pages <~ call_text_extractor doc ;;
       let total_length := total_length pages in
       if total_length >=? min_text_threshold
       then mret (pages, "text")
       else
         pages <~ call_ocr_extractor doc ;;
         mret (pages, "ocr"))
      (fun text_error =>
         mtry
           (pages <~ call_ocr_extractor doc ;;
            mret (pages, "ocr"))
           (fun ocr_error => mraise (both_failed text_error ocr_error))) ;;
  let '(pages, method) := r in
  let text := PyStr.join (PyStr.nl ++ PyStr.nl) pages in
  if return_pages
  then mret (WithPages text pages method)
  else mret (TextOnly text).

(** Whether a run called the fallback extractor. *)
Definition fallback_invoked (l : log) : bool :=
  existsb (fun s => match s with Fallback => true | Direct => false end) l.

End Ocr.

(* ================================================================== *)
(** * A reference runtime

    Executable definitions of the library functions of [PyLib], written
    after CPython's documented behaviour, so that the model can be run on
    concrete texts. Characters are the code points below 256. *)

Module Ref.


Definition code (c : ascii) : Z := Z.of_nat (nat_of_ascii c).
Definition chr (n : Z) : ascii := ascii_of_nat (Z.to_nat n).
Definition str1 (c : ascii) : string := String c EmptyString.

Definition is_digit (c : ascii) : bool := (48 <=? code c) && (code c <=? 57).

(** Decimal text of an [int]. *)
Definition string_of_Z (z : Z) : string :=
  DecimalString.NilZero.string_of_int (Z.to_int z).

(** ** Decimal to binary64, correctly rounded *)

(** The float nearest to [(-1)^neg * m * 10^e]. *)
Definition float_of_decimal (neg : bool) (m : Z) (e : Z) : float :=
  match m with
  | Z.pos p =>
      let digits := Z.of_nat (String.length (string_of_Z m)) in
      if digits + e >? 310 then (if neg then neg_infinity else infinity)
      else if digits + e <? -330 then (if neg then (-0)%float else 0%float)
      else if e >=? 0
      then SF2Prim (binary_normalize prec emax
                      ((if neg then Z.neg p else Z.pos p) * 10 ^ e) 0 neg)
      else SF2Prim (SFdiv prec emax (S754_finite neg p 0)
                          (S754_finite false (Z.to_pos (10 ^ (- e))) 0))
  | _ => if neg then (-0)%float else 0%float
  end.

(** ** Binary64 to decimal: the shortest digits that read back *)

(** [x = num / den] rounded to an integer, ties to even. *)
Definition round_half_even (num den : Z) : Z :=
  let q := num / den in
  let r := num mod den in
  if 2 * r <? den then q
  else if 2 * r >? den then q + 1
  else if Z.even q then q else q + 1.

(** [scaled x k]: numerator and denominator of [num / den / 10^k]. *)
Definition scale10 (num den k : Z) : Z * Z :=
  if k >=? 0 then (num, den * 10 ^ k) else (num * 10 ^ (- k), den).

(** The decimal point of [num / den > 0]: the [d] with
    [10^(d-1) <= num/den < 10^d]. *)
Fixpoint decpt_up (fuel : nat) (num den d : Z) : Z :=
  match fuel with
  | O => d
  | S fuel' =>
      let '(n, m) := scale10 num den d in
      if n <? m then d else decpt_up fuel' num den (d + 1)
  end.

Fixpoint decpt_down (fuel : nat) (num den d : Z) : Z :=
  match fuel with
  | O => d
  | S fuel' =>
      let '(n, m) := scale10 num den (d - 1) in
      if n >=? m then d else decpt_down fuel' num den (d - 1)
  end.

Definition decpt (num den : Z) : Z :=
  let est := (Z.log2 num - Z.log2 den) * 30103 / 100000 in
  decpt_down 8 num den (decpt_up 8 num den est).

(** The candidates with [p] significant digits around [num / den]:
    the nearest first. *)
Definition candidates (num den d p : Z) : list (Z * Z) :=
  let '(n, m) := scale10 num den (d - p) in
  let near := round_half_even n m in
  let lo := n / m in
  let other := if near =? lo then lo + 1 else lo in
  map (fun c => if c =? 10 ^ p then (10 ^ (p - 1), d + 1) else (c, d))
      [near; other].

Fixpoint shortest (fuel : nat) (f : float) (num den d p : Z) : Z * Z :=
  match fuel with
  | O => (0, d)
  | S fuel' =>
      match find (fun c => PrimFloat.eqb
                             (float_of_decimal false (fst c) (snd c - p)) f)
                 (candidates num den d p) with
      | Some c => c
      | None => shortest fuel' f num den d (p + 1)
      end
  end.

Fixpoint strip_zeros (fuel : nat) (digits : Z) : Z :=
  match fuel with
  | O => digits
  | S fuel' =>
      if (digits mod 10 =? 0) && negb (digits =? 0)
      then strip_zeros fuel' (digits / 10) else digits
  end.

Fixpoint zeros (n : nat) : string :=
  match n with O => "" | S n' => "0" ++ zeros n' end.

(** [float.__repr__] of a positive finite float, from its digits and its
    decimal point. *)
Definition format_repr (digits d : Z) : string :=
  let ds := string_of_Z digits in
  let n := Z.of_nat (String.length ds) in
  if (d >? 16) || (d <? -3)
  then
    let mant :=
      match ds with
      | String c EmptyString => str1 c
      | String c rest => String c ("." ++ rest)
      | EmptyString => ""
      end in
    let e := d - 1 in
    let es := string_of_Z (Z.abs e) in
    mant ++ "e" ++ (if e <? 0 then "-" else "+")
         ++ (if Z.abs e <? 10 then "0" else "") ++ es
  else if d <=? 0
  then "0." ++ zeros (Z.to_nat (- d)) ++ ds
  else if d >=? n
  then ds ++ zeros (Z.to_nat (d - n)) ++ ".0"
  else substring 0 (Z.to_nat d) ds ++ "."
       ++ substring (Z.to_nat d) (Z.to_nat (n - d)) ds.

Definition repr_float (f : float) : string :=
  match Prim2SF f with
  | S754_nan => "nan"
  | S754_infinity s => if s then "-inf" else "inf"
  | S754_zero s => if s then "-0.0" else "0.0"
  | S754_finite s m e =>
      let num := if e >=? 0 then Z.pos m * 2 ^ e else Z.pos m in
      let den := if e >=? 0 then 1 else 2 ^ (- e) in
      let d := decpt num den in
      let '(digits, d') := shortest 17 (PrimFloat.abs f) num den d 1 in
      (if s then "-" else "") ++ format_repr (strip_zeros 17 digits) d'
  end.

(** ** [round(x, 2)] *)

Definition round2 (f : float) : float :=
  match Prim2SF f with
  | S754_finite s m e =>
      let num := if e >=? 0 then Z.pos m * 2 ^ e else Z.pos m in
      let den := if e >=? 0 then 1 else 2 ^ (- e) in
      float_of_decimal s (round_half_even (num * 100) den) (-2)
  | _ => f
  end.


(** ** [json.loads] *)

Definition is_ws (c : ascii) : bool :=
  (code c =? 32) || (code c =? 9) || (code c =? 10) || (code c =? 13).

Fixpoint skip_ws (s : string) : string :=
  match s with
  | String c rest => if is_ws c then skip_ws rest else s
  | EmptyString => s
  end.

(** The digits at the head of [s]: their value, their number, the rest. *)
Fixpoint read_digits (s : string) (acc n : Z) : Z * Z * string :=
  match s with
  | String c rest =>
      if is_digit c then read_digits rest (10 * acc + (code c - 48)) (n + 1)
      else (acc, n, s)
  | EmptyString => (acc, n, s)
  end.

Definition starts_with_digit (s : string) : bool :=
  match s with String c _ => is_digit c | EmptyString => false end.

(** An exponent [e+12] at the head of [s], if there is one. *)
Definition read_exponent (s : string) : option (Z * string) :=
  match s with
  | String c rest =>
      if (code c =? 101) || (code c =? 69)
      then
        let '(neg, rest') :=
          match rest with
          | String sg r =>
              if code sg =? 45 then (true, r)
              else if code sg =? 43 then (false, r) else (false, rest)
          | EmptyString => (false, rest)
          end in
        if starts_with_digit rest'
        then let '(e, _, s') := read_digits rest' 0 0 in
             Some (if neg then - e else e, s')
        else None
      else None
  | EmptyString => None
  end.

(** A JSON number: an integer part without leading zeros, then an
    optional fraction and an optional exponent, each with a digit. *)
Definition parse_number (s : string) : option (value * string) :=
  let '(neg, s1) :=
    match s with
    | String c r => if code c =? 45 then (true, r) else (false, s)
    | EmptyString => (false, s)
    end in
  match s1 with
  | String c r =>
      if is_digit c
      then
        let '(ip, _, s2) := if code c =? 48 then (0, 1, r) else read_digits s1 0 0 in
        let '(m, fd, s3) :=
          match s2 with
          | String dot r2 =>
              if (code dot =? 46) && starts_with_digit r2
              then read_digits r2 ip 0 else (ip, 0, s2)
          | EmptyString => (ip, 0, s2)
          end in
        match read_exponent s3 with
        | Some (e, s4) => Some (VFloat (float_of_decimal neg m (e - fd)), s4)
        | None =>
            if fd >? 0 then Some (VFloat (float_of_decimal neg m (- fd)), s3)
            else Some (VInt (if neg then - ip else ip), s3)
        end
      else None
  | EmptyString => None
  end.

Definition hex_digit (c : ascii) : option Z :=
  let n := code c in
  if (48 <=? n) && (n <=? 57) then Some (n - 48)
  else if (97 <=? n) && (n <=? 102) then Some (n - 87)
  else if (65 <=? n) && (n <=? 70) then Some (n - 55)
  else None.

Definition read_hex4 (s : string) : option (Z * string) :=
  match s with
  | String a (String b (String c (String d rest))) =>
      match hex_digit a, hex_digit b, hex_digit c, hex_digit d with
      | Some x, Some y, Some z, Some w => Some (((x * 16 + y) * 16 + z) * 16 + w, rest)
      | _, _, _, _ => None
      end
  | _ => None
  end.

(** The body of a string literal, after the opening quotation mark. *)
Fixpoint scan_string (fuel : nat) (s : string) : option (string * string) :=
  match fuel with
  | O => None
  | S fuel' =>
      match s with
      | EmptyString => None
      | String c rest =>
          if code c =? 34 then Some ("", rest)
          else if code c <? 32 then None
          else if code c =? 92
          then
            match rest with
            | String e rest' =>
                let plain (x : Z) :=
                  match scan_string fuel' rest' with
                  | Some (t, r) => Some (String (chr x) t, r)
                  | None => None
                  end in
                let n := code e in
                if n =? 34 then plain 34
                else if n =? 92 then plain 92
                else if n =? 47 then plain 47
                else if n =? 98 then plain 8
                else if n =? 102 then plain 12
                else if n =? 110 then plain 10
                else if n =? 114 then plain 13
                else if n =? 116 then plain 9
                else if n =? 117
                then
                  match read_hex4 rest' with
                  | Some (x, r) =>
                      if x <? 256
                      then match scan_string fuel' r with
                           | Some (t, r') => Some (String (chr x) t, r')
                           | None => None
                           end
                      else None
                  | None => None
                  end
                else None
            | EmptyString => None
            end
          else
            match scan_string fuel' rest with
            | Some (t, r) => Some (String c t, r)
            | None => None
            end
      end
  end.

(** [d[k] = v]: a key met again keeps its place and takes the new value. *)
Fixpoint dict_set (d : dict) (k : string) (v : value) : dict :=
  match d with
  | [] => [(k, v)]
  | (k', v') :: d' =>
      if String.eqb k k' then (k, v) :: d' else (k', v') :: dict_set d' k v
  end.

Definition strip_prefix (p s : string) : option string :=
  if String.prefix p s
  then Some (substring (String.length p) (String.length s - String.length p) s)
  else None.

Fixpoint parse_value (fuel : nat) (s : string) : option (value * string) :=
  match fuel with
  | O => None
  | S fuel' =>
      match s with
      | EmptyString => None
      | String c rest =>
          let n := code c in
          if n =? 34 then
            match scan_string (S (String.length rest)) rest with
            | Some (t, r) => Some (VStr t, r)
            | None => None
            end
          else if n =? 123 then
            match skip_ws rest with
            | String c' r =>
                if code c' =? 125 then Some (VDict [], r)
                else
                  match parse_members fuel' (skip_ws rest) [] with
                  | Some (d, r') => Some (VDict d, r')
                  | None => None
                  end
            | EmptyString => None
            end
          else if n =? 91 then
            match skip_ws rest with
            | String c' r =>
                if code c' =? 93 then Some (VList [], r)
                else
                  match parse_elements fuel' (skip_ws rest) [] with
                  | Some (l, r') => Some (VList l, r')
                  | None => None
                  end
            | EmptyString => None
            end
          else
            match strip_prefix "null" s, strip_prefix "true" s,
                  strip_prefix "false" s, strip_prefix "NaN" s,
                  strip_prefix "Infinity" s, strip_prefix "-Infinity" s with
            | Some r, _, _, _, _, _ => Some (VNone, r)
            | _, Some r, _, _, _, _ => Some (VBool true, r)
            | _, _, Some r, _, _, _ => Some (VBool false, r)
            | _, _, _, Some r, _, _ => Some (VFloat nan, r)
            | _, _, _, _, Some r, _ => Some (VFloat infinity, r)
            | _, _, _, _, _, Some r => Some (VFloat neg_infinity, r)
            | _, _, _, _, _, _ => parse_number s
            end
      end
  end

with parse_elements (fuel : nat) (s : string) (acc : list value)
  : option (list value * string) :=
  match fuel with
  | O => None
  | S fuel' =>
      match parse_value fuel' s with
      | Some (v, r) =>
          match skip_ws r with
          | String c r' =>
              if code c =? 44 then parse_elements fuel' (skip_ws r') (acc ++ [v])%list
              else if code c =? 93 then Some ((acc ++ [v])%list, r')
              else None
          | EmptyString => None
          end
      | None => None
      end
  end

with parse_members (fuel : nat) (s : string) (acc : dict)
  : option (dict * string) :=
  match fuel with
  | O => None
  | S fuel' =>
      match s with
      | String q rest =>
          if code q =? 34
          then
            match scan_string (S (String.length rest)) rest with
            | Some (k, r) =>
                match skip_ws r with
                | String colon r1 =>
                    if code colon =? 58
                    then
                      match parse_value fuel' (skip_ws r1) with
                      | Some (v, r2) =>
                          match skip_ws r2 with
                          | String c r3 =>
                              if code c =? 44
                              then parse_members fuel' (skip_ws r3) (dict_set acc k v)
                              else if code c =? 125 then Some (dict_set acc k v, r3)
                              else None
                          | EmptyString => None
                          end
                      | None => None
                      end
                    else None
                | EmptyString => None
                end
            | None => None
            end
          else None
      | EmptyString => None
      end
  end.

Definition loads (text : string) : loads_result :=
  match parse_value (S (S (String.length text))) (skip_ws text) with
  | Some (v, rest) =>
      match skip_ws rest with
      | EmptyString => Parsed v
      | _ => JSONDecodeError "Extra data"
      end
  | None => JSONDecodeError "Expecting value"
  end.


(** ** [json.dumps] *)

Definition hex_char (n : Z) : ascii :=
  if n <? 10 then chr (48 + n) else chr (87 + n).

(** The escape of one character, as [ensure_ascii] has it. *)
Definition escape_char (c : ascii) : string :=
  let n := code c in
  if n =? 34 then String (chr 92) (str1 (chr 34))
  else if n =? 92 then String (chr 92) (str1 (chr 92))
  else if n =? 10 then String (chr 92) "n"
  else if n =? 13 then String (chr 92) "r"
  else if n =? 9 then String (chr 92) "t"
  else if n =? 8 then String (chr 92) "b"
  else if n =? 12 then String (chr 92) "f"
  else if (32 <=? n) && (n <=? 126) then str1 c
  else String (chr 92)
         ("u00" ++ String (hex_char (n / 16)) (str1 (hex_char (n mod 16)))).

Fixpoint escape (s : string) : string :=
  match s with
  | EmptyString => ""
  | String c rest => escape_char c ++ escape rest
  end.

Definition quote (s : string) : string :=
  String (chr 34) (escape s ++ str1 (chr 34)).

Definition dumps_float (f : float) : string :=
  match Prim2SF f with
  | S754_nan => "NaN"
  | S754_infinity s => if s then "-Infinity" else "Infinity"
  | _ => repr_float f
  end.

Fixpoint dumps (v : value) : string :=
  match v with
  | VNone => "null"
  | VBool b => if b then "true" else "false"
  | VInt z => string_of_Z z
  | VFloat f => dumps_float f
  | VStr s => quote s
  | VList l => "[" ++ PyStr.join ", " (map dumps l) ++ "]"
  | VDict d =>
      "{" ++ PyStr.join ", " (map (fun kv => quote (fst kv) ++ ": " ++ dumps (snd kv)) d)
          ++ "}"
  end.

(** ** [repr], for [str(v)] *)

Fixpoint has_char (n : Z) (s : string) : bool :=
  match s with
  | EmptyString => false
  | String c rest => (code c =? n) || has_char n rest
  end.

Definition repr_char (quote_code : Z) (c : ascii) : string :=
  let n := code c in
  if (n =? quote_code) || (n =? 92) then String (chr 92) (str1 c)
  else if n =? 10 then String (chr 92) "n"
  else if n =? 13 then String (chr 92) "r"
  else if n =? 9 then String (chr 92) "t"
  else if (n <? 32) || (n =? 127) || ((128 <=? n) && (n <? 161)) || (n =? 173)
  then String (chr 92)
         ("x" ++ String (hex_char (n / 16)) (str1 (hex_char (n mod 16))))
  else str1 c.

Definition repr_str (s : string) : string :=
  let q := if has_char 39 s && negb (has_char 34 s) then 34 else 39 in
  let fix body (t : string) : string :=
    match t with
    | EmptyString => ""
    | String c rest => repr_char q c ++ body rest
    end in
  String (chr q) (body s ++ str1 (chr q)).

Fixpoint repr (v : value) : string :=
  match v with
  | VNone => "None"
  | VBool b => if b then "True" else "False"
  | VInt z => string_of_Z z
  | VFloat f => repr_float f
  | VStr s => repr_str s
  | VList l => "[" ++ PyStr.join ", " (map repr l) ++ "]"
  | VDict d =>
      "{" ++ PyStr.join ", " (map (fun kv => repr_str (fst kv) ++ ": " ++ repr (snd kv)) d)
          ++ "}"
  end.

(** ** [float(s)] *)

(** Underscores may stand between two digits, and nowhere else. *)
Fixpoint drop_underscores (prev_digit : bool) (s : string) : option string :=
  match s with
  | EmptyString => Some ""
  | String c rest =>
      if code c =? 95
      then if prev_digit && starts_with_digit rest
           then drop_underscores false rest else None
      else match drop_underscores (is_digit c) rest with
           | Some t => Some (String c t)
           | None => None
           end
  end.

Definition parse_float (s : string) : option float :=
  let '(neg, s1) :=
    match s with
    | String c r =>
        if code c =? 45 then (true, r)
        else if code c =? 43 then (false, r) else (false, s)
    | EmptyString => (false, s)
    end in
  let word := PyStr.lower s1 in
  if String.eqb word "inf" || String.eqb word "infinity"
  then Some (if neg then neg_infinity else infinity)
  else if String.eqb word "nan" then Some nan
  else
    let '(ip, id, s2) := read_digits s1 0 0 in
    let '(m, fd, s3) :=
      match s2 with
      | String dot r2 => if code dot =? 46 then read_digits r2 ip 0 else (ip, 0, s2)
      | EmptyString => (ip, 0, s2)
      end in
    if id + fd =? 0 then None
    else
      match s3 with
      | EmptyString => Some (float_of_decimal neg m (- fd))
      | _ =>
          match read_exponent s3 with
          | Some (e, EmptyString) => Some (float_of_decimal neg m (e - fd))
          | _ => None
          end
      end.

Definition float_of_str (s : string) : result float :=
  let failure :=
    Raise (ValueError ("could not convert string to float: " ++ repr_str s)) in
  match drop_underscores false (PyStr.strip s) with
  | Some t =>
      match parse_float t with
      | Some f => Ok f
      | None => failure
      end
  | None => failure
  end.

(** ** [sum] of floats, uncompensated: [((0.0 + x1) + x2) + ...] *)

Definition sum_floats (xs : list float) : float :=
  fold_left PrimFloat.add xs 0%float.

End Ref.

(** The reference runtime as an instance of the interface. *)
Definition ref_lib : PyLib :=
  {| json_loads := Ref.loads;
     json_dumps := Ref.dumps;
     float_of_str := Ref.float_of_str;
     repr := Ref.repr;
     round2 := Ref.round2;
     sum_floats := Ref.sum_floats |}.

(* ================================================================== *)
(** * A scripted completion service

    A world that answers the calls from a list prepared in advance, to run
    the agents on concrete inputs. *)

Module Scripted.

Definition script : Type := list (result (option string)).

Definition chat (req : request) (w : script) : result (option string) * script :=
  match w with
  | answer :: w' => (answer, w')
  | [] => (Raise (OtherError "Connection error."), [])
  end.

Definition is_number (v : value) : bool :=
  match v with
  | VInt _ | VFloat _ | VBool _ => true
  | _ => false
  end.

(** The sums of [generate_response] go through when every item is a dict
    whose price, quantity and expected cost are numbers. *)
Definition check_item (v : value) : result unit :=
  match v with
  | VDict item =>
      if is_number (dict_get item "price" (VFloat 0%float))
         && is_number (dict_get item "quantity" (VFloat 1%float))
         && is_number (dict_get item "expected_cost" (VFloat 0%float))
      then Ok tt
      else Raise (TypeError "unsupported operand type(s)")
  | _ => Raise (AttributeError "object has no attribute 'get'")
  end.

Definition prompt (who : persona) (previous_message : option string)
    (bill_json : value) (round_number : Z) : result string :=
  match bill_json with
  | VList items =>
      _ <- mapM check_item items ;;
      Ok (match previous_message with Some m => m | None => "" end
          ++ PyStr.nl ++ Ref.dumps bill_json)
  | _ => Raise (TypeError "object is not iterable")
  end.

Definition services (key : result string) : Services :=
  {| World := script;
     chat_completion := chat;
     env_api_key := key;
     debate_prompt := prompt |}.

(** A run from a script, with no call made yet. *)
Definition start (key : result string) (w : script) : @state (services key) :=
  {| world := (w : @World (services key)); calls := [] |}.

(** The text of a completion: [q] stands for the quotation mark. *)
Definition q : string := Ref.str1 PyStr.dquote.

Definition answer (text : string) : result (option string) := Ok (Some text).

End Scripted.

(* ================================================================== *)
(** * The statements of the specification *)

(** [clamp(x, lo, hi)] *)
Definition clamp (x lo hi : Z) : Z := Z.max lo (Z.min x hi).

(** Roles alternate from the fighter: fighter, hospital, fighter, ... *)
Fixpoint alternating (expected other : string) (roles : list string) : bool :=
  match roles with
  | [] => true
  | r :: rest => String.eqb r expected && alternating other expected rest
  end.

(** The precedence of the payload keys, in the words of the specification:
    the well-known keys in order, then the value of a single key, then the
    first value that is a list, then the empty list. *)
Fixpoint first_known_key (keys : list string) (d : dict) : option value :=
  match keys with
  | [] => None
  | k :: keys' =>
      match dict_lookup k d with
      | Some v => Some v
      | None => first_known_key keys' d
      end
  end.

Definition payload_by_precedence (keys : list string) (d : dict) : value :=
  match first_known_key keys d with
  | Some v => v
  | None =>
      match d with
      | [(_, v)] => v
      | _ =>
          match find is_list (map snd d) with
          | Some v => v
          | None => VList []
          end
      end
  end.

(** The elements of a list that are keyed records. *)
Definition records_of (l : list value) : list dict :=
  flat_map (fun v => match v with VDict d => [d] | _ => [] end) l.

(** A record as the normaliser leaves it. *)
Definition normalized (r : Analysis.AnalysisItem) : Prop :=
  PyStr.strip (Analysis.code r) = Analysis.code r
  /\ PyStr.strip (Analysis.description r) = Analysis.description r
  /\ In (Analysis.flag_level r) Analysis.flag_levels
  /\ (Analysis.notes r = VNone \/ truthy (Analysis.notes r) = true)
  /\ (Analysis.issue r = VNone \/ truthy (Analysis.issue r) = true).

(* ================================================================== *)
(** * Strings: lemmas *)

Module PyStrFacts.
Import PyStr.

Lemma lstrip_head (s : string) :
  lstrip s = EmptyString
  \/ exists c t, lstrip s = String c t /\ isspace c = false.
Proof.
  induction s as [|c s IH]; simpl.
  - now left.
  - destruct (isspace c) eqn:E; [exact IH|].
    right. now exists c, s.
Qed.

Lemma lstrip_fixed (c : ascii) (t : string) :
  isspace c = false -> lstrip (String c t) = String c t.
Proof. intros E. simpl. now rewrite E. Qed.

Lemma rstrip_head (c : ascii) (t : string) :
  isspace c = false -> exists t', rstrip (String c t) = String c t'.
Proof.
  intros E. simpl. destruct (rstrip t) as [|c' r].
  - rewrite E. now exists EmptyString.
  - now exists (String c' r).
Qed.

Lemma rstrip_idempotent (s : string) : rstrip (rstrip s) = rstrip s.
Proof.
  induction s as [|c s IH]; simpl; [reflexivity|].
  destruct (rstrip s) as [|c' r] eqn:E.
  - destruct (isspace c) eqn:Ec; simpl; [reflexivity|].
    now rewrite Ec.
  - simpl in IH |- *.
    destruct (rstrip r) as [|c'' r'] eqn:E'.
    + destruct (isspace c') eqn:Ec'; [discriminate|].
      now inversion IH; subst.
    + now inversion IH; subst.
Qed.

(** [s.strip().strip() == s.strip()] *)
Lemma strip_idempotent (s : string) : strip (strip s) = strip s.
Proof.
  unfold strip.
  destruct (lstrip_head s) as [E | (c & t & E & Hc)]; rewrite E.
  - reflexivity.
  - destruct (rstrip_head c t Hc) as [t' E'].
    rewrite E', (lstrip_fixed c t' Hc), <- E'.
    apply rstrip_idempotent.
Qed.

Lemma strip_empty : strip "" = "".
Proof. reflexivity. Qed.

Lemma prefix_app (x b : string) : String.prefix x (x ++ b) = true.
Proof.
  induction x as [|c x IH]; simpl.
  - now destruct b.
  - destruct (ascii_dec c c); [exact IH | congruence].
Qed.

Lemma prefix_refl (x : string) : String.prefix x x = true.
Proof.
  induction x as [|c x IH]; [reflexivity|].
  simpl. destruct (ascii_dec c c); [exact IH | congruence].
Qed.

Lemma contains_prefix (x h : string) :
  String.prefix x h = true -> contains x h = true.
Proof. intros E. destruct h; cbn [contains]; now rewrite E. Qed.

Lemma contains_append_r (x a b : string) :
  contains x b = true -> contains x (a ++ b) = true.
Proof.
  intros H. induction a as [|c a IH]; simpl; [exact H|].
  rewrite IH. apply orb_true_r.
Qed.

(** A text contains each of the pieces it is concatenated from. *)
Lemma contains_app (a x b : string) : contains x (a ++ x ++ b) = true.
Proof.
  induction a as [|c a IH]; simpl.
  - apply contains_prefix, prefix_app.
  - rewrite IH. apply orb_true_r.
Qed.

Lemma mem_flag_levels (s : string) :
  mem s Analysis.flag_levels = true <-> In s Analysis.flag_levels.
Proof.
  unfold mem. rewrite existsb_exists. split.
  - intros (x & Hin & Heq). apply String.eqb_eq in Heq. now subst.
  - intros Hin. exists s. split; [exact Hin | apply String.eqb_refl].
Qed.

Lemma lower_flag_level (s : string) :
  In s Analysis.flag_levels -> lower s = s.
Proof.
  simpl. intros [<- | [<- | [<- | []]]]; reflexivity.
Qed.

End PyStrFacts.

(* ================================================================== *)
(** * The response normaliser *)

Section NormalizerFacts.
Context {L : PyLib}.

Lemma dict_mem_lookup (k : string) (d : dict) :
  dict_mem k d = match dict_lookup k d with Some _ => true | None => false end.
Proof. reflexivity. Qed.

Lemma single_key (d : dict) :
  (Z.of_nat (List.length d) =? 1) = match d with [_] => true | _ => false end.
Proof.
  destruct d as [|kv [|kv' d]]; try reflexivity.
  apply Z.eqb_neq. cbn [List.length]. lia.
Qed.

Lemma analysis_select_precedence (d : dict) :
  Analysis.select_payload (VDict d)
  = payload_by_precedence ["line_items"; "items"; "analysis"] d.
Proof.
  unfold Analysis.select_payload, payload_by_precedence, first_known_key,
    dict_mem, dict_get, first_list_value, dict_values.
  destruct (dict_lookup "line_items" d); [reflexivity|].
  destruct (dict_lookup "items" d); [reflexivity|].
  destruct (dict_lookup "analysis" d); [reflexivity|].
  rewrite single_key.
  destruct d as [|[k v] [|kv' d]]; reflexivity.
Qed.

Lemma extraction_select_precedence (d : dict) :
  Extraction.select_payload (VDict d)
  = payload_by_precedence ["line_items"; "items"] d.
Proof.
  unfold Extraction.select_payload, payload_by_precedence, first_known_key,
    dict_mem, dict_get, first_list_value, dict_values.
  destruct (dict_lookup "line_items" d); [reflexivity|].
  destruct (dict_lookup "items" d); [reflexivity|].
  rewrite single_key.
  destruct d as [|[k v] [|kv' d]]; reflexivity.
Qed.

(** The loop keeps the records and only them. *)
Lemma analysis_items_records (l : list value) :
  Analysis.normalize_items l = mapM Analysis.normalize_item (records_of l).
Proof.
  induction l as [|v l IH]; [reflexivity|].
  destruct v; cbn [Analysis.normalize_items records_of flat_map app mapM];
    try exact IH.
  fold (records_of l). now rewrite IH.
Qed.

Lemma extraction_items_records (l : list value) :
  Extraction.normalize_items l = mapM Extraction.normalize_item (records_of l).
Proof.
  induction l as [|v l IH]; [reflexivity|].
  destruct v; cbn [Extraction.normalize_items records_of flat_map app mapM];
    try exact IH.
  fold (records_of l). now rewrite IH.
Qed.

Lemma validate_flag_level_in (s : string) :
  In (Analysis.validate_flag_level s) Analysis.flag_levels.
Proof.
  unfold Analysis.validate_flag_level.
  destruct (PyStr.mem s Analysis.flag_levels) eqn:E.
  - now apply PyStrFacts.mem_flag_levels.
  - simpl. now left.
Qed.

Lemma truthy_or_none_shape (item : dict) (k : string) :
  truthy_or_none item k = VNone \/ truthy (truthy_or_none item k) = true.
Proof.
  unfold truthy_or_none.
  destruct (truthy (dict_get item k VNone)) eqn:E; [now right | now left].
Qed.

(** What a successful normalisation of one record returns. *)
Lemma normalize_item_inv (item : dict) (r : Analysis.AnalysisItem) :
  Analysis.normalize_item item = Ok r ->
  exists q p e,
    py_float (dict_get item "quantity" (VFloat 1%float)) = Ok q
    /\ py_float (dict_get item "price" (VFloat 0%float)) = Ok p
    /\ py_float (dict_get item "expected_cost"
                          (dict_get item "price" (VFloat 0%float))) = Ok e
    /\ r = {| Analysis.code :=
                PyStr.strip (py_str (dict_get item "code" (VStr "")));
              Analysis.description :=
                PyStr.strip (py_str (dict_get item "description" (VStr "")));
              Analysis.quantity := q;
              Analysis.price := p;
              Analysis.notes := truthy_or_none item "notes";
              Analysis.expected_cost := e;
              Analysis.overcharge_flag :=
                truthy (dict_get item "overcharge_flag" (VBool false));
              Analysis.flag_level :=
                Analysis.validate_flag_level
                  (PyStr.lower (py_str (dict_get item "flag_level" (VStr "low"))));
              Analysis.issue := truthy_or_none item "issue" |}.
Proof.
  unfold Analysis.normalize_item, rbind.
  destruct (py_float (dict_get item "quantity" _)) as [q|]; [|discriminate].
  destruct (py_float (dict_get item "price" _)) as [p|]; [|discriminate].
  destruct (py_float (dict_get item "expected_cost" _)) as [e|]; [|discriminate].
  intros H. inversion H. now exists q, p, e.
Qed.

Lemma normalize_item_normalized (item : dict) (r : Analysis.AnalysisItem) :
  Analysis.normalize_item item = Ok r -> normalized r.
Proof.
  intros H. destruct (normalize_item_inv _ _ H) as (q & p & e & _ & _ & _ & ->).
  unfold normalized; cbn.
  repeat split.
  - apply PyStrFacts.strip_idempotent.
  - apply PyStrFacts.strip_idempotent.
  - apply validate_flag_level_in.
  - apply truthy_or_none_shape.
  - apply truthy_or_none_shape.
Qed.

Lemma truthy_or_none_fixed (d : dict) (k : string) (v : value) :
  dict_lookup k d = Some v ->
  v = VNone \/ truthy v = true ->
  truthy_or_none d k = v.
Proof.
  intros Hk Hv. unfold truthy_or_none, dict_get. rewrite Hk.
  destruct Hv as [-> | ->]; reflexivity.
Qed.

(** A normalised record, read back as a dict, normalises to itself. *)
Lemma normalize_item_fixed (r : Analysis.AnalysisItem) (d : dict) :
  normalized r ->
  Analysis.to_value r = VDict d ->
  Analysis.normalize_item d = Ok r.
Proof.
  intros (Hc & Hd & Hf & Hn & Hi) E.
  destruct r as [c ds q p n e o f i].
  cbn [Analysis.code Analysis.description Analysis.flag_level
       Analysis.notes Analysis.issue] in Hc, Hd, Hf, Hn, Hi.
  unfold Analysis.to_value in E.
  cbn [Analysis.code Analysis.description Analysis.quantity Analysis.price
       Analysis.notes Analysis.expected_cost Analysis.overcharge_flag
       Analysis.flag_level Analysis.issue] in E.
  inversion E; subst d; clear E.
  unfold Analysis.normalize_item.
  match goal with
  | |- context [truthy_or_none ?D "notes"] =>
      rewrite (truthy_or_none_fixed D "notes" n eq_refl Hn);
      rewrite (truthy_or_none_fixed D "issue" i eq_refl Hi)
  end.
  cbn [dict_get dict_lookup String.eqb Ascii.eqb Bool.eqb py_str py_float
       rbind truthy].
  rewrite Hc, Hd, (PyStrFacts.lower_flag_level f Hf).
  unfold Analysis.validate_flag_level.
  apply PyStrFacts.mem_flag_levels in Hf. rewrite Hf.
  now destruct o.
Qed.

Lemma normalize_items_normalized (l : list value) (out : list Analysis.AnalysisItem) :
  Analysis.normalize_items l = Ok out -> Forall normalized out.
Proof.
  revert out. induction l as [|v l IH]; intros out H.
  - inversion H. constructor.
  - destruct v; cbn [Analysis.normalize_items] in H; try (now apply IH).
    unfold rbind in H.
    destruct (Analysis.normalize_item d) as [r|] eqn:Er; [|discriminate].
    destruct (Analysis.normalize_items l) as [rs|] eqn:Ers; [|discriminate].
    inversion H; subst. constructor.
    + now apply normalize_item_normalized with d.
    + now apply IH.
Qed.

Lemma normalize_items_fixed (out : list Analysis.AnalysisItem) :
  Forall normalized out ->
  Analysis.normalize_items (map Analysis.to_value out) = Ok out.
Proof.
  induction 1 as [|r rs Hr _ IH]; [reflexivity|].
  cbn [map]. unfold Analysis.to_value at 1. cbn [Analysis.normalize_items].
  rewrite (normalize_item_fixed r _ Hr eq_refl).
  cbn [rbind]. now rewrite IH.
Qed.

Lemma parse_response_normalized (text : string) (out : list Analysis.AnalysisItem) :
  Analysis.parse_response text = Ok out -> Forall normalized out.
Proof.
  unfold Analysis.parse_response, Analysis.normalize_parsed.
  destruct (json_loads text) as [parsed|]; [|discriminate].
  destruct (Analysis.select_payload parsed); try discriminate.
  apply normalize_items_normalized.
Qed.

End NormalizerFacts.

(** ** Sample completions *)

Module Samples.
Import Scripted.

(** [{"analysis":[{"code":"X"}]}] *)
Definition analysis_key_text : string :=
  "{" ++ q ++ "analysis" ++ q ++ ":[{" ++ q ++ "code" ++ q ++ ":"
      ++ q ++ "X" ++ q ++ "}]}".

Definition analysis_key_record : Analysis.AnalysisItem :=
  {| Analysis.code := "X";
     Analysis.description := "";
     Analysis.quantity := 1%float;
     Analysis.price := 0%float;
     Analysis.notes := VNone;
     Analysis.expected_cost := 0%float;
     Analysis.overcharge_flag := false;
     Analysis.flag_level := "low";
     Analysis.issue := VNone |}.

(** [{"flag_level": "HIGH"}], as a parsed record *)
Definition shouting_item : dict := [("flag_level", VStr "HIGH")].

(** [[{"code": " A1 ", "price": "12.5", "quantity": 2, "flag_level": "HIGH",
      "notes": "", "issue": "duplicate", "overcharge_flag": 1}, 7, "x"]] *)
Definition messy_text : string :=
  "[{" ++ q ++ "code" ++ q ++ ": " ++ q ++ " A1 " ++ q ++ ", "
       ++ q ++ "price" ++ q ++ ": " ++ q ++ "12.5" ++ q ++ ", "
       ++ q ++ "quantity" ++ q ++ ": 2, "
       ++ q ++ "flag_level" ++ q ++ ": " ++ q ++ "HIGH" ++ q ++ ", "
       ++ q ++ "notes" ++ q ++ ": " ++ q ++ q ++ ", "
       ++ q ++ "issue" ++ q ++ ": " ++ q ++ "duplicate" ++ q ++ ", "
       ++ q ++ "overcharge_flag" ++ q ++ ": 1}, 7, " ++ q ++ "x" ++ q ++ "]".

Definition messy_record : Analysis.AnalysisItem :=
  {| Analysis.code := "A1";
     Analysis.description := "";
     Analysis.quantity := 2%float;
     Analysis.price := 12.5%float;
     Analysis.notes := VNone;
     Analysis.expected_cost := 12.5%float;
     Analysis.overcharge_flag := true;
     Analysis.flag_level := "high";
     Analysis.issue := VStr "duplicate" |}.

Definition messy_line_item : Extraction.LineItem :=
  {| Extraction.code := "A1";
     Extraction.description := "";
     Extraction.quantity := 2%float;
     Extraction.price := 12.5%float;
     Extraction.notes := VNone |}.

(** A text that is no JSON, and one whose payload is no list. *)
Definition broken_text : string := "Sorry, I cannot read this bill.".

Definition scalar_text : string :=
  "{" ++ q ++ "line_items" ++ q ++ ": 3}".

End Samples.

(** ** Properties of the normaliser *)

Section NormalizerProperties.
Context {L : PyLib}.

(** C3. When the answer parses to a keyed mapping, the payload is chosen
    by the precedence of the specification: for the analysis stage the
    keys [line_items], [items], [analysis] in this order, then the value of
    the only key, then the first value that is a list, then the empty list
    (the extraction stage has the same precedence without [analysis]);
    and the answer [{"analysis":[{"code":"X"}]}] of an analysis call gives
    exactly one record, with price 0.0, quantity 1.0, expected cost 0.0,
    flag level "low" and no overcharge flag. *)
Theorem payload_precedence :
  (forall text d,
      json_loads text = Parsed (VDict d) ->
      Analysis.parse_response text
      = match payload_by_precedence ["line_items"; "items"; "analysis"] d with
        | VList l => Analysis.normalize_items l
        | _ => Raise (ValueError "Response is not a list")
        end)
  /\ (forall text d,
         json_loads text = Parsed (VDict d) ->
         Extraction.parse_response text
         = match payload_by_precedence ["line_items"; "items"] d with
           | VList l => Extraction.normalize_items l
           | _ => Raise (ValueError "Response is not a list")
           end)
  /\ (forall text,
         json_loads text
         = Parsed (VDict [("analysis", VList [VDict [("code", VStr "X")]])]) ->
         Analysis.parse_response text = Ok [Samples.analysis_key_record]).
Proof.
  split; [|split].
  - intros text d H. unfold Analysis.parse_response, Analysis.normalize_parsed.
    now rewrite H, analysis_select_precedence.
  - intros text d H. unfold Extraction.parse_response, Extraction.normalize_parsed.
    now rewrite H, extraction_select_precedence.
  - intros text H. unfold Analysis.parse_response. now rewrite H.
Qed.

(** C5, as amended. Every record of the analysis normaliser has a flag
    level among "low", "medium" and "high". The given value (the default
    "low" when the key is missing) is read as text and put in lower case:
    if that text is one of the three it is the flag level, so "HIGH" is
    kept as "high"; every other value becomes "low". *)
Theorem flag_level_canonical (item : dict) (r : Analysis.AnalysisItem) :
  Analysis.normalize_item item = Ok r ->
  In (Analysis.flag_level r) Analysis.flag_levels
  /\ (dict_lookup "flag_level" item = None -> Analysis.flag_level r = "low")
  /\ (forall v,
         dict_lookup "flag_level" item = Some v ->
         (In (PyStr.lower (py_str v)) Analysis.flag_levels ->
          Analysis.flag_level r = PyStr.lower (py_str v))
         /\ (~ In (PyStr.lower (py_str v)) Analysis.flag_levels ->
             Analysis.flag_level r = "low")).
Proof.
  intros H. destruct (normalize_item_inv _ _ H) as (q & p & e & _ & _ & _ & ->).
  cbn [Analysis.flag_level]. split; [apply validate_flag_level_in|].
  unfold dict_get. split.
  - now intros ->.
  - intros v ->. unfold Analysis.validate_flag_level.
    destruct (PyStr.mem (PyStr.lower (py_str v)) Analysis.flag_levels) eqn:E.
    + split; [reflexivity|]. intros Hn. exfalso.
      now apply Hn, PyStrFacts.mem_flag_levels.
    + split; [|reflexivity]. intros Hi.
      apply PyStrFacts.mem_flag_levels in Hi. congruence.
Qed.

(** The two normalisers, one lemma each. *)
Lemma extraction_stage_errors :
  (forall text e,
      json_loads text = JSONDecodeError e ->
      Extraction.parse_response text
      = Raise (ValueError ("Invalid JSON response from Extraction Agent: " ++ e)))
  /\ (forall text parsed,
         json_loads text = Parsed parsed ->
         is_list (Extraction.select_payload parsed) = false ->
         Extraction.parse_response text = Raise (ValueError "Response is not a list"))
  /\ (forall text parsed l,
         json_loads text = Parsed parsed ->
         Extraction.select_payload parsed = VList l ->
         Extraction.parse_response text
         = mapM Extraction.normalize_item (records_of l)).
Proof.
  unfold Extraction.parse_response, Extraction.normalize_parsed.
  split; [|split].
  - now intros text e ->.
  - intros text parsed -> H. now destruct (Extraction.select_payload parsed).
  - intros text parsed l -> ->. apply extraction_items_records.
Qed.

Lemma analysis_stage_errors :
  (forall text e,
      json_loads text = JSONDecodeError e ->
      Analysis.parse_response text
      = Raise (ValueError ("Invalid JSON response from Analysis Agent: " ++ e)))
  /\ (forall text parsed,
         json_loads text = Parsed parsed ->
         is_list (Analysis.select_payload parsed) = false ->
         Analysis.parse_response text = Raise (ValueError "Response is not a list"))
  /\ (forall text parsed l,
         json_loads text = Parsed parsed ->
         Analysis.select_payload parsed = VList l ->
         Analysis.parse_response text
         = mapM Analysis.normalize_item (records_of l)).
Proof.
  unfold Analysis.parse_response, Analysis.normalize_parsed.
  split; [|split].
  - now intros text e ->.
  - intros text parsed -> H. now destruct (Analysis.select_payload parsed).
  - intros text parsed l -> ->. apply analysis_items_records.
Qed.

(** When every record normalises, [mapM] returns one result per record, in
    order. *)
Lemma mapM_ok {A B} (f : A -> result B) (l : list A) :
  Forall (fun a => is_ok (f a) = true) l ->
  exists out, mapM f l = Ok out /\ Forall2 (fun a b => f a = Ok b) l out.
Proof.
  induction 1 as [|a l Ha _ (out & E & F)].
  - exists []. split; [reflexivity | constructor].
  - destruct (f a) as [b|] eqn:Eb; [|discriminate].
    exists (b :: out). cbn [mapM rbind]. rewrite Eb, E. cbn [rbind].
    split; [reflexivity | now constructor].
Qed.

(** C9. The analysis normaliser is idempotent: when it returns a
    collection for some answer, encoding that collection with [json.dumps]
    and normalising the text again returns the same collection (the JSON
    library reading back the value it has written). *)
Theorem normalization_idempotent (text : string) (out : list Analysis.AnalysisItem) :
  Analysis.parse_response text = Ok out ->
  json_loads (json_dumps (VList (map Analysis.to_value out)))
  = Parsed (VList (map Analysis.to_value out)) ->
  Analysis.parse_response (json_dumps (VList (map Analysis.to_value out))) = Ok out.
Proof.
  intros H Hrt. apply parse_response_normalized in H.
  unfold Analysis.parse_response. rewrite Hrt.
  unfold Analysis.normalize_parsed. cbn [Analysis.select_payload].
  now apply normalize_items_fixed.
Qed.

End NormalizerProperties.

(** The answer of the specification's example, read by the reference
    runtime from its text. *)
Lemma payload_precedence_witness :
  Analysis.parse_response (L := ref_lib) Samples.analysis_key_text
  = Ok [Samples.analysis_key_record].
Proof.
  apply (proj2 (proj2 (@payload_precedence ref_lib))).
  vm_compute. reflexivity.
Defined.

(** C5, as stated, fails on a flag level in capitals: "HIGH" is none of
    the three values, and it is not coerced to "low". *)
Lemma flag_level_capitals_kept :
  exists r,
    Analysis.normalize_item (L := ref_lib) Samples.shouting_item = Ok r
    /\ dict_lookup "flag_level" Samples.shouting_item = Some (VStr "HIGH")
    /\ PyStr.mem "HIGH" Analysis.flag_levels = false
    /\ Analysis.flag_level r = "high"
    /\ String.eqb (Analysis.flag_level r) "low" = false.
Proof.
  eexists. repeat split; vm_compute; reflexivity.
Qed.

Lemma flag_level_canonical_witness :
  Analysis.normalize_item (L := ref_lib) Samples.shouting_item
  = Ok {| Analysis.code := "";
          Analysis.description := "";
          Analysis.quantity := 1%float;
          Analysis.price := 0%float;
          Analysis.notes := VNone;
          Analysis.expected_cost := 0%float;
          Analysis.overcharge_flag := false;
          Analysis.flag_level := "high";
          Analysis.issue := VNone |}
  /\ In "high" Analysis.flag_levels.
Proof.
  assert (H : Analysis.normalize_item (L := ref_lib) Samples.shouting_item
              = Ok {| Analysis.code := "";
                      Analysis.description := "";
                      Analysis.quantity := 1%float;
                      Analysis.price := 0%float;
                      Analysis.notes := VNone;
                      Analysis.expected_cost := 0%float;
                      Analysis.overcharge_flag := false;
                      Analysis.flag_level := "high";
                      Analysis.issue := VNone |})
    by (vm_compute; reflexivity).
  split; [exact H|].
  exact (proj1 (@flag_level_canonical ref_lib _ _ H)).
Defined.

Lemma normalization_idempotent_witness :
  Analysis.parse_response (L := ref_lib) Samples.messy_text
  = Ok [Samples.messy_record]
  /\ Analysis.parse_response (L := ref_lib)
       (json_dumps (PyLib := ref_lib)
                   (VList (map Analysis.to_value [Samples.messy_record])))
     = Ok [Samples.messy_record].
Proof.
  assert (H : Analysis.parse_response (L := ref_lib) Samples.messy_text
              = Ok [Samples.messy_record]) by (vm_compute; reflexivity).
  split; [exact H|].
  apply (@normalization_idempotent ref_lib _ _ H).
  vm_compute. reflexivity.
Defined.

(* ================================================================== *)
(** * The aggregator and the pipeline *)

(** The statistics of an empty collection. *)
Definition zero_stats : SummaryStats :=
  {| total_items := 0;
     total_billed := NInt 0;
     total_expected := NInt 0;
     potential_savings := NInt 0;
     flagged_items := 0 |}.

Module PipelineSamples.
Import Scripted.

(** One item billed below its expected cost: 80 billed, 100 expected. *)
Definition cheap_item : Analysis.AnalysisItem :=
  {| Analysis.code := "99213";
     Analysis.description := "Office visit";
     Analysis.quantity := 1%float;
     Analysis.price := 80%float;
     Analysis.notes := VNone;
     Analysis.expected_cost := 100%float;
     Analysis.overcharge_flag := false;
     Analysis.flag_level := "low";
     Analysis.issue := VNone |}.

(** Billed 1.004 against 0.006 expected: the rounded totals are 1.0 and
    0.01, the rounded difference is 1.0. *)
Definition odd_item : Analysis.AnalysisItem :=
  {| Analysis.code := "A";
     Analysis.description := "";
     Analysis.quantity := 1%float;
     Analysis.price := Ref.float_of_decimal false 1004 (-3);
     Analysis.notes := VNone;
     Analysis.expected_cost := Ref.float_of_decimal false 6 (-3);
     Analysis.overcharge_flag := true;
     Analysis.flag_level := "high";
     Analysis.issue := VNone |}.

(** A run where the extraction finds one line item and the analysis
    answers with an empty list. *)
Definition empty_analysis_script : script :=
  [answer Samples.messy_text;
   answer ("{" ++ q ++ "line_items" ++ q ++ ": []}")].

Definition sv : Services := services (Ok "sk-test").

Definition ocr_text : string := "STATEMENT A1 12.50 x2".

(** The default temperatures of [process_medical_bill]: 0.1, 0.2, 0.7. *)
Definition t_extraction : float := Ref.float_of_decimal false 1 (-1).
Definition t_analysis : float := Ref.float_of_decimal false 2 (-1).
Definition t_negotiation : float := Ref.float_of_decimal false 7 (-1).

(** The states of that run: at the start, after the extraction, and after
    the analysis. *)
Definition st0 : @state sv := start (Ok "sk-test") empty_analysis_script.

Definition st1 : @state sv :=
  {| world := ([answer ("{" ++ q ++ "line_items" ++ q ++ ": []}")] : @World sv);
     calls := [ExtractionRequest ocr_text "gpt-4o" t_extraction] |}.

Definition st2 : @state sv :=
  {| world := ([] : @World sv);
     calls := [ExtractionRequest ocr_text "gpt-4o" t_extraction;
               AnalysisRequest [Samples.messy_line_item] "gpt-4o" t_analysis] |}.

End PipelineSamples.

Section PipelineProperties.
Context {L : PyLib} {Sv : Services}.

Lemma py_sum_cons (x : float) (xs : list float) :
  py_sum (x :: xs) = NFloat (sum_floats (x :: xs)).
Proof. reflexivity. Qed.

(** C4. The reported potential savings are the sum of price times
    quantity minus the sum of expected cost times quantity, rounded once
    to two decimals when the statistics are built; the difference is
    taken on the unrounded sums and is not clamped, so it may be negative.
    The two totals are rounded the same way, each once. For the empty
    collection the five statistics are zero. *)
Theorem potential_savings_exact :
  (forall items,
      potential_savings (summarize items)
      = py_round2 (py_sub (sum_billed items) (sum_expected items))
      /\ total_billed (summarize items) = py_round2 (sum_billed items)
      /\ total_expected (summarize items) = py_round2 (sum_expected items)
      /\ total_items (summarize items) = Z.of_nat (List.length items)
      /\ flagged_items (summarize items) = count_flagged items)
  /\ (forall item items,
         let billed i := (Analysis.price i * Analysis.quantity i)%float in
         let expected i := (Analysis.expected_cost i * Analysis.quantity i)%float in
         potential_savings (summarize (item :: items))
         = NFloat (round2 (sum_floats (map billed (item :: items))
                           - sum_floats (map expected (item :: items)))%float))
  /\ summarize [] = zero_stats
  /\ num_eqb (NInt 0) (NFloat 0%float) = true.
Proof.
  split; [|split; [|split]]; try reflexivity.
  intros items. now repeat split.
Qed.

Lemma extraction_agent_calls ocr_text api_key model t (st st1 : state) items :
  extraction_agent ocr_text api_key model t st = (Ok items, st1) ->
  calls st1 = (calls st ++ [ExtractionRequest ocr_text model t])%list.
Proof.
  unfold extraction_agent, mbind, mlift, call_service.
  destruct (resolve_api_key api_key); [|discriminate].
  destruct (chat_completion _ (world st)) as [[c|e] w]; [|discriminate].
  intros H. inversion H. reflexivity.
Qed.

Lemma analysis_agent_calls line_items api_key model t (st st1 : state) items :
  analysis_agent line_items api_key model t st = (Ok items, st1) ->
  calls st1 = (calls st ++ [AnalysisRequest line_items model t])%list.
Proof.
  unfold analysis_agent, mbind, mlift, call_service.
  destruct (resolve_api_key api_key); [|discriminate].
  destruct (chat_completion _ (world st)) as [[c|e] w]; [|discriminate].
  intros H. inversion H. reflexivity.
Qed.

(** A failure of the normaliser leaves the agent as it is: nothing is put
    in its place. *)
Lemma extraction_agent_propagates ocr_text api_key model t (st : state) k text w e :
  resolve_api_key api_key = Ok k ->
  chat_completion (ExtractionRequest ocr_text model t) (world st)
  = (Ok (Some text), w) ->
  Extraction.parse_response text = Raise e ->
  fst (extraction_agent ocr_text api_key model t st) = Raise e.
Proof.
  intros Hk Hc Hp.
  unfold extraction_agent, mbind, mlift, call_service.
  rewrite Hk, Hc. cbn [Extraction.parse_content]. now rewrite Hp.
Qed.

(** An agent whose completion call is answered with a text returns what
    its normaliser makes of that text, whether a list or an exception: the
    inner [try] catches [JSONDecodeError] only, the outer one logs and
    raises again. The call is the one the agent has added to the log. *)
Lemma extraction_agent_run ocr_text api_key model t (st : state) k text w :
  resolve_api_key api_key = Ok k ->
  chat_completion (ExtractionRequest ocr_text model t) (world st)
  = (Ok (Some text), w) ->
  extraction_agent ocr_text api_key model t st
  = (Extraction.parse_response text,
     {| world := w;
        calls := (calls st ++ [ExtractionRequest ocr_text model t])%list |}).
Proof.
  intros Hk Hc.
  unfold extraction_agent, mbind, mlift, call_service.
  rewrite Hk, Hc. cbn [Extraction.parse_content].
  now destruct (Extraction.parse_response text).
Qed.

Lemma analysis_agent_run line_items api_key model t (st : state) k text w :
  resolve_api_key api_key = Ok k ->
  chat_completion (AnalysisRequest line_items model t) (world st)
  = (Ok (Some text), w) ->
  analysis_agent line_items api_key model t st
  = (Analysis.parse_response text,
     {| world := w;
        calls := (calls st ++ [AnalysisRequest line_items model t])%list |}).
Proof.
  intros Hk Hc.
  unfold analysis_agent, mbind, mlift, call_service.
  rewrite Hk, Hc. cbn [Analysis.parse_content].
  now destruct (Analysis.parse_response text).
Qed.

(** [process_medical_bill] has no handler around its stages: what a stage
    raises is what the pipeline raises, in the state the stage has left. *)
Lemma pipeline_extraction_raises ocr_text api_key model te ta tn (st : state) e :
  fst (extraction_agent ocr_text api_key model te st) = Raise e ->
  process_medical_bill ocr_text api_key model te ta tn st
  = (Raise e, snd (extraction_agent ocr_text api_key model te st)).
Proof.
  unfold process_medical_bill, mbind at 1.
  destruct (extraction_agent ocr_text api_key model te st) as [[items|e'] st1];
    cbn [fst snd]; [discriminate|].
  now intros [= ->].
Qed.

Lemma pipeline_analysis_raises ocr_text api_key model te ta tn
    (st st1 : state) line_items e :
  extraction_agent ocr_text api_key model te st = (Ok line_items, st1) ->
  nonempty line_items = true ->
  fst (analysis_agent line_items api_key model ta st1) = Raise e ->
  process_medical_bill ocr_text api_key model te ta tn st
  = (Raise e, snd (analysis_agent line_items api_key model ta st1)).
Proof.
  intros He Hn.
  unfold process_medical_bill, mbind at 1. rewrite He.
  unfold mbind at 1. rewrite Hn.
  destruct (analysis_agent line_items api_key model ta st1) as [[items|e'] st2];
    cbn [fst snd]; [discriminate|].
  now intros [= ->].
Qed.

(** C6. In both normalisation stages, an agent whose completion call is
    answered with a text: if the text is no JSON the agent raises, with
    the decoder's message; if the payload after unwrapping is not a list
    the agent raises too; neither is replaced by an empty result, and the
    pipeline that called the agent raises the same exception, running no
    later stage. The elements of a list that are not keyed records are
    dropped without an error: the agent returns what normalising the
    record-shaped elements alone returns, one output record for each of
    them, in order. In every case the only call made is the agent's own. *)
Theorem stage_parse_errors
    (ocr_text : string) (line_items : list Extraction.LineItem)
    (api_key : option string) (model : string) (t : float)
    (st : state) (k text : string) (w : World) :
  resolve_api_key api_key = Ok k ->
  (chat_completion (ExtractionRequest ocr_text model t) (world st)
   = (Ok (Some text), w) ->
   let st' := {| world := w;
                 calls := (calls st ++ [ExtractionRequest ocr_text model t])%list |} in
   (forall e,
       json_loads text = JSONDecodeError e ->
       extraction_agent ocr_text api_key model t st
       = (Raise (ValueError ("Invalid JSON response from Extraction Agent: " ++ e)),
          st'))
   /\ (forall parsed,
          json_loads text = Parsed parsed ->
          is_list (Extraction.select_payload parsed) = false ->
          extraction_agent ocr_text api_key model t st
          = (Raise (ValueError "Response is not a list"), st'))
   /\ (forall parsed l,
          json_loads text = Parsed parsed ->
          Extraction.select_payload parsed = VList l ->
          extraction_agent ocr_text api_key model t st
          = (mapM Extraction.normalize_item (records_of l), st')
          /\ (Forall (fun d => is_ok (Extraction.normalize_item d) = true)
                     (records_of l) ->
              exists out,
                extraction_agent ocr_text api_key model t st = (Ok out, st')
                /\ Forall2 (fun d r => Extraction.normalize_item d = Ok r)
                           (records_of l) out)))
  /\ (chat_completion (AnalysisRequest line_items model t) (world st)
      = (Ok (Some text), w) ->
      let st' := {| world := w;
                    calls := (calls st ++ [AnalysisRequest line_items model t])%list |} in
      (forall e,
          json_loads text = JSONDecodeError e ->
          analysis_agent line_items api_key model t st
          = (Raise (ValueError ("Invalid JSON response from Analysis Agent: " ++ e)),
             st'))
      /\ (forall parsed,
             json_loads text = Parsed parsed ->
             is_list (Analysis.select_payload parsed) = false ->
             analysis_agent line_items api_key model t st
             = (Raise (ValueError "Response is not a list"), st'))
      /\ (forall parsed l,
             json_loads text = Parsed parsed ->
             Analysis.select_payload parsed = VList l ->
             analysis_agent line_items api_key model t st
             = (mapM Analysis.normalize_item (records_of l), st')
             /\ (Forall (fun d => is_ok (Analysis.normalize_item d) = true)
                        (records_of l) ->
                 exists out,
                   analysis_agent line_items api_key model t st = (Ok out, st')
                   /\ Forall2 (fun d r => Analysis.normalize_item d = Ok r)
                              (records_of l) out)))
  /\ (forall ta tn e,
         fst (extraction_agent ocr_text api_key model t st) = Raise e ->
         process_medical_bill ocr_text api_key model t ta tn st
         = (Raise e, snd (extraction_agent ocr_text api_key model t st)))
  /\ (forall text0 te tn (st0 : state) e,
         extraction_agent text0 api_key model te st0 = (Ok line_items, st) ->
         nonempty line_items = true ->
         fst (analysis_agent line_items api_key model t st) = Raise e ->
         process_medical_bill text0 api_key model te t tn st0
         = (Raise e, snd (analysis_agent line_items api_key model t st))).
Proof.
  intros Hk. split; [|split; [|split]].
  - intros Hc st'. subst st'.
    rewrite (extraction_agent_run _ _ _ _ _ _ _ _ Hk Hc).
    destruct extraction_stage_errors as (Hjson & Hlist & Hrec).
    split; [|split].
    + intros e H. now rewrite (Hjson _ _ H).
    + intros parsed H Hl. now rewrite (Hlist _ _ H Hl).
    + intros parsed l H Hl. rewrite (Hrec _ _ _ H Hl).
      split; [reflexivity|]. intros Hall.
      destruct (mapM_ok _ _ Hall) as (out & E & F).
      exists out. now rewrite E.
  - intros Hc st'. subst st'.
    rewrite (analysis_agent_run _ _ _ _ _ _ _ _ Hk Hc).
    destruct analysis_stage_errors as (Hjson & Hlist & Hrec).
    split; [|split].
    + intros e H. now rewrite (Hjson _ _ H).
    + intros parsed H Hl. now rewrite (Hlist _ _ H Hl).
    + intros parsed l H Hl. rewrite (Hrec _ _ _ H Hl).
      split; [reflexivity|]. intros Hall.
      destruct (mapM_ok _ _ Hall) as (out & E & F).
      exists out. now rewrite E.
  - intros ta tn e. apply pipeline_extraction_raises.
  - intros text0 te tn st0 e. apply pipeline_analysis_raises.
Qed.

(** C7. When the analysis collection is empty (no line item was
    extracted, or the analysis returned none), the pipeline returns a
    result: the negotiation agent is not called (the calls made are the
    extraction call and, if there were line items, the analysis call),
    the negotiation materials are the fixed placeholder, and the
    statistics are those of the empty collection, all zero. *)
Theorem empty_analysis_degrades
    ocr_text api_key model t_extraction t_analysis t_negotiation
    (st st1 st2 : state) (line_items : list Extraction.LineItem) :
  extraction_agent ocr_text api_key model t_extraction st = (Ok line_items, st1) ->
  (if nonempty line_items
   then analysis_agent line_items api_key model t_analysis
   else mret []) st1 = (Ok [], st2) ->
  process_medical_bill ocr_text api_key model
    t_extraction t_analysis t_negotiation st
  = (Ok {| extraction := line_items;
           analysis := [];
           negotiation := placeholder_materials;
           summary_stats := zero_stats |}, st2)
  /\ calls st2
     = (calls st
        ++ ExtractionRequest ocr_text model t_extraction
        :: (if nonempty line_items
            then [AnalysisRequest line_items model t_analysis]
            else []))%list
  /\ num_eqb (total_billed zero_stats) (NFloat 0%float) = true
  /\ num_eqb (total_expected zero_stats) (NFloat 0%float) = true
  /\ num_eqb (potential_savings zero_stats) (NFloat 0%float) = true.
Proof.
  intros He Ha. split; [|split; [|now repeat split]].
  - unfold process_medical_bill, mbind at 1. rewrite He.
    unfold mbind at 1. rewrite Ha. reflexivity.
  - destruct (nonempty line_items).
    + rewrite (analysis_agent_calls _ _ _ _ _ _ _ Ha).
      now rewrite (extraction_agent_calls _ _ _ _ _ _ _ He), <- app_assoc.
    + inversion Ha; subst st2.
      now rewrite (extraction_agent_calls _ _ _ _ _ _ _ He).
Qed.

End PipelineProperties.

(** A bill charged below the expected cost: the savings are negative. *)
Lemma potential_savings_exact_witness :
  potential_savings (summarize (L := ref_lib) [PipelineSamples.cheap_item])
  = NFloat (-20)%float.
Proof.
  rewrite (proj1 (proj2 (@potential_savings_exact ref_lib))).
  vm_compute. reflexivity.
Defined.

(** The three reported figures are rounded separately: the reported
    savings are not always the difference of the two reported totals. *)
Lemma reported_totals_rounded_separately :
  let stats := summarize (L := ref_lib) [PipelineSamples.odd_item] in
  total_billed stats = NFloat 1%float
  /\ total_expected stats = NFloat (Ref.float_of_decimal false 1 (-2))
  /\ potential_savings stats = NFloat 1%float
  /\ py_sub (total_billed stats) (total_expected stats)
     = NFloat (Ref.float_of_decimal false 99 (-2)).
Proof. vm_compute. repeat split. Qed.

Module ParseSamples.
Import Scripted PipelineSamples.

(** A run whose first completion call is answered with [text]. *)
Definition run (text : string) : @state sv := start (Ok "sk-test") [answer text].

(** The state after that one call. *)
Definition after (req : request) : @state sv :=
  {| world := ([] : @World sv); calls := [req] |}.

Definition extraction_call : request :=
  ExtractionRequest ocr_text "gpt-4o" t_extraction.

Definition analysis_call : request :=
  AnalysisRequest [Samples.messy_line_item] "gpt-4o" t_analysis.

(** The parsed form of [Samples.messy_text]: a list of three elements. *)
Definition messy_elements : list value :=
  [VDict [("code", VStr " A1 "); ("price", VStr "12.5");
          ("quantity", VInt 2); ("flag_level", VStr "HIGH");
          ("notes", VStr ""); ("issue", VStr "duplicate");
          ("overcharge_flag", VInt 1)];
   VInt 7; VStr "x"].

Definition messy_value : value := VList messy_elements.

End ParseSamples.

(** Both agents and the pipeline on three answers: a text that is no
    JSON, an object whose [line_items] is a number, and a list of one
    record, a number and a string. *)
Lemma stage_parse_errors_witness :
  extraction_agent (L := ref_lib) (Sv := PipelineSamples.sv)
    PipelineSamples.ocr_text None "gpt-4o" PipelineSamples.t_extraction
    (ParseSamples.run Samples.broken_text)
  = (Raise (ValueError "Invalid JSON response from Extraction Agent: Expecting value"),
     ParseSamples.after ParseSamples.extraction_call)
  /\ extraction_agent (L := ref_lib) (Sv := PipelineSamples.sv)
       PipelineSamples.ocr_text None "gpt-4o" PipelineSamples.t_extraction
       (ParseSamples.run Samples.scalar_text)
     = (Raise (ValueError "Response is not a list"),
        ParseSamples.after ParseSamples.extraction_call)
  /\ extraction_agent (L := ref_lib) (Sv := PipelineSamples.sv)
       PipelineSamples.ocr_text None "gpt-4o" PipelineSamples.t_extraction
       (ParseSamples.run Samples.messy_text)
     = (Ok [Samples.messy_line_item],
        ParseSamples.after ParseSamples.extraction_call)
  /\ analysis_agent (L := ref_lib) (Sv := PipelineSamples.sv)
       [Samples.messy_line_item] None "gpt-4o" PipelineSamples.t_analysis
       (ParseSamples.run Samples.broken_text)
     = (Raise (ValueError "Invalid JSON response from Analysis Agent: Expecting value"),
        ParseSamples.after ParseSamples.analysis_call)
  /\ analysis_agent (L := ref_lib) (Sv := PipelineSamples.sv)
       [Samples.messy_line_item] None "gpt-4o" PipelineSamples.t_analysis
       (ParseSamples.run Samples.scalar_text)
     = (Raise (ValueError "Response is not a list"),
        ParseSamples.after ParseSamples.analysis_call)
  /\ analysis_agent (L := ref_lib) (Sv := PipelineSamples.sv)
       [Samples.messy_line_item] None "gpt-4o" PipelineSamples.t_analysis
       (ParseSamples.run Samples.messy_text)
     = (Ok [Samples.messy_record],
        ParseSamples.after ParseSamples.analysis_call)
  /\ process_medical_bill (L := ref_lib) (Sv := PipelineSamples.sv)
       PipelineSamples.ocr_text None "gpt-4o"
       PipelineSamples.t_extraction PipelineSamples.t_analysis
       PipelineSamples.t_negotiation (ParseSamples.run Samples.scalar_text)
     = (Raise (ValueError "Response is not a list"),
        ParseSamples.after ParseSamples.extraction_call).
Proof.
  assert (Hbroken : json_loads (PyLib := ref_lib) Samples.broken_text
                    = JSONDecodeError "Expecting value")
    by (vm_compute; reflexivity).
  assert (Hscalar : json_loads (PyLib := ref_lib) Samples.scalar_text
                    = Parsed (VDict [("line_items", VInt 3)]))
    by (vm_compute; reflexivity).
  assert (Hmessy : json_loads (PyLib := ref_lib) Samples.messy_text
                   = Parsed ParseSamples.messy_value)
    by (vm_compute; reflexivity).
  assert (Hline : mapM (Extraction.normalize_item (L := ref_lib))
                       (records_of ParseSamples.messy_elements)
                  = Ok [Samples.messy_line_item])
    by (vm_compute; reflexivity).
  assert (Hrecord : mapM (Analysis.normalize_item (L := ref_lib))
                         (records_of ParseSamples.messy_elements)
                    = Ok [Samples.messy_record])
    by (vm_compute; reflexivity).
  pose (at_text := fun t text =>
    @stage_parse_errors ref_lib PipelineSamples.sv
      PipelineSamples.ocr_text [Samples.messy_line_item] None "gpt-4o" t
      (ParseSamples.run text) "sk-test" text ([] : @World PipelineSamples.sv)
      eq_refl).
  assert (Hx2 : extraction_agent (L := ref_lib) (Sv := PipelineSamples.sv)
                  PipelineSamples.ocr_text None "gpt-4o"
                  PipelineSamples.t_extraction
                  (ParseSamples.run Samples.scalar_text)
                = (Raise (ValueError "Response is not a list"),
                   ParseSamples.after ParseSamples.extraction_call)).
  { destruct (at_text PipelineSamples.t_extraction Samples.scalar_text)
      as (Hx & _).
    exact (proj1 (proj2 (Hx eq_refl)) _ Hscalar eq_refl). }
  split; [|split; [|split; [|split; [|split; [|split]]]]].
  - destruct (at_text PipelineSamples.t_extraction Samples.broken_text)
      as (Hx & _).
    exact (proj1 (Hx eq_refl) _ Hbroken).
  - exact Hx2.
  - destruct (at_text PipelineSamples.t_extraction Samples.messy_text)
      as (Hx & _).
    etransitivity;
      [exact (proj1 (proj2 (proj2 (Hx eq_refl)) _ ParseSamples.messy_elements
                      Hmessy eq_refl))|].
    now rewrite Hline.
  - destruct (at_text PipelineSamples.t_analysis Samples.broken_text)
      as (_ & Ha & _).
    exact (proj1 (Ha eq_refl) _ Hbroken).
  - destruct (at_text PipelineSamples.t_analysis Samples.scalar_text)
      as (_ & Ha & _).
    exact (proj1 (proj2 (Ha eq_refl)) _ Hscalar eq_refl).
  - destruct (at_text PipelineSamples.t_analysis Samples.messy_text)
      as (_ & Ha & _).
    etransitivity;
      [exact (proj1 (proj2 (proj2 (Ha eq_refl)) _ ParseSamples.messy_elements
                      Hmessy eq_refl))|].
    now rewrite Hrecord.
  - destruct (at_text PipelineSamples.t_extraction Samples.scalar_text)
      as (_ & _ & Hp & _).
    rewrite (Hp PipelineSamples.t_analysis PipelineSamples.t_negotiation
                (ValueError "Response is not a list"));
      now rewrite Hx2.
Defined.

Lemma empty_analysis_degrades_witness :
  process_medical_bill (L := ref_lib) (Sv := PipelineSamples.sv)
    PipelineSamples.ocr_text None "gpt-4o"
    PipelineSamples.t_extraction PipelineSamples.t_analysis
    PipelineSamples.t_negotiation PipelineSamples.st0
  = (Ok {| extraction := [Samples.messy_line_item];
           analysis := [];
           negotiation := placeholder_materials;
           summary_stats := zero_stats |},
     PipelineSamples.st2).
Proof.
  refine (proj1 (@empty_analysis_degrades ref_lib PipelineSamples.sv
                   _ _ _ _ _ _ PipelineSamples.st0 PipelineSamples.st1
                   PipelineSamples.st2 [Samples.messy_line_item] _ _)).
  - reflexivity.
  - reflexivity.
Defined.

(* ================================================================== *)
(** * The debate *)

Module DebateSamples.
Import Scripted.

(** The manager of [backend/api.py]: [DebateManager(max_rounds=10)]. *)
Definition api_manager : DebateManager :=
  {| dm_model := "gpt-4o";
     dm_temperature := Ref.float_of_decimal false 8 (-1);
     max_rounds := 10 |}.

Definition bill : value := VList [Analysis.to_value Samples.messy_record].

(** Twenty answers, enough for ten rounds. *)
Definition twenty_answers : script := repeat (answer " A point. ") 20.

Definition st0 : @state PipelineSamples.sv :=
  start (Ok "sk-test") twenty_answers.

End DebateSamples.

Section DebateProperties.
Context {Sv : Services}.

Definition refusal : exn :=
  ValueError "bill_json must be a non-empty list of line items".

(** The number of rounds after line 357. *)
Definition rounds_of (self : DebateManager) (num_rounds : option Z) : Z :=
  clamp (match num_rounds with Some n => n | None => max_rounds self end)
        1 (max_rounds self).

Lemma run_debate_refuses self bill_json num_rounds (st : state) :
  truthy bill_json && is_list bill_json = false ->
  run_debate self bill_json num_rounds st = (Raise refusal, st).
Proof.
  intros H. unfold run_debate.
  rewrite <- negb_andb, H. reflexivity.
Qed.

Lemma run_debate_accepts self bill_json num_rounds (st st' : state) t :
  run_debate self bill_json num_rounds st = (Ok t, st') ->
  exists item items, bill_json = VList (item :: items).
Proof.
  intros H.
  destruct (truthy bill_json && is_list bill_json) eqn:G.
  - apply andb_true_iff in G. destruct G as [Gt Gl].
    destruct bill_json as [| | | | |[|item items]|]; try discriminate.
    now exists item, items.
  - rewrite (run_debate_refuses _ _ _ _ G) in H. discriminate.
Qed.

Ltac turn H :=
  match type of H with
  | context [generate_response ?s ?w ?p ?b ?r ?st] =>
      let m := fresh "m" in
      let st' := fresh "st" in
      destruct (generate_response s w p b r st) as [[m|?] st'];
      [|discriminate H]
  end.

(** What a successful run returns: two, four or six messages. *)
Lemma run_debate_shape self bill_json num_rounds (st st' : state) t :
  run_debate self bill_json num_rounds st = (Ok t, st') ->
  let n := rounds_of self num_rounds in
  (n < 2 /\ exists f1 h1, t = [say "fighter" f1; say "hospital" h1])
  \/ (n = 2 /\ exists f1 h1 f2 h2,
         t = [say "fighter" f1; say "hospital" h1;
              say "fighter" f2; say "hospital" h2])
  \/ (3 <= n /\ exists f1 h1 f2 h2 f3 h3,
         t = [say "fighter" f1; say "hospital" h1;
              say "fighter" f2; say "hospital" h2;
              say "fighter" f3; say "hospital" h3]).
Proof.
  intros H n. unfold run_debate in H.
  destruct (negb (truthy bill_json) || negb (is_list bill_json));
    [discriminate|].
  fold (rounds_of self num_rounds) in H. unfold clamp in H.
  change (Z.max 1 (Z.min (match num_rounds with
                          | Some k => k | None => max_rounds self end)
                         (max_rounds self))) with n in H.
  unfold mbind, mret in H.
  turn H. turn H.
  destruct (Z.geb_spec n 2) as [G2|G2].
  - turn H. turn H.
    destruct (Z.geb_spec n 3) as [G3|G3].
    + turn H. turn H. inversion H; subst.
      right; right. split; [lia|]. now repeat eexists.
    + inversion H; subst.
      right; left. split; [lia|]. now repeat eexists.
  - destruct (Z.geb_spec n 3) as [G3|G3]; [lia|].
    inversion H; subst.
    left. split; [lia|]. now repeat eexists.
Qed.

(** A successful run has twice as many messages as rounds, up to three
    rounds, and no more than six messages whatever was asked for; the
    roles alternate from the fighter. *)
Lemma run_debate_rounds self bill_json num_rounds (st st' : state) t :
  run_debate self bill_json num_rounds st = (Ok t, st') ->
  Z.of_nat (List.length t) = 2 * Z.min 3 (rounds_of self num_rounds)
  /\ alternating "fighter" "hospital" (map role t) = true.
Proof.
  intros H. destruct (run_debate_shape _ _ _ _ _ _ H)
    as [(Hn & f1 & h1 & ->)
       | [(Hn & f1 & h1 & f2 & h2 & ->)
         | (Hn & f1 & h1 & f2 & h2 & f3 & h3 & ->)]];
    (split; [|reflexivity]); cbn [List.length].
  - assert (1 <= rounds_of self num_rounds) by (unfold rounds_of, clamp; lia).
    lia.
  - lia.
  - lia.
Qed.

(** C10. [run_debate] refuses a bill that is empty or is not a list: it
    raises the [ValueError] of line 354 and leaves the state as it was, so
    no completion call has been made; a transcript is returned only for a
    list with at least one item. *)
Theorem run_debate_rejects_empty :
  (forall self bill_json num_rounds (st : state),
      truthy bill_json && is_list bill_json = false ->
      run_debate self bill_json num_rounds st = (Raise refusal, st)
      /\ calls (snd (run_debate self bill_json num_rounds st)) = calls st)
  /\ (forall self bill_json num_rounds (st st' : state) t,
         run_debate self bill_json num_rounds st = (Ok t, st') ->
         exists item items, bill_json = VList (item :: items)).
Proof.
  split.
  - intros self bill_json num_rounds st H.
    now rewrite (run_debate_refuses _ _ _ _ H).
  - exact run_debate_accepts.
Qed.

End DebateProperties.

(** C1 fails on the code. The manager of the HTTP API is built with
    [max_rounds=10] and asked for ten rounds; with a service that answers
    every call, the run makes six calls and returns six messages, where
    2 x clamp(10, 1, 10) is twenty: rounds four to ten are never played. *)
Theorem ten_rounds_asked_three_played :
  fst (run_debate DebateSamples.api_manager DebateSamples.bill (Some 10)
         DebateSamples.st0)
  = Ok [say "fighter" "A point."; say "hospital" "A point.";
        say "fighter" "A point."; say "hospital" "A point.";
        say "fighter" "A point."; say "hospital" "A point."]
  /\ List.length
       (calls (snd (run_debate DebateSamples.api_manager DebateSamples.bill
                      (Some 10) DebateSamples.st0))) = 6%nat
  /\ List.length
       (world (snd (run_debate DebateSamples.api_manager DebateSamples.bill
                      (Some 10) DebateSamples.st0)) : Scripted.script) = 14%nat
  /\ 2 * clamp 10 1 (max_rounds DebateSamples.api_manager) = 20.
Proof.
  split; [vm_compute; reflexivity|].
  split; [vm_compute; reflexivity|].
  split; [vm_compute; reflexivity|].
  reflexivity.
Qed.

Lemma run_debate_rejects_empty_witness :
  run_debate DebateSamples.api_manager (VList []) (Some 3) DebateSamples.st0
  = (Raise refusal, DebateSamples.st0)
  /\ run_debate DebateSamples.api_manager (VStr "not a list") None
       DebateSamples.st0
     = (Raise refusal, DebateSamples.st0).
Proof.
  split.
  - apply (proj1 (@run_debate_rejects_empty PipelineSamples.sv)). reflexivity.
  - apply (proj1 (@run_debate_rejects_empty PipelineSamples.sv)). reflexivity.
Defined.

Lemma run_debate_rounds_witness :
  fst (run_debate DebateSamples.api_manager DebateSamples.bill (Some 2)
         DebateSamples.st0)
  = Ok [say "fighter" "A point."; say "hospital" "A point.";
        say "fighter" "A point."; say "hospital" "A point."]
  /\ Z.of_nat (List.length
                 [say "fighter" "A point."; say "hospital" "A point.";
                  say "fighter" "A point."; say "hospital" "A point."])
     = 2 * Z.min 3 (rounds_of DebateSamples.api_manager (Some 2)).
Proof.
  assert (H : fst (run_debate DebateSamples.api_manager DebateSamples.bill
                     (Some 2) DebateSamples.st0)
              = Ok [say "fighter" "A point."; say "hospital" "A point.";
                    say "fighter" "A point."; say "hospital" "A point."])
    by (vm_compute; reflexivity).
  split; [exact H|].
  refine (proj1 (@run_debate_rounds PipelineSamples.sv
                   DebateSamples.api_manager DebateSamples.bill (Some 2)
                   DebateSamples.st0
                   (snd (run_debate DebateSamples.api_manager DebateSamples.bill
                           (Some 2) DebateSamples.st0)) _ _)).
  rewrite <- H. apply surjective_pairing.
Defined.

(* ================================================================== *)
(** * Text extraction with OCR fallback *)

Module OcrSamples.

(** A scanned bill: the PDF opens, its two pages carry six characters of
    embedded text in all once stripped, and OCR reads the first page and
    fails on the second. *)
Definition scanned : Ocr.Document :=
  {| Ocr.is_path := true;
     Ocr.file_path := "bill.pdf";
     Ocr.path_exists := true;
     Ocr.pdf_pages := Ok [Ok (Some "  Page 1   "); Ok None];
     Ocr.tesseract_version := Ok tt;
     Ocr.page_images :=
       Ok [Ok " TOTAL DUE 120.00 "; Raise (OtherError "tesseract crashed")] |}.

(** A stream that is no PDF, on a machine without Tesseract. *)
Definition unreadable : Ocr.Document :=
  {| Ocr.is_path := false;
     Ocr.file_path := "";
     Ocr.path_exists := false;
     Ocr.pdf_pages := Raise (OtherError "No /Root object!");
     Ocr.tesseract_version := Raise (OtherError "tesseract is not installed");
     Ocr.page_images := Ok [] |}.

End OcrSamples.

Module OcrFacts.
Import Ocr.

(** The result of [extract], from the pages and the method. *)
Definition pack (return_pages : bool) (pages : list string) (method : string)
  : extracted :=
  let text := PyStr.join (PyStr.nl ++ PyStr.nl) pages in
  if return_pages then WithPages text pages method else TextOnly text.

(** Every run of the selector, by the outcomes of the two extractors. An
    OCR failure after a short direct text is caught by the same handler:
    OCR runs a second time. *)
Lemma extract_run (doc : Document) (return_pages : bool) (threshold : Z) :
  extract doc return_pages threshold []
  = match text_extract doc with
    | Ok pages =>
        if total_length pages >=? threshold
        then (Ok (pack return_pages pages "text"), [Direct])
        else
          match ocr_extract doc with
          | Ok scanned => (Ok (pack return_pages scanned "ocr"), [Direct; Fallback])
          | Raise e => (Raise (both_failed e e), [Direct; Fallback; Fallback])
          end
    | Raise text_error =>
        match ocr_extract doc with
        | Ok scanned => (Ok (pack return_pages scanned "ocr"), [Direct; Fallback])
        | Raise ocr_error =>
            (Raise (both_failed text_error ocr_error), [Direct; Fallback])
        end
    end.
Proof.
  unfold extract, mbind, mtry, mret, mraise, call_text_extractor,
    call_ocr_extractor, pack.
  cbn [app].
  destruct (text_extract doc) as [pages|text_error].
  - destruct (total_length pages >=? threshold).
    + now destruct return_pages.
    + cbn [app]. destruct (ocr_extract doc) as [scanned|e] eqn:E;
        cbn [app]; [|reflexivity].
      now destruct return_pages.
  - cbn [app]. destruct (ocr_extract doc) as [scanned|e]; cbn [app];
      [|reflexivity].
    now destruct return_pages.
Qed.

(** The message of the combined error names both causes. *)
Lemma both_failed_names (text_error ocr_error : exn) :
  PyStr.contains (exn_str text_error) (exn_str (both_failed text_error ocr_error))
  = true
  /\ PyStr.contains (exn_str ocr_error) (exn_str (both_failed text_error ocr_error))
     = true.
Proof.
  unfold both_failed. cbn [exn_str]. split.
  - do 2 apply PyStrFacts.contains_append_r.
    apply PyStrFacts.contains_prefix, PyStrFacts.prefix_app.
  - do 5 apply PyStrFacts.contains_append_r.
    apply PyStrFacts.contains_prefix, PyStrFacts.prefix_refl.
Qed.

Lemma map_text_page_length (pages : list (result (option string))) :
  List.length (map text_page pages) = List.length pages.
Proof. apply length_map. Qed.

(** C2. The selector calls the fallback extractor exactly when the direct
    extractor raised, or returned pages whose joined and stripped text is
    shorter than the threshold (50 unless another is given); when that
    length reaches the threshold, the direct pages are returned with the
    method "text" and the only call made is the direct one. *)
Theorem fallback_iff_short_or_raised
    (doc : Document) (return_pages : bool) (threshold : Z) :
  (fallback_invoked (snd (extract doc return_pages threshold [])) = true
   <-> (exists pages,
           text_extract doc = Ok pages /\ total_length pages < threshold)
       \/ (exists e, text_extract doc = Raise e))
  /\ (forall pages,
         text_extract doc = Ok pages ->
         threshold <= total_length pages ->
         extract doc return_pages threshold []
         = (Ok (pack return_pages pages "text"), [Direct]))
  /\ default_min_text_threshold = 50.
Proof.
  rewrite extract_run. split; [|split; [|reflexivity]].
  - destruct (text_extract doc) as [pages|e].
    + destruct (Z.geb_spec (total_length pages) threshold) as [G|G].
      * split; [discriminate|].
        intros [(p & E & Hlt) | (e & E)]; [|discriminate].
        inversion E; subst. lia.
      * split.
        -- intros _. left. now exists pages.
        -- intros _. now destruct (ocr_extract doc).
    + split.
      * intros _. right. now exists e.
      * intros _. now destruct (ocr_extract doc).
  - intros pages -> G.
    destruct (Z.geb_spec (total_length pages) threshold); [reflexivity | lia].
Qed.

(** C8. When the direct extractor raises, the selector calls the fallback
    extractor; when that one raises too, a single [ValueError] is raised
    whose message contains the message of the direct error and the message
    of the OCR error. Inside either extractor a page whose extraction
    raises does not end the document: once the document is opened, the
    extractor returns one text per page, the empty string for a page that
    failed. *)
Theorem both_failures_reported :
  (forall doc return_pages threshold text_error,
      text_extract doc = Raise text_error ->
      fallback_invoked (snd (extract doc return_pages threshold [])) = true
      /\ (forall scanned,
             ocr_extract doc = Ok scanned ->
             extract doc return_pages threshold []
             = (Ok (pack return_pages scanned "ocr"), [Direct; Fallback]))
      /\ (forall ocr_error,
             ocr_extract doc = Raise ocr_error ->
             extract doc return_pages threshold []
             = (Raise (both_failed text_error ocr_error), [Direct; Fallback])
             /\ is_ValueError (both_failed text_error ocr_error) = true
             /\ PyStr.contains (exn_str text_error)
                  (exn_str (both_failed text_error ocr_error)) = true
             /\ PyStr.contains (exn_str ocr_error)
                  (exn_str (both_failed text_error ocr_error)) = true))
  /\ (forall doc pages,
         is_path doc && negb (path_exists doc) = false ->
         pdf_pages doc = Ok pages ->
         text_extract doc = Ok (map text_page pages)
         /\ List.length (map text_page pages) = List.length pages)
  /\ (forall doc images,
         tesseract_version doc = Ok tt ->
         is_path doc && negb (path_exists doc) = false ->
         page_images doc = Ok images ->
         ocr_extract doc = Ok (map ocr_page images)
         /\ List.length (map ocr_page images) = List.length images)
  /\ (forall e, text_page (Raise e) = "" /\ ocr_page (Raise e) = "").
Proof.
  split; [|split; [|split]].
  - intros doc return_pages threshold text_error Ht.
    rewrite extract_run, Ht. split; [|split].
    + now destruct (ocr_extract doc).
    + now intros scanned ->.
    + intros ocr_error ->. split; [reflexivity|]. split; [reflexivity|].
      apply both_failed_names.
  - intros doc pages Hp Hd. unfold text_extract. rewrite Hp, Hd.
    split; [reflexivity | apply length_map].
  - intros doc images Hv Hp Hi. unfold ocr_extract. rewrite Hv, Hp, Hi.
    split; [reflexivity | apply length_map].
  - now intros e.
Qed.

End OcrFacts.

(** The scanned bill: six characters of direct text against the default
    threshold of 50, so OCR runs although the direct extractor did not
    fail; its second page fails and is returned empty. *)
Lemma fallback_iff_short_or_raised_witness :
  Ocr.total_length [ "  Page 1   "; "" ] = 6
  /\ Ocr.extract OcrSamples.scanned true Ocr.default_min_text_threshold []
     = (Ok (Ocr.WithPages ("TOTAL DUE 120.00" ++ PyStr.nl ++ PyStr.nl)
              ["TOTAL DUE 120.00"; ""] "ocr"),
        [Ocr.Direct; Ocr.Fallback])
  /\ Ocr.fallback_invoked
       (snd (Ocr.extract OcrSamples.scanned true Ocr.default_min_text_threshold []))
     = true.
Proof.
  split; [reflexivity|]. split; [reflexivity|].
  apply (proj1 (OcrFacts.fallback_iff_short_or_raised
                  OcrSamples.scanned true Ocr.default_min_text_threshold)).
  left. exists ["  Page 1   "; ""]. split; [reflexivity|].
  vm_compute. reflexivity.
Defined.

Lemma both_failures_reported_witness :
  fst (Ocr.extract OcrSamples.unreadable false 50 [])
  = Raise (ValueError
             ("Both text extraction and OCR failed. "
              ++ "Text extraction error: "
              ++ "Failed to extract text from PDF: No /Root object!" ++ ". "
              ++ "OCR error: "
              ++ "Tesseract OCR is not installed or not found in PATH. "
              ++ "Please install Tesseract OCR. "
              ++ "See README.md for installation instructions.")).
Proof.
  refine (f_equal fst
            (proj1 (proj2 (proj2
               (proj1 OcrFacts.both_failures_reported
                  OcrSamples.unreadable false 50 _ eq_refl)) _ eq_refl))).
Defined.

(* ================================================================== *)
(** * Configuration: [backend/config.py] *)

Module Config.

(** [os.environ] *)
Definition environ : Type := string -> option string.

(** A [.env] file, as the pairs it defines. *)
Definition dotenv : Type := list (string * string).

Fixpoint dotenv_lookup (key : string) (file : dotenv) : option string :=
  match file with
  | [] => None
  | (k, v) :: rest => if String.eqb key k then Some v else dotenv_lookup key rest
  end.

(** [load_dotenv(path, override=False)]: a variable of the file is set
    only where the environment has none. *)
Definition load_dotenv (file : dotenv) (env : environ) : environ :=
  fun key =>
    match env key with
    | Some v => Some v
    | None => dotenv_lookup key file
    end.

(** [_load_env_file], lines 17-35: the [.env] of the project root if it
    exists, else the one of [backend/] if it exists. *)
Definition load_env_file (root_env backend_env : option dotenv) (env : environ)
  : environ :=
  match root_env with
  | Some file => load_dotenv file env
  | None =>
      match backend_env with
      | Some file => load_dotenv file env
      | None => env
      end
  end.

(** [get_env(key, default, required)], lines 58-81. *)
Definition get_env (env : environ) (key : string) (default : option string)
    (required : bool) : result (option string) :=
  let value := match env key with Some v => Some v | None => default end in
  match value with
  | None =>
      if required
      then Raise (RuntimeError
                    ("Missing required environment variable: " ++ key ++ ". "
                     ++ "Please set it in your .env file or environment. "
                     ++ "Check that your .env file exists in the project root."))
      else Ok None
  | Some v => Ok (Some v)
  end.

Definition missing_key_message : string :=
  "Missing or invalid OPENAI_API_KEY. "
  ++ "Please set your OpenAI API key in the .env file:" ++ PyStr.nl
  ++ "  OPENAI_API_KEY=sk-proj-your-actual-key-here" ++ PyStr.nl ++ PyStr.nl
  ++ "Get your API key from: https://platform.openai.com/api-keys".

Definition bad_format_message (api_key : string) : string :=
  "Invalid OPENAI_API_KEY format. Expected key starting with 'sk-', "
  ++ "got key starting with '" ++ substring 0 10 api_key ++ "...'".

(** [get_openai_api_key()], lines 84-109. *)
Definition get_openai_api_key (env : environ) : result string :=
  api_key <- get_env env "OPENAI_API_KEY" None true ;;
  match api_key with
  | None => Raise (RuntimeError missing_key_message)
  | Some api_key =>
      if String.eqb api_key "" || String.eqb api_key "your-api-key-here"
      then Raise (RuntimeError missing_key_message)
      else if negb (String.prefix "sk-" api_key)
      then Raise (RuntimeError (bad_format_message api_key))
      else Ok api_key
  end.

(** The services of an environment: the key is the one [config] finds. *)
Definition configured (env : environ) (Sv : Services) : Prop :=
  @env_api_key Sv = get_openai_api_key env.

End Config.

Module ConfigSamples.

(** An environment with nothing set, one with the placeholder of the
    README, one with a key of another vendor, and one with a key. *)
Definition empty_env : Config.environ := fun _ => None.

Definition env_with (key : string) : Config.environ :=
  fun name => if String.eqb name "OPENAI_API_KEY" then Some key else None.

Definition file_key : Config.dotenv :=
  [("OPENAI_API_KEY", "sk-from-dotenv"); ("DEBUG", "1")].

End ConfigSamples.

Module ConfigFacts.
Import Config.

(** [get_openai_api_key] returns a key exactly when the variable is set
    to a text that is not empty, is not the placeholder and starts with
    "sk-"; it returns that text unchanged, and every failure is a
    [RuntimeError]. *)
Theorem api_key_accepted_iff (env : environ) :
  (forall k,
      get_openai_api_key env = Ok k
      <-> env "OPENAI_API_KEY" = Some k
          /\ k <> "" /\ k <> "your-api-key-here"
          /\ String.prefix "sk-" k = true)
  /\ (forall e, get_openai_api_key env = Raise e -> exists m, e = RuntimeError m)
  /\ (env "OPENAI_API_KEY" = None ->
      exists m, get_openai_api_key env = Raise (RuntimeError m)
                /\ PyStr.contains "OPENAI_API_KEY" m = true).
Proof.
  unfold get_openai_api_key, get_env. cbn [rbind].
  destruct (env "OPENAI_API_KEY") as [v|] eqn:E; cbn [rbind].
  - destruct (String.eqb_spec v "") as [E0|E0]; cbn [orb].
    { split; [|split].
      - intros k. split; [discriminate|]. intros (Hk & Hn & _). congruence.
      - intros e H. inversion H. now eexists.
      - discriminate. }
    destruct (String.eqb_spec v "your-api-key-here") as [E1|E1].
    { split; [|split].
      - intros k. split; [discriminate|]. intros (Hk & _ & Hn & _). congruence.
      - intros e H. inversion H. now eexists.
      - discriminate. }
    destruct (String.prefix "sk-" v) eqn:P; cbn [negb].
    + split; [|split].
      * intros k. split.
        -- intros H. inversion H; subst. now repeat split.
        -- intros (Hk & _). congruence.
      * discriminate.
      * discriminate.
    + split; [|split].
      * intros k. split; [discriminate|].
        intros (Hk & _ & _ & Hp). congruence.
      * intros e H. inversion H. now eexists.
      * discriminate.
  - split; [|split].
    + intros k. split; [discriminate|]. now intros (Hk & _).
    + intros e H. inversion H. now eexists.
    + intros _. eexists. split; [reflexivity|]. reflexivity.
Qed.

(** A variable of the process environment is never replaced by the
    [.env] file; the file only supplies what the environment lacks, and
    the file of [backend/] is read only when the project root has none. *)
Theorem environment_wins_over_dotenv
    (root_env backend_env : option dotenv) (env : environ) (key : string) :
  (forall v, env key = Some v ->
             load_env_file root_env backend_env env key = Some v)
  /\ (env key = None ->
      load_env_file root_env backend_env env key
      = match root_env with
        | Some file => dotenv_lookup key file
        | None =>
            match backend_env with
            | Some file => dotenv_lookup key file
            | None => None
            end
        end).
Proof.
  unfold load_env_file, load_dotenv. split.
  - intros v E. destruct root_env; [|destruct backend_env]; now rewrite ?E.
  - intros E. destruct root_env; [|destruct backend_env]; now rewrite ?E.
Qed.

End ConfigFacts.

Lemma api_key_accepted_iff_witness :
  Config.get_openai_api_key (ConfigSamples.env_with "sk-proj-abc") = Ok "sk-proj-abc"
  /\ Config.get_openai_api_key (ConfigSamples.env_with "your-api-key-here")
     = Raise (RuntimeError Config.missing_key_message)
  /\ Config.get_openai_api_key (ConfigSamples.env_with "pk-live-0123456789abcdef")
     = Raise (RuntimeError
                ("Invalid OPENAI_API_KEY format. Expected key starting with 'sk-', "
                 ++ "got key starting with 'pk-live-01...'")).
Proof.
  split; [|split; reflexivity].
  apply (proj1 (ConfigFacts.api_key_accepted_iff
                  (ConfigSamples.env_with "sk-proj-abc"))).
  repeat split; discriminate.
Defined.

Lemma environment_wins_over_dotenv_witness :
  Config.load_env_file (Some ConfigSamples.file_key) None
    (ConfigSamples.env_with "sk-from-shell") "OPENAI_API_KEY"
  = Some "sk-from-shell"
  /\ Config.load_env_file None (Some ConfigSamples.file_key)
       ConfigSamples.empty_env "OPENAI_API_KEY"
     = Some "sk-from-dotenv".
Proof.
  split.
  - now apply (proj1 (ConfigFacts.environment_wins_over_dotenv _ _ _ _)).
  - now rewrite (proj2 (ConfigFacts.environment_wins_over_dotenv _ _ _ _)).
Defined.

(** ** Agents without a key *)

Section MissingKey.
Context {L : PyLib} {Sv : Services}.

(** When no key is passed and the environment has no valid one, every
    agent, the pipeline and the construction of the debate manager raise
    a [ValueError] with the message of [config], before any completion
    call: the state is returned as it was. *)
Theorem missing_key_stops_before_any_call
    (env : Config.environ) (m : string) (st : state) :
  Config.configured env Sv ->
  Config.get_openai_api_key env = Raise (RuntimeError m) ->
  (forall ocr_text model t1 t2 t3,
      process_medical_bill ocr_text None model t1 t2 t3 st
      = (Raise (ValueError m), st))
  /\ (forall line_items model t,
         analysis_agent line_items None model t st = (Raise (ValueError m), st))
  /\ (forall analysis_items model t,
         negotiation_agent analysis_items None model t st
         = (Raise (ValueError m), st))
  /\ (forall model t rounds,
         new_DebateManager None model t rounds = Raise (ValueError m)).
Proof.
  intros Hc He. unfold Config.configured in Hc.
  assert (Hr : resolve_api_key None = Raise (ValueError m)).
  { unfold resolve_api_key. now rewrite Hc, He. }
  split; [|split; [|split]].
  - intros. unfold process_medical_bill, extraction_agent, mbind, mlift.
    now rewrite Hr.
  - intros. unfold analysis_agent, mbind, mlift. now rewrite Hr.
  - intros. unfold negotiation_agent, mbind, mlift. now rewrite Hr.
  - intros. unfold new_DebateManager. now rewrite Hr.
Qed.

End MissingKey.

Lemma missing_key_stops_before_any_call_witness :
  process_medical_bill (L := ref_lib)
    (Sv := Scripted.services (Config.get_openai_api_key ConfigSamples.empty_env))
    "STATEMENT" None "gpt-4o" 0.5%float 0.5%float 0.5%float
    (Scripted.start (Config.get_openai_api_key ConfigSamples.empty_env)
       [Scripted.answer "[]"])
  = (Raise (ValueError
              ("Missing required environment variable: OPENAI_API_KEY. "
               ++ "Please set it in your .env file or environment. "
               ++ "Check that your .env file exists in the project root.")),
     Scripted.start (Config.get_openai_api_key ConfigSamples.empty_env)
       [Scripted.answer "[]"]).
Proof.
  apply (proj1 (@missing_key_stops_before_any_call ref_lib
                  (Scripted.services
                     (Config.get_openai_api_key ConfigSamples.empty_env))
                  ConfigSamples.empty_env _ _ eq_refl eq_refl)).
Defined.

(* ================================================================== *)
(** * The normalisers: defaults, failures, and reading back *)

(** A line item as the extraction normaliser leaves it. *)
Definition normalized_line (r : Extraction.LineItem) : Prop :=
  PyStr.strip (Extraction.code r) = Extraction.code r
  /\ PyStr.strip (Extraction.description r) = Extraction.description r
  /\ (Extraction.notes r = VNone \/ truthy (Extraction.notes r) = true).

(** A line item returned by the analysis without any analysis field. *)
Definition unflagged (r : Extraction.LineItem) : Analysis.AnalysisItem :=
  {| Analysis.code := Extraction.code r;
     Analysis.description := Extraction.description r;
     Analysis.quantity := Extraction.quantity r;
     Analysis.price := Extraction.price r;
     Analysis.notes := Extraction.notes r;
     Analysis.expected_cost := Extraction.price r;
     Analysis.overcharge_flag := false;
     Analysis.flag_level := "low";
     Analysis.issue := VNone |}.

Module NormalizerSamples.
Import Scripted.

(** [[{"code": "A1"}, {"code": "B2", "quantity": null}, {"code": "C3"}]] *)
Definition null_quantity_text : string :=
  "[{" ++ q ++ "code" ++ q ++ ": " ++ q ++ "A1" ++ q ++ "}, {"
       ++ q ++ "code" ++ q ++ ": " ++ q ++ "B2" ++ q ++ ", "
       ++ q ++ "quantity" ++ q ++ ": null}, {"
       ++ q ++ "code" ++ q ++ ": " ++ q ++ "C3" ++ q ++ "}]".

(** [{"code": "A1", "price": 40}] *)
Definition priced_item : dict := [("code", VStr "A1"); ("price", VInt 40)].

End NormalizerSamples.

Section NormalizerDefaults.
Context {L : PyLib}.

Lemma extraction_item_inv (item : dict) (r : Extraction.LineItem) :
  Extraction.normalize_item item = Ok r ->
  exists q p,
    py_float (dict_get item "quantity" (VFloat 1%float)) = Ok q
    /\ py_float (dict_get item "price" (VFloat 0%float)) = Ok p
    /\ r = {| Extraction.code :=
                PyStr.strip (py_str (dict_get item "code" (VStr "")));
              Extraction.description :=
                PyStr.strip (py_str (dict_get item "description" (VStr "")));
              Extraction.quantity := q;
              Extraction.price := p;
              Extraction.notes := truthy_or_none item "notes" |}.
Proof.
  unfold Extraction.normalize_item, rbind.
  destruct (py_float (dict_get item "quantity" _)) as [q|]; [|discriminate].
  destruct (py_float (dict_get item "price" _)) as [p|]; [|discriminate].
  intros H. inversion H. now exists q, p.
Qed.

(** The defaults of the analysis record: without an expected cost the
    price stands for it, so no overcharge can be read from the two;
    without a price both are 0.0; without a quantity it is 1.0; without
    a flag the item is not flagged. *)
Theorem expected_cost_defaults_to_price (item : dict) (r : Analysis.AnalysisItem) :
  Analysis.normalize_item item = Ok r ->
  (dict_lookup "expected_cost" item = None ->
   Analysis.expected_cost r = Analysis.price r)
  /\ (dict_lookup "price" item = None -> Analysis.price r = 0%float)
  /\ (dict_lookup "quantity" item = None -> Analysis.quantity r = 1%float)
  /\ (dict_lookup "overcharge_flag" item = None ->
      Analysis.overcharge_flag r = false)
  /\ (dict_lookup "code" item = None -> Analysis.code r = "").
Proof.
  intros H.
  destruct (normalize_item_inv _ _ H) as (q & p & e & Hq & Hp & He & ->).
  cbn [Analysis.expected_cost Analysis.price Analysis.quantity
       Analysis.overcharge_flag Analysis.code].
  unfold dict_get in *.
  repeat split; intros E; rewrite E in *; cbn in *; congruence.
Qed.

Lemma mapM_first_failure {A B} (f : A -> result B) (l1 l2 : list A) (a : A) e :
  Forall (fun x => is_ok (f x) = true) l1 ->
  f a = Raise e ->
  mapM f (l1 ++ a :: l2) = Raise e.
Proof.
  intros H Ha. induction H as [|x l1 Hx _ IH]; cbn [app mapM rbind].
  - now rewrite Ha.
  - destruct (f x); [|discriminate]. cbn [rbind]. now rewrite IH.
Qed.

Lemma records_of_app (l1 l2 : list value) :
  records_of (l1 ++ l2) = (records_of l1 ++ records_of l2)%list.
Proof. unfold records_of. apply flat_map_app. Qed.

(** A record whose quantity, price or expected cost cannot be cast fails
    the whole stage with the exception of the cast: no default is put in
    its place and the records before it are not returned. A quantity or
    price that is JSON [null] is such a value. *)
Theorem cast_failure_fails_the_stage :
  (forall l1 l2 d e,
      Forall (fun x => is_ok (Analysis.normalize_item x) = true) (records_of l1) ->
      Analysis.normalize_item d = Raise e ->
      Analysis.normalize_items (l1 ++ VDict d :: l2) = Raise e)
  /\ (forall l1 l2 d e,
         Forall (fun x => is_ok (Extraction.normalize_item x) = true)
                (records_of l1) ->
         Extraction.normalize_item d = Raise e ->
         Extraction.normalize_items (l1 ++ VDict d :: l2) = Raise e)
  /\ (forall d,
         dict_lookup "quantity" d = Some VNone
         \/ (dict_lookup "quantity" d = None /\ dict_lookup "price" d = Some VNone) ->
         exists m, Extraction.normalize_item d = Raise (TypeError m)
                   /\ Analysis.normalize_item d = Raise (TypeError m)).
Proof.
  split; [|split].
  - intros l1 l2 d e H Hd.
    rewrite analysis_items_records, records_of_app.
    now apply mapM_first_failure.
  - intros l1 l2 d e H Hd.
    rewrite extraction_items_records, records_of_app.
    now apply mapM_first_failure.
  - intros d [Hq | [Hq Hp]]; eexists;
      unfold Extraction.normalize_item, Analysis.normalize_item, dict_get;
      rewrite Hq; cbn [py_float rbind]; try rewrite Hp; cbn [py_float rbind];
      split; reflexivity.
Qed.

Lemma extraction_item_normalized (item : dict) (r : Extraction.LineItem) :
  Extraction.normalize_item item = Ok r -> normalized_line r.
Proof.
  intros H. destruct (extraction_item_inv _ _ H) as (q & p & _ & _ & ->).
  unfold normalized_line; cbn. repeat split.
  - apply PyStrFacts.strip_idempotent.
  - apply PyStrFacts.strip_idempotent.
  - apply truthy_or_none_shape.
Qed.

Lemma extraction_items_normalized (l : list value) (out : list Extraction.LineItem) :
  Extraction.normalize_items l = Ok out -> Forall normalized_line out.
Proof.
  revert out. induction l as [|v l IH]; intros out H.
  - inversion H. constructor.
  - destruct v; cbn [Extraction.normalize_items] in H; try (now apply IH).
    unfold rbind in H.
    destruct (Extraction.normalize_item d) as [r|] eqn:Er; [|discriminate].
    destruct (Extraction.normalize_items l) as [rs|] eqn:Ers; [|discriminate].
    inversion H; subst. constructor.
    + now apply extraction_item_normalized with d.
    + now apply IH.
Qed.

Lemma extraction_item_fixed (r : Extraction.LineItem) (d : dict) :
  normalized_line r ->
  Extraction.to_value r = VDict d ->
  Extraction.normalize_item d = Ok r /\ Analysis.normalize_item d = Ok (unflagged r).
Proof.
  intros (Hc & Hd & Hn) E.
  destruct r as [c ds q p n].
  cbn [Extraction.code Extraction.description Extraction.notes] in Hc, Hd, Hn.
  unfold Extraction.to_value in E.
  cbn [Extraction.code Extraction.description Extraction.quantity
       Extraction.price Extraction.notes] in E.
  inversion E; subst d; clear E.
  unfold Extraction.normalize_item, Analysis.normalize_item, unflagged.
  match goal with
  | |- context [truthy_or_none ?D "notes"] =>
      rewrite (truthy_or_none_fixed D "notes" n eq_refl Hn)
  end.
  cbn [dict_get dict_lookup String.eqb Ascii.eqb Bool.eqb py_str py_float
       rbind truthy Extraction.code Extraction.description Extraction.quantity
       Extraction.price Extraction.notes].
  rewrite Hc, Hd. split; reflexivity.
Qed.

(** Reading the extraction output back. The line items returned by the
    extraction normaliser, written as the JSON list they are, are
    returned unchanged by the extraction normaliser; the analysis
    normaliser returns them with the price as expected cost, no
    overcharge flag, the flag level "low" and no issue. *)
Theorem extraction_output_read_back (text : string) (items : list Extraction.LineItem) :
  Extraction.parse_response text = Ok items ->
  Extraction.normalize_parsed (VList (map Extraction.to_value items)) = Ok items
  /\ Analysis.normalize_parsed (VList (map Extraction.to_value items))
     = Ok (map unflagged items).
Proof.
  intros H.
  assert (Hn : Forall normalized_line items).
  { unfold Extraction.parse_response, Extraction.normalize_parsed in H.
    destruct (json_loads text) as [parsed|]; [|discriminate].
    destruct (Extraction.select_payload parsed); try discriminate.
    now apply extraction_items_normalized with l. }
  unfold Extraction.normalize_parsed, Analysis.normalize_parsed.
  cbn [Extraction.select_payload Analysis.select_payload].
  clear H. induction Hn as [|r rs Hr _ [IH1 IH2]]; [split; reflexivity|].
  cbn [map]. unfold Extraction.to_value at 1 3.
  cbn [Extraction.normalize_items Analysis.normalize_items].
  destruct (extraction_item_fixed r _ Hr eq_refl) as [E1 E2].
  unfold Extraction.to_value in E1, E2. rewrite E1, E2.
  cbn [rbind]. now rewrite IH1, IH2.
Qed.

End NormalizerDefaults.

Lemma expected_cost_defaults_to_price_witness :
  Analysis.normalize_item (L := ref_lib) NormalizerSamples.priced_item
  = Ok (unflagged {| Extraction.code := "A1";
                     Extraction.description := "";
                     Extraction.quantity := 1%float;
                     Extraction.price := 40%float;
                     Extraction.notes := VNone |})
  /\ Analysis.expected_cost
       (unflagged {| Extraction.code := "A1";
                     Extraction.description := "";
                     Extraction.quantity := 1%float;
                     Extraction.price := 40%float;
                     Extraction.notes := VNone |}) = 40%float.
Proof.
  assert (H : Analysis.normalize_item (L := ref_lib) NormalizerSamples.priced_item
              = Ok (unflagged {| Extraction.code := "A1";
                                 Extraction.description := "";
                                 Extraction.quantity := 1%float;
                                 Extraction.price := 40%float;
                                 Extraction.notes := VNone |}))
    by (vm_compute; reflexivity).
  split; [exact H|].
  exact (proj1 (@expected_cost_defaults_to_price ref_lib _ _ H) eq_refl).
Defined.

Lemma cast_failure_fails_the_stage_witness :
  Extraction.parse_response (L := ref_lib) NormalizerSamples.null_quantity_text
  = Raise (TypeError "float() argument must be a string or a real number").
Proof.
  assert (E : Extraction.parse_response (L := ref_lib)
                NormalizerSamples.null_quantity_text
              = Extraction.normalize_items (L := ref_lib)
                  ([VDict [("code", VStr "A1")]]
                   ++ VDict [("code", VStr "B2"); ("quantity", VNone)]
                   :: [VDict [("code", VStr "C3")]]))
    by (vm_compute; reflexivity).
  rewrite E.
  apply (proj1 (proj2 (@cast_failure_fails_the_stage ref_lib))).
  - repeat constructor.
  - reflexivity.
Defined.

Lemma extraction_output_read_back_witness :
  Extraction.parse_response (L := ref_lib) Samples.messy_text
  = Ok [Samples.messy_line_item]
  /\ Analysis.normalize_parsed (L := ref_lib)
       (VList (map Extraction.to_value [Samples.messy_line_item]))
     = Ok [unflagged Samples.messy_line_item].
Proof.
  assert (H : Extraction.parse_response (L := ref_lib) Samples.messy_text
              = Ok [Samples.messy_line_item]) by (vm_compute; reflexivity).
  split; [exact H|].
  exact (proj2 (@extraction_output_read_back ref_lib _ _ H)).
Defined.

(* ================================================================== *)
(** * The extraction selector: what it raises and what it returns *)

Module OcrSamples2.

(** A path that does not exist, on a machine with Tesseract. *)
Definition missing : Ocr.Document :=
  {| Ocr.is_path := true;
     Ocr.file_path := "/tmp/none.pdf";
     Ocr.path_exists := false;
     Ocr.pdf_pages := Ok [];
     Ocr.tesseract_version := Ok tt;
     Ocr.page_images := Ok [] |}.

(** A scanned stream whose pages cannot be turned into images. *)
Definition no_poppler : Ocr.Document :=
  {| Ocr.is_path := false;
     Ocr.file_path := "";
     Ocr.path_exists := false;
     Ocr.pdf_pages := Ok [Ok None; Ok (Some "")];
     Ocr.tesseract_version := Ok tt;
     Ocr.page_images := Raise (OtherError "Unable to get page count.") |}.

End OcrSamples2.

Module OcrMore.
Import Ocr.

Definition is_combined (e : exn) : bool :=
  is_ValueError e
  && String.prefix "Both text extraction and OCR failed. " (exn_str e).

Lemma both_failed_combined (e1 e2 : exn) : is_combined (both_failed e1 e2) = true.
Proof. reflexivity. Qed.

(** The selector raises nothing but its combined [ValueError]. A path
    that does not exist makes both extractors raise [FileNotFoundError],
    and the caller still gets the combined [ValueError]. *)
Theorem extract_raises_only_combined
    (doc : Document) (return_pages : bool) (threshold : Z) :
  (forall e,
      fst (extract doc return_pages threshold []) = Raise e ->
      is_combined e = true /\ is_FileNotFoundError e = false
      /\ is_ok (ocr_extract doc) = false)
  /\ (is_path doc = true -> path_exists doc = false ->
      tesseract_version doc = Ok tt ->
      text_extract doc = Raise (FileNotFoundError ("PDF file not found: " ++ file_path doc))
      /\ ocr_extract doc = Raise (FileNotFoundError ("File not found: " ++ file_path doc))
      /\ fst (extract doc return_pages threshold [])
         = Raise (both_failed
                    (FileNotFoundError ("PDF file not found: " ++ file_path doc))
                    (FileNotFoundError ("File not found: " ++ file_path doc)))).
Proof.
  rewrite OcrFacts.extract_run. split.
  - intros e.
    destruct (text_extract doc) as [pages|te].
    + destruct (total_length pages >=? threshold); [discriminate|].
      destruct (ocr_extract doc) as [scanned|oe]; [discriminate|].
      intros H. inversion H. now repeat split.
    + destruct (ocr_extract doc) as [scanned|oe]; [discriminate|].
      intros H. inversion H. now repeat split.
  - intros Hp He Hv. unfold text_extract, ocr_extract.
    rewrite Hp, He, Hv. now repeat split.
Qed.

(** When the direct text is too short and OCR raises, the handler of the
    direct extractor catches the OCR error: OCR is called a second time,
    and when it fails the same way the message gives the OCR error as the
    text extraction error too, although the direct extractor had
    returned. *)
Theorem ocr_failure_is_retried_and_misnamed
    (doc : Document) (return_pages : bool) (threshold : Z)
    (pages : list string) (e : exn) :
  text_extract doc = Ok pages ->
  total_length pages < threshold ->
  ocr_extract doc = Raise e ->
  extract doc return_pages threshold []
  = (Raise (ValueError
              ("Both text extraction and OCR failed. "
               ++ "Text extraction error: " ++ exn_str e ++ ". "
               ++ "OCR error: " ++ exn_str e)),
     [Direct; Fallback; Fallback]).
Proof.
  intros Ht Hl Ho. rewrite OcrFacts.extract_run, Ht, Ho.
  destruct (Z.geb_spec (total_length pages) threshold); [lia | reflexivity].
Qed.

(** The two forms of the result agree: with and without pages the text is
    the same, it is the pages joined by a blank line, the method is "ocr"
    exactly when the fallback was called and "text" otherwise; and the
    two calls fail together, with the same exception. *)
Theorem result_forms_agree (doc : Document) (threshold : Z) :
  match fst (extract doc true threshold []), fst (extract doc false threshold []) with
  | Ok (WithPages text pages method), Ok (TextOnly text') =>
      text' = text
      /\ text = PyStr.join (PyStr.nl ++ PyStr.nl) pages
      /\ (fallback_invoked (snd (extract doc true threshold [])) = true ->
          method = "ocr" /\ ocr_extract doc = Ok pages)
      /\ (fallback_invoked (snd (extract doc true threshold [])) = false ->
          method = "text" /\ text_extract doc = Ok pages)
  | Raise e, Raise e' => e = e'
  | _, _ => False
  end.
Proof.
  rewrite !OcrFacts.extract_run.
  destruct (text_extract doc) as [pages|te].
  - destruct (total_length pages >=? threshold).
    + cbn. repeat split; try discriminate; reflexivity.
    + destruct (ocr_extract doc) as [scanned|oe]; cbn; [|reflexivity].
      repeat split; try discriminate; reflexivity.
  - destruct (ocr_extract doc) as [scanned|oe]; cbn; [|reflexivity].
    repeat split; try discriminate; reflexivity.
Qed.

Lemma strip_of_strip_list (images : list (result string)) :
  Forall (fun p => PyStr.strip p = p) (map ocr_page images).
Proof.
  induction images as [|i images IH]; constructor; [|exact IH].
  destruct i as [t|e]; cbn [ocr_page]; [|reflexivity].
  destruct (String.eqb t ""); [reflexivity|].
  apply PyStrFacts.strip_idempotent.
Qed.

(** The OCR extractor returns stripped pages, one for each image; both
    extractors raise nothing but [ValueError] and [FileNotFoundError],
    and [FileNotFoundError] only for a path that does not exist or, in the
    direct extractor, when the PDF library raises it. *)
Theorem extractor_outcomes (doc : Document) :
  (forall pages,
      ocr_extract doc = Ok pages ->
      Forall (fun p => PyStr.strip p = p) pages
      /\ exists images, page_images doc = Ok images
                        /\ List.length pages = List.length images)
  /\ (forall e,
         ocr_extract doc = Raise e ->
         is_ValueError e = true
         \/ (is_FileNotFoundError e = true
             /\ is_path doc = true /\ path_exists doc = false))
  /\ (forall e,
         text_extract doc = Raise e ->
         is_ValueError e = true
         \/ (is_FileNotFoundError e = true
             /\ ((is_path doc = true /\ path_exists doc = false)
                 \/ pdf_pages doc = Raise e))).
Proof.
  unfold ocr_extract, text_extract. split; [|split].
  - intros pages.
    destruct (tesseract_version doc); [|discriminate].
    destruct (is_path doc && negb (path_exists doc)); [discriminate|].
    destruct (page_images doc) as [images|]; [|discriminate].
    intros H. inversion H; subst. split; [apply strip_of_strip_list|].
    exists images. split; [reflexivity | apply length_map].
  - intros e.
    destruct (tesseract_version doc).
    + destruct (is_path doc) eqn:Hp, (path_exists doc) eqn:He; cbn [andb negb];
        try (destruct (page_images doc); [discriminate|];
             intros H; inversion H; left; unfold convert_error;
             rewrite Hp; reflexivity).
      intros H. inversion H. right. now repeat split.
    + intros H. inversion H. now left.
  - intros e.
    destruct (is_path doc) eqn:Hp, (path_exists doc) eqn:He; cbn [andb negb];
      try (destruct (pdf_pages doc) as [|[]] eqn:E; [discriminate|..];
           intros H; inversion H; subst;
           solve [now left | right; split; [reflexivity | now right]]).
    intros H. inversion H. right. split; [reflexivity | now left].
Qed.

(** The bounds of the threshold: with a threshold of zero or less the
    direct pages are always accepted, even when there is no page at all;
    a document without any page goes to OCR for every positive
    threshold. *)
Theorem threshold_edges (doc : Document) (return_pages : bool) (threshold : Z) :
  (forall pages,
      text_extract doc = Ok pages -> threshold <= 0 ->
      extract doc return_pages threshold []
      = (Ok (OcrFacts.pack return_pages pages "text"), [Direct]))
  /\ (text_extract doc = Ok [] -> 0 < threshold ->
      fallback_invoked (snd (extract doc return_pages threshold [])) = true).
Proof.
  rewrite OcrFacts.extract_run. split.
  - intros pages Ht Hz. rewrite Ht.
    destruct (Z.geb_spec (total_length pages) threshold) as [G|G];
      [reflexivity|].
    unfold total_length, PyStr.len in G. lia.
  - intros Ht Hz. rewrite Ht.
    destruct (Z.geb_spec (total_length []) threshold) as [G|G].
    + change (total_length []) with 0 in G. lia.
    + now destruct (ocr_extract doc).
Qed.

End OcrMore.

Lemma extract_raises_only_combined_witness :
  fst (Ocr.extract OcrSamples2.missing false 50 [])
  = Raise (ValueError
             ("Both text extraction and OCR failed. "
              ++ "Text extraction error: PDF file not found: /tmp/none.pdf. "
              ++ "OCR error: File not found: /tmp/none.pdf")).
Proof.
  exact (proj2 (proj2 (proj2 (OcrMore.extract_raises_only_combined
                                OcrSamples2.missing false 50)
                         eq_refl eq_refl eq_refl))).
Defined.

Lemma ocr_failure_is_retried_and_misnamed_witness :
  Ocr.extract OcrSamples2.no_poppler true 50 []
  = (Raise (ValueError
              ("Both text extraction and OCR failed. "
               ++ "Text extraction error: "
               ++ "Failed to convert PDF to images from bytes. "
               ++ "Make sure poppler-utils is installed. "
               ++ "Error: Unable to get page count." ++ ". "
               ++ "OCR error: "
               ++ "Failed to convert PDF to images from bytes. "
               ++ "Make sure poppler-utils is installed. "
               ++ "Error: Unable to get page count.")),
     [Ocr.Direct; Ocr.Fallback; Ocr.Fallback]).
Proof.
  exact (OcrMore.ocr_failure_is_retried_and_misnamed
           OcrSamples2.no_poppler true 50 [""; ""]
           (ValueError ("Failed to convert PDF to images from bytes. "
                        ++ "Make sure poppler-utils is installed. "
                        ++ "Error: Unable to get page count."))
           eq_refl eq_refl eq_refl).
Defined.

(* ================================================================== *)
(** * The debate: what is sent, and how much *)

Section DebateThreading.
Context {Sv : Services}.

(** The request of the turn with index [k] (from 0), and the requests of
    a whole transcript: the fighter has the even turns, the round is
    [k / 2 + 1], and each turn is sent the message before it. *)
Definition turn_request (self : DebateManager) (bill_json : value)
    (k : nat) (previous_message : option string) : request :=
  DebateRequest (if Nat.even k then Fighter else Hospital) previous_message
    bill_json (Z.of_nat (k / 2) + 1) (dm_model self) (dm_temperature self).

Fixpoint turn_requests (self : DebateManager) (bill_json : value)
    (k : nat) (previous_message : option string) (t : list DebateMessage)
  : list request :=
  match t with
  | [] => []
  | m :: rest =>
      turn_request self bill_json k previous_message
      :: turn_requests self bill_json (S k) (Some (content m)) rest
  end.

Lemma generate_response_ok self who previous bill_json round_number
    (st st' : state) (m : string) :
  generate_response self who previous bill_json round_number st = (Ok m, st') ->
  calls st'
  = (calls st ++ [DebateRequest who previous bill_json round_number
                    (dm_model self) (dm_temperature self)])%list
  /\ PyStr.strip m = m.
Proof.
  unfold generate_response, mbind, mlift, call_service, mret, mraise.
  destruct (debate_prompt who previous bill_json round_number); [|discriminate].
  destruct (chat_completion _ (world st)) as [[[c|]|e] w]; try discriminate.
  intros H. inversion H; subst. cbn [calls].
  split; [reflexivity | apply PyStrFacts.strip_idempotent].
Qed.

Lemma generate_response_calls self who previous bill_json round_number
    (st : state) :
  exists new,
    calls (snd (generate_response self who previous bill_json round_number st))
    = (calls st ++ new)%list
    /\ (List.length new <= 1)%nat.
Proof.
  unfold generate_response, mbind, mlift, call_service, mret, mraise.
  destruct (debate_prompt who previous bill_json round_number).
  - destruct (chat_completion _ (world st)) as [[[c|]|e] w]; cbn [snd calls];
      eexists; (split; [reflexivity | cbn; lia]).
  - exists []. cbn [snd]. split; [now rewrite app_nil_r | cbn; lia].
Qed.

Ltac turn_eq H :=
  match type of H with
  | context [generate_response ?s ?w ?p ?b ?r ?st] =>
      let m := fresh "m" in
      let st' := fresh "st" in
      let E := fresh "E" in
      destruct (generate_response s w p b r st) as [[m|?] st'] eqn:E;
      [apply generate_response_ok in E; destruct E | discriminate H]
  end.

(** In a run that returns, every completion call is logged in order: the
    fighter opens with no previous message, and every later turn is sent
    the stripped answer of the turn before it, with the same bill and the
    round number of its pair; the messages of the transcript are
    stripped. *)
Theorem debate_threads_previous_message self bill_json num_rounds
    (st st' : state) (t : list DebateMessage) :
  run_debate self bill_json num_rounds st = (Ok t, st') ->
  calls st' = (calls st ++ turn_requests self bill_json 0 None t)%list
  /\ Forall (fun m => PyStr.strip (content m) = content m) t.
Proof.
  intros H. unfold run_debate in H.
  destruct (negb (truthy bill_json) || negb (is_list bill_json));
    [discriminate|].
  set (n := Z.max 1 _) in H.
  unfold mbind, mret in H.
  turn_eq H. turn_eq H.
  destruct (Z.geb_spec n 2) as [G2|G2].
  - turn_eq H. turn_eq H.
    destruct (Z.geb_spec n 3) as [G3|G3].
    + turn_eq H. turn_eq H. inversion H; subst. split.
      * repeat match goal with E : calls _ = _ |- _ => rewrite E; clear E end.
        rewrite <- !app_assoc. reflexivity.
      * repeat constructor; assumption.
    + inversion H; subst. split.
      * repeat match goal with E : calls _ = _ |- _ => rewrite E; clear E end.
        rewrite <- !app_assoc. reflexivity.
      * repeat constructor; assumption.
  - destruct (Z.geb_spec n 3) as [G3|G3]; [lia|].
    inversion H; subst. split.
    + repeat match goal with E : calls _ = _ |- _ => rewrite E; clear E end.
      rewrite <- !app_assoc. reflexivity.
    + repeat constructor; assumption.
Qed.

End DebateThreading.

Section DebateBudget.
Context {Sv : Services}.

Ltac any_turn :=
  match goal with
  | |- context [generate_response ?s ?w ?p ?b ?r ?st] =>
      let m := fresh "m" in
      let st' := fresh "st" in
      let new := fresh "new" in
      let Hc := fresh "Hc" in
      let Hl := fresh "Hl" in
      destruct (generate_response_calls s w p b r st) as (new & Hc & Hl);
      destruct (generate_response s w p b r st) as [[m|?] st'];
      cbn [snd] in Hc
  end.

Ltac count_calls :=
  cbn [snd];
  repeat match goal with E : calls _ = _ |- _ => rewrite E; clear E end;
  rewrite <- ?app_assoc;
  eexists; split; [reflexivity|];
  rewrite ?length_app; lia.

(** Whatever is asked for and however the run ends, a debate makes at
    most six completion calls, and no more than two for each round it was
    asked; the calls already logged are kept. *)
Theorem debate_makes_at_most_six_calls self bill_json num_rounds (st : state) :
  exists new,
    calls (snd (run_debate self bill_json num_rounds st))
    = (calls st ++ new)%list
    /\ Z.of_nat (List.length new) <= 2 * Z.min 3 (rounds_of self num_rounds).
Proof.
  assert (H1 : 1 <= rounds_of self num_rounds)
    by (unfold rounds_of, clamp; lia).
  unfold run_debate.
  destruct (negb (truthy bill_json) || negb (is_list bill_json)).
  { exists []. unfold mraise. cbn [snd List.length Z.of_nat].
    split; [now rewrite app_nil_r | lia]. }
  fold (rounds_of self num_rounds). unfold clamp.
  change (Z.max 1 (Z.min (match num_rounds with
                          | Some k => k | None => max_rounds self end)
                         (max_rounds self)))
    with (rounds_of self num_rounds).
  set (n := rounds_of self num_rounds) in *.
  unfold mbind, mret.
  any_turn; [|count_calls].
  any_turn; [|count_calls].
  destruct (Z.geb_spec n 2) as [G2|G2].
  - any_turn; [|count_calls].
    any_turn; [|count_calls].
    destruct (Z.geb_spec n 3) as [G3|G3].
    + any_turn; [|count_calls].
      any_turn; count_calls.
    + count_calls.
  - destruct (Z.geb_spec n 3) as [G3|G3]; [lia|].
    count_calls.
Qed.

End DebateBudget.

Lemma debate_threads_previous_message_witness :
  map (fun r => match r with
                | DebateRequest who previous _ round_number _ _ =>
                    (who, previous, round_number)
                | _ => (Fighter, None, 0)
                end)
      (calls (snd (run_debate DebateSamples.api_manager DebateSamples.bill
                     (Some 2) DebateSamples.st0)))
  = [(Fighter, None, 1); (Hospital, Some "A point.", 1);
     (Fighter, Some "A point.", 2); (Hospital, Some "A point.", 2)].
Proof.
  assert (H : run_debate DebateSamples.api_manager DebateSamples.bill (Some 2)
                DebateSamples.st0
              = (Ok [say "fighter" "A point."; say "hospital" "A point.";
                     say "fighter" "A point."; say "hospital" "A point."],
                 snd (run_debate DebateSamples.api_manager DebateSamples.bill
                        (Some 2) DebateSamples.st0))).
  { rewrite (surjective_pairing (run_debate _ _ _ _)) at 1.
    now f_equal. }
  rewrite (proj1 (@debate_threads_previous_message PipelineSamples.sv
                    _ _ _ _ _ _ H)).
  reflexivity.
Defined.

(* ================================================================== *)
(** * Negotiation materials and debate summary *)

(** The result of [generate_debate_summary], debate.py lines 520-524. *)
Record DebateSummary : Type := {
  patient_arguments : string;
  hospital_arguments : string;
  recommendation : string
}.

(** The completion call of [generate_debate_summary], which has a shape
    of its own: the bill, the transcript, the model and the temperature. *)
Record summary_request : Type := {
  sr_bill_json : value;
  sr_transcript : list DebateMessage;
  sr_model : string;
  sr_temperature : float
}.

Class SummaryService (Sv : Services) : Type := {
  (** The call and the reading of the content, as [chat_completion]. *)
  summary_completion : summary_request -> World -> result (option string) * World;
  (** The prompt (the sums over the bill, the transcript joined); it
      raises on bill data it cannot sum. *)
  summary_prompt : value -> list DebateMessage -> result string
}.

Section Summary.
Context {L : PyLib} {Sv : Services} {Sm : SummaryService Sv}.

(** debate.py lines 517-532. *)
Definition parse_debate_summary (content : option string) : result DebateSummary :=
  match content with
  | None =>
      Raise (TypeError "the JSON object must be str, bytes or bytearray, not NoneType")
  | Some text =>
      match json_loads text with
      | JSONDecodeError e =>
          Raise (ValueError ("Invalid JSON response from debate summary: " ++ e))
      | Parsed (VDict parsed) =>
          Ok {| patient_arguments :=
                  PyStr.strip (py_str (dict_get parsed "patient_arguments" (VStr "")));
                hospital_arguments :=
                  PyStr.strip (py_str (dict_get parsed "hospital_arguments" (VStr "")));
                recommendation :=
                  PyStr.strip (py_str (dict_get parsed "recommendation" (VStr ""))) |}
      | Parsed _ => Raise (AttributeError "object has no attribute 'get'")
      end
  end.

(** The state of a whole request: the state of the agents, and the
    summary calls made so far. *)
Record session : Type := {
  agents_state : state;
  summaries : list summary_request
}.

(** A computation of the agents, run inside a session. *)
Definition in_agents {A} (m : M state A) : M session A :=
  fun s =>
    let '(r, st) := m (agents_state s) in
    (r, {| agents_state := st; summaries := summaries s |}).

Definition call_summary (req : summary_request) : M session (option string) :=
  fun s =>
    let '(r, w) := summary_completion req (world (agents_state s)) in
    (r, {| agents_state := {| world := w; calls := calls (agents_state s) |};
           summaries := (summaries s ++ [req])%list |}).

(** [generate_debate_summary], debate.py lines 427-536. *)
Definition generate_debate_summary (bill_json : value)
    (debate_transcript : list DebateMessage) (api_key : option string)
    (model : string) (temperature : float) : M session DebateSummary :=
  _ <~ mlift (resolve_api_key api_key) ;;
  _ <~ mlift (summary_prompt bill_json debate_transcript) ;;
  content <~ call_summary {| sr_bill_json := bill_json;
                             sr_transcript := debate_transcript;
                             sr_model := model;
                             sr_temperature := temperature |} ;;
  mlift (parse_debate_summary content).

End Summary.

(* ================================================================== *)
(** * The HTTP endpoint: [backend/api.py] *)

Module Api.

(** The default temperatures of the agents: 0.1, 0.2, 0.7 for the three
    stages, 0.8 for the debate, 0.3 for the summary. *)
Definition t_0_1 : float := 0x1.999999999999ap-4%float.
Definition t_0_2 : float := 0x1.999999999999ap-3%float.
Definition t_0_7 : float := 0x1.6666666666666p-1%float.
Definition t_0_8 : float := 0x1.999999999999ap-1%float.
Definition t_0_3 : float := 0x1.3333333333333p-2%float.

Definition default_model : string := "gpt-4o".

(** [mapping.get(role, role)] *)
Fixpoint get_or_self (mapping : list (string * string)) (key : string) : string :=
  match mapping with
  | [] => key
  | (k, v) :: rest => if String.eqb key k then v else get_or_self rest key
  end.

(** Lines 54-67. *)
Definition map_debate_role_to_frontend (debate_role : string) : string :=
  get_or_self [("fighter", "bill"); ("hospital", "medical")] debate_role.

(** Lines 70-83. *)
Definition get_agent_name (frontend_role : string) : string :=
  get_or_self [("medical", "NorthRiver Medical"); ("bill", "Bill Fighter")]
    frontend_role.

Definition message_role (m : DebateMessage) : string := role m.
Definition pipeline_stats (r : PipelineResult) : SummaryStats := summary_stats r.

Record MessageResponse : Type := {
  id : string;
  role : string;
  name : string;
  text : string;
  timestamp : string
}.

Record ProcessBillResponse : Type := {
  messages : list MessageResponse;
  summary_stats : SummaryStats;
  debate_summary : DebateSummary
}.

(** What the endpoint answers: the response, or an [HTTPException]. *)
Inductive answer : Type :=
| Returned (response : ProcessBillResponse)
| HTTPException (status_code : Z) (detail : string).

Definition insufficient_text : string :=
  "OCR extraction yielded insufficient text. "
  ++ "Please ensure the file is a clear PDF or image of a medical bill.".

Definition no_line_items : string :=
  "No line items were extracted from the bill. "
  ++ "Please ensure the document is a valid medical bill.".

(** Lines 188-192. *)
Definition failed_summary : DebateSummary :=
  {| patient_arguments := "Summary generation failed.";
     hospital_arguments := "Summary generation failed.";
     recommendation := "Please review the debate transcript manually." |}.

(** [ocr_result if isinstance(ocr_result, str) else ocr_result.get("text", "")] *)
Definition text_of (r : Ocr.extracted) : string :=
  match r with
  | Ocr.TextOnly text => text
  | Ocr.WithPages text _ _ => text
  end.

(** Step 1, lines 124-133: the body of the first [try]. *)
Definition ocr_step (doc : Ocr.Document) : result string :=
  ocr_result <- fst (Ocr.extract doc false Ocr.default_min_text_threshold []) ;;
  let ocr_text := text_of ocr_result in
  if String.eqb ocr_text "" || (PyStr.len (PyStr.strip ocr_text) <? 50)
  then Raise (ValueError insufficient_text)
  else Ok ocr_text.

Section Endpoint.
Context {L : PyLib} {Sv : Services} {Sm : SummaryService Sv}.

(** [str(uuid.uuid4())] and the formatted time of the message with index
    [i], one minute after the message before it. *)
Variable message_id : nat -> string.
Variable message_time : nat -> string.

(** Step 2, lines 145-152. *)
Definition pipeline_step (ocr_text : string) : M state PipelineResult :=
  pipeline_result <~
    process_medical_bill ocr_text None default_model t_0_1 t_0_2 t_0_7 ;;
  if nonempty (analysis pipeline_result)
  then mret pipeline_result
  else mraise (ValueError no_line_items).

(** Step 3, lines 165-169. *)
Definition debate_step (bill_json : value) : M state (list DebateMessage) :=
  debate_manager <~ mlift (new_DebateManager None default_model t_0_8 10) ;;
  run_debate debate_manager bill_json (Some 10).

(** Step 5, lines 198-217. *)
Fixpoint frontend_messages (i : nat) (debate_transcript : list DebateMessage)
  : list MessageResponse :=
  match debate_transcript with
  | [] => []
  | debate_msg :: rest =>
      let frontend_role := map_debate_role_to_frontend (message_role debate_msg) in
      {| id := message_id i;
         role := frontend_role;
         name := get_agent_name frontend_role;
         text := content debate_msg;
         timestamp := message_time i |}
      :: frontend_messages (S i) rest
  end.

(** [process_bill], lines 93-236, for the contents of the upload. *)
Definition process_bill (doc : Ocr.Document) (s : session) : answer * session :=
  match ocr_step doc with
  | Raise e =>
      (HTTPException 400 ("Failed to extract text from file: " ++ exn_str e), s)
  | Ok ocr_text =>
      match in_agents (pipeline_step ocr_text) s with
      | (Raise e, s1) =>
          (HTTPException 500 ("Failed to process bill: " ++ exn_str e), s1)
      | (Ok pipeline_result, s1) =>
          let bill_json := VList (map Analysis.to_value (analysis pipeline_result)) in
          match in_agents (debate_step bill_json) s1 with
          | (Raise e, s2) =>
              (HTTPException 500 ("Failed to run debate: " ++ exn_str e), s2)
          | (Ok debate_transcript, s2) =>
              let '(r, s3) :=
                generate_debate_summary bill_json debate_transcript None
                  default_model t_0_3 s2 in
              let summary :=
                match r with
                | Ok summary => summary
                | Raise _ => failed_summary
                end in
              (Returned {| messages := frontend_messages 0 debate_transcript;
                           summary_stats := pipeline_stats pipeline_result;
                           debate_summary := summary |}, s3)
          end
      end
  end.

End Endpoint.

End Api.

Module ApiSamples.
Import Scripted.

(** The scripted world also answers the summary call. *)
Definition summary_service (key : result string) : SummaryService (services key) :=
  {| summary_completion :=
       fun (_ : summary_request) (w : @World (services key)) =>
         match (w : script) with
         | next :: w' => (next, (w' : @World (services key)))
         | [] => (Raise (OtherError "Connection error."), ([] : @World (services key)))
         end;
     summary_prompt := fun bill_json _ => prompt Fighter None bill_json 0 |}.

Definition sm : SummaryService PipelineSamples.sv := summary_service (Ok "sk-test").

Definition message_id (i : nat) : string :=
  "00000000-0000-4000-8000-00000000000" ++ Ref.string_of_Z (Z.of_nat i).

Definition message_time (i : nat) : string :=
  "09:0" ++ Ref.string_of_Z (Z.of_nat i) ++ " AM".

(** A born-digital bill of one page, with more than fifty characters. *)
Definition digital : Ocr.Document :=
  {| Ocr.is_path := false;
     Ocr.file_path := "";
     Ocr.path_exists := false;
     Ocr.pdf_pages :=
       Ok [Ok (Some "NORTHRIVER MEDICAL  Statement  A1 Office visit 2 x 12.50  Total 25.00")];
     Ocr.tesseract_version := Ok tt;
     Ocr.page_images := Ok [] |}.

Definition digital_text : string :=
  "NORTHRIVER MEDICAL  Statement  A1 Office visit 2 x 12.50  Total 25.00".

(** A scan on which OCR reads fewer than fifty characters. *)
Definition faint : Ocr.Document := OcrSamples.scanned.

Definition session_of (w : script) : @session PipelineSamples.sv :=
  {| agents_state := start (Ok "sk-test") w; summaries := [] |}.

(** The extraction finds nothing. *)
Definition nothing_found : script :=
  [answer ("{" ++ q ++ "line_items" ++ q ++ ": []}")].

(** A full run: extraction, analysis, negotiation, six debate turns, and a
    summary call that fails. *)
Definition full_run : script :=
  ([answer Samples.messy_text; answer Samples.messy_text;
    answer ("{" ++ q ++ "email" ++ q ++ ": " ++ q ++ "Dear billing" ++ q ++ "}")]
   ++ repeat (answer " A point. ") 6
   ++ [Raise (OtherError "Rate limit reached")])%list.

End ApiSamples.

Module ApiFacts.
Import Api.

Lemma default_temperatures :
  t_0_1 = Ref.float_of_decimal false 1 (-1)
  /\ t_0_2 = Ref.float_of_decimal false 2 (-1)
  /\ t_0_7 = Ref.float_of_decimal false 7 (-1)
  /\ t_0_8 = Ref.float_of_decimal false 8 (-1)
  /\ t_0_3 = Ref.float_of_decimal false 3 (-1).
Proof. vm_compute. repeat split. Qed.

Section EndpointFacts.
Context {L : PyLib} {Sv : Services} {Sm : SummaryService Sv}.
Variable message_id : nat -> string.
Variable message_time : nat -> string.

(** The endpoint answers 400 exactly when the text step fails, and then
    nothing else has run: the session is as it was. The step fails when
    the selector raises, and also when the text it returned has fewer than
    50 characters once stripped, whichever extractor supplied it. Every
    other failure is a 500. *)
Theorem bad_text_is_a_400 (doc : Ocr.Document) (s : session) :
  (forall e,
      ocr_step doc = Raise e ->
      Api.process_bill message_id message_time doc s
      = (HTTPException 400 ("Failed to extract text from file: " ++ exn_str e), s))
  /\ (forall detail,
         fst (Api.process_bill message_id message_time doc s) = HTTPException 400 detail ->
         is_ok (ocr_step doc) = false /\ snd (Api.process_bill message_id message_time doc s) = s)
  /\ (forall status detail,
         fst (Api.process_bill message_id message_time doc s) = HTTPException status detail ->
         status = 400 \/ status = 500)
  /\ (forall r,
         fst (Ocr.extract doc false Ocr.default_min_text_threshold []) = Ok r ->
         PyStr.len (PyStr.strip (text_of r)) < 50 ->
         ocr_step doc = Raise (ValueError insufficient_text)).
Proof.
  unfold Api.process_bill. split; [|split; [|split]].
  - now intros e ->.
  - intros detail.
    destruct (ocr_step doc) as [t|e]; [|now intros _].
    destruct (in_agents (pipeline_step t) s) as [[res|e] s1]; [|discriminate].
    destruct (in_agents (debate_step _) s1) as [[tr|e] s2]; [|discriminate].
    now destruct (generate_debate_summary _ _ _ _ _ s2).
  - intros status detail.
    destruct (ocr_step doc) as [t|e]; [|intros H; inversion H; now left].
    destruct (in_agents (pipeline_step t) s) as [[res|e] s1];
      [|intros H; inversion H; now right].
    destruct (in_agents (debate_step _) s1) as [[tr|e] s2];
      [|intros H; inversion H; now right].
    now destruct (generate_debate_summary _ _ _ _ _ s2).
  - intros r Hr Hl. unfold ocr_step. rewrite Hr. cbn [rbind].
    destruct (Z.ltb_spec (PyStr.len (PyStr.strip (text_of r))) 50); [|lia].
    now rewrite orb_true_r.
Qed.

(** When the pipeline returns no analysed item, the endpoint answers 500
    with "No line items were extracted": the placeholder materials and
    the zero statistics of the pipeline are not sent, the debate is not
    started. *)
Theorem empty_analysis_is_a_500 (doc : Ocr.Document) (s : session)
    (ocr_text : string) (pipeline_result : PipelineResult) (st1 : state) :
  ocr_step doc = Ok ocr_text ->
  process_medical_bill ocr_text None default_model t_0_1 t_0_2 t_0_7
    (agents_state s) = (Ok pipeline_result, st1) ->
  analysis pipeline_result = [] ->
  Api.process_bill message_id message_time doc s
  = (HTTPException 500 ("Failed to process bill: " ++ no_line_items),
     {| agents_state := st1; summaries := summaries s |}).
Proof.
  intros Ho Hp Ha. unfold Api.process_bill, in_agents, pipeline_step, mbind.
  rewrite Ho, Hp, Ha. reflexivity.
Qed.

Lemma debate_step_six (bill_json : value) (st st' : state) t :
  debate_step bill_json st = (Ok t, st') ->
  exists f1 h1 f2 h2 f3 h3,
    t = [say "fighter" f1; say "hospital" h1;
         say "fighter" f2; say "hospital" h2;
         say "fighter" f3; say "hospital" h3].
Proof.
  unfold debate_step, mbind, mlift.
  destruct (new_DebateManager None default_model t_0_8 10) as [dm|] eqn:E;
    [|discriminate].
  intros H. apply run_debate_shape in H.
  assert (Hm : max_rounds dm = 10).
  { unfold new_DebateManager, rbind in E.
    destruct (resolve_api_key None); [|discriminate]. now inversion E. }
  unfold rounds_of, clamp in H. rewrite Hm in H.
  destruct H as [(Hn & _) | [(Hn & _) | (_ & H)]]; [lia | lia | exact H].
Qed.

(** A response that is returned carries exactly six messages, whatever the
    ten rounds asked for: "bill" and "medical" in turn, from the bill
    fighter, under the names "Bill Fighter" and "NorthRiver Medical", with
    the contents of the transcript in order and the identifiers and times
    of their positions. *)
Theorem response_has_six_messages (doc : Ocr.Document) (s s' : session)
    (response : ProcessBillResponse) :
  Api.process_bill message_id message_time doc s = (Returned response, s') ->
  exists f1 h1 f2 h2 f3 h3,
    map (fun m => (role m, name m, text m)) (messages response)
    = [("bill", "Bill Fighter", f1); ("medical", "NorthRiver Medical", h1);
       ("bill", "Bill Fighter", f2); ("medical", "NorthRiver Medical", h2);
       ("bill", "Bill Fighter", f3); ("medical", "NorthRiver Medical", h3)]
    /\ map id (messages response) = map message_id [0; 1; 2; 3; 4; 5]%nat
    /\ map timestamp (messages response) = map message_time [0; 1; 2; 3; 4; 5]%nat.
Proof.
  unfold Api.process_bill.
  destruct (ocr_step doc) as [t|e]; [|discriminate].
  destruct (in_agents (pipeline_step t) s) as [[res|e] s1]; [|discriminate].
  unfold in_agents at 1.
  destruct (debate_step _ (agents_state s1)) as [[tr|e] st2] eqn:Ed;
    [|discriminate].
  destruct (generate_debate_summary _ _ _ _ _ _) as [r s3].
  intros H. inversion H; subst. cbn [messages].
  destruct (debate_step_six _ _ _ _ Ed) as (f1 & h1 & f2 & h2 & f3 & h3 & ->).
  exists f1, h1, f2, h2, f3, h3. repeat split.
Qed.

(** A failure of the summary does not fail the request: the response is
    returned with the fixed replacement summary. *)
Theorem failed_summary_is_replaced (doc : Ocr.Document) (s s1 s2 s3 : session)
    (ocr_text : string) (pipeline_result : PipelineResult)
    (debate_transcript : list DebateMessage) (e : exn) :
  ocr_step doc = Ok ocr_text ->
  in_agents (pipeline_step ocr_text) s = (Ok pipeline_result, s1) ->
  in_agents (debate_step (VList (map Analysis.to_value (analysis pipeline_result))))
    s1 = (Ok debate_transcript, s2) ->
  generate_debate_summary
    (VList (map Analysis.to_value (analysis pipeline_result)))
    debate_transcript None default_model t_0_3 s2 = (Raise e, s3) ->
  Api.process_bill message_id message_time doc s
  = (Returned {| messages := frontend_messages message_id message_time 0
                               debate_transcript;
                 summary_stats := pipeline_stats pipeline_result;
                 debate_summary := failed_summary |}, s3).
Proof.
  intros Ho Hp Hd Hs. unfold Api.process_bill.
  now rewrite Ho, Hp, Hd, Hs.
Qed.

End EndpointFacts.

End ApiFacts.

Module ApiRuns.
Import Api ApiSamples.

Definition turn (i : nat) (frontend_role agent : string) : MessageResponse :=
  {| id := message_id i;
     role := frontend_role;
     name := agent;
     text := "A point.";
     timestamp := message_time i |}.

(** The response of the full run. *)
Definition full_response : ProcessBillResponse :=
  {| messages :=
       [turn 0 "bill" "Bill Fighter"; turn 1 "medical" "NorthRiver Medical";
        turn 2 "bill" "Bill Fighter"; turn 3 "medical" "NorthRiver Medical";
        turn 4 "bill" "Bill Fighter"; turn 5 "medical" "NorthRiver Medical"];
     summary_stats := summarize (L := ref_lib) [Samples.messy_record];
     debate_summary := failed_summary |}.

Definition run (doc : Ocr.Document) (w : Scripted.script) : answer * session :=
  process_bill (L := ref_lib) (Sm := sm) message_id message_time doc (session_of w).

End ApiRuns.

Lemma bad_text_is_a_400_witness :
  ApiRuns.run ApiSamples.faint ApiSamples.full_run
  = (Api.HTTPException 400
       ("Failed to extract text from file: " ++ Api.insufficient_text),
     ApiSamples.session_of ApiSamples.full_run).
Proof.
  apply (proj1 (@ApiFacts.bad_text_is_a_400 ref_lib PipelineSamples.sv
                  ApiSamples.sm ApiSamples.message_id ApiSamples.message_time
                  ApiSamples.faint (ApiSamples.session_of ApiSamples.full_run))
           (ValueError Api.insufficient_text)).
  reflexivity.
Defined.

Lemma empty_analysis_is_a_500_witness :
  fst (ApiRuns.run ApiSamples.digital ApiSamples.nothing_found)
  = Api.HTTPException 500
      ("Failed to process bill: No line items were extracted from the bill. "
       ++ "Please ensure the document is a valid medical bill.").
Proof.
  refine (f_equal fst
            (@ApiFacts.empty_analysis_is_a_500 ref_lib PipelineSamples.sv
               ApiSamples.sm ApiSamples.message_id ApiSamples.message_time
               ApiSamples.digital (ApiSamples.session_of ApiSamples.nothing_found)
               ApiSamples.digital_text
               {| extraction := []; analysis := [];
                  negotiation := placeholder_materials;
                  summary_stats := zero_stats |}
               _ _ _ eq_refl)).
  - reflexivity.
  - reflexivity.
Defined.

Lemma response_has_six_messages_witness :
  fst (ApiRuns.run ApiSamples.digital ApiSamples.full_run)
  = Api.Returned ApiRuns.full_response
  /\ exists f1 h1 f2 h2 f3 h3,
       map (fun m => (Api.role m, Api.name m, Api.text m))
           (Api.messages ApiRuns.full_response)
       = [("bill", "Bill Fighter", f1); ("medical", "NorthRiver Medical", h1);
          ("bill", "Bill Fighter", f2); ("medical", "NorthRiver Medical", h2);
          ("bill", "Bill Fighter", f3); ("medical", "NorthRiver Medical", h3)].
Proof.
  assert (H : fst (ApiRuns.run ApiSamples.digital ApiSamples.full_run)
              = Api.Returned ApiRuns.full_response) by reflexivity.
  split; [exact H|].
  destruct (@ApiFacts.response_has_six_messages ref_lib PipelineSamples.sv
              ApiSamples.sm ApiSamples.message_id ApiSamples.message_time
              ApiSamples.digital (ApiSamples.session_of ApiSamples.full_run)
              (snd (ApiRuns.run ApiSamples.digital ApiSamples.full_run))
              ApiRuns.full_response)
    as (f1 & h1 & f2 & h2 & f3 & h3 & E & _).
  - rewrite <- H. apply surjective_pairing.
  - now exists f1, h1, f2, h2, f3, h3.
Defined.

Lemma failed_summary_is_replaced_witness :
  fst (ApiRuns.run ApiSamples.digital ApiSamples.full_run)
  = Api.Returned ApiRuns.full_response.
Proof.
  refine (f_equal fst
            (@ApiFacts.failed_summary_is_replaced ref_lib PipelineSamples.sv
               ApiSamples.sm ApiSamples.message_id ApiSamples.message_time
               ApiSamples.digital (ApiSamples.session_of ApiSamples.full_run)
               _ _ _ ApiSamples.digital_text
               {| extraction := [Samples.messy_line_item];
                  analysis := [Samples.messy_record];
                  negotiation := {| email := "Dear billing";
                                    phone_script := "";
                                    summary := "" |};
                  summary_stats := summarize (L := ref_lib) [Samples.messy_record] |}
               [say "fighter" "A point."; say "hospital" "A point.";
                say "fighter" "A point."; say "hospital" "A point.";
                say "fighter" "A point."; say "hospital" "A point."]
               (OtherError "Rate limit reached") _ _ _ _)).
  - reflexivity.
  - reflexivity.
  - reflexivity.
  - reflexivity.
Defined.

(* ================================================================== *)
(** * The command line: [backend/run_pipeline_cli.py] *)

Module Cli.

Definition result_extraction (r : PipelineResult) := extraction r.
Definition result_analysis (r : PipelineResult) := analysis r.
Definition result_negotiation (r : PipelineResult) := negotiation r.
Definition result_stats (r : PipelineResult) := summary_stats r.

(** The dict returned by [run_pipeline], lines 89-98. *)
Record Output : Type := {
  ocr_text : string;
  prompt : string;
  extraction : list Extraction.LineItem;
  analysis : list Analysis.AnalysisItem;
  negotiation : NegotiationMaterials;
  summary_stats : SummaryStats;
  debate_transcript : list DebateMessage;
  debate_summary : option DebateSummary
}.

(** The arguments of the command, lines 36-52; [--prompt] defaults to the
    empty text, [--model] to "gpt-4o", [--max-debate-rounds] to 3. *)
Record Args : Type := {
  file : Ocr.Document;
  arg_prompt : string;
  arg_model : string;
  max_debate_rounds : Z;
  no_debate : bool
}.

Section WithServices.
Context {L : PyLib} {Sv : Services} {Sm : SummaryService Sv}.

(** Lines 73-87: the debate and its summary. *)
Definition debate_part (bill_json : value) (model : string) (max_rounds : Z)
  : M session (list DebateMessage * option DebateSummary) :=
  let rounds := Z.max 1 max_rounds in
  debate_manager <~ mlift (new_DebateManager None model Api.t_0_8 rounds) ;;
  debate_transcript <~ in_agents (run_debate debate_manager bill_json (Some rounds)) ;;
  debate_summary <~
    mtry (summary <~ generate_debate_summary bill_json debate_transcript None
                       model Api.t_0_3 ;;
          mret (Some summary))
         (fun _ => mret None) ;;
  mret (debate_transcript, debate_summary).

(** [run_pipeline], lines 55-98. *)
Definition run_pipeline (doc : Ocr.Document) (prompt model : string)
    (max_rounds : Z) (run_debate : bool) : M session Output :=
  if negb (Ocr.path_exists doc)
  then mraise (FileNotFoundError ("File not found: " ++ Ocr.file_path doc))
  else
    ocr_output <~
      mlift (fst (Ocr.extract doc false Ocr.default_min_text_threshold [])) ;;
    let ocr_text := Api.text_of ocr_output in
    if String.eqb (PyStr.strip ocr_text) ""
    then mraise (ValueError "OCR pipeline produced empty text")
    else
      pipeline_result <~
        in_agents (process_medical_bill ocr_text None model
                     Api.t_0_1 Api.t_0_2 Api.t_0_7) ;;
      debate <~
        (if run_debate && nonempty (result_analysis pipeline_result)
         then debate_part
                (VList (map Analysis.to_value (result_analysis pipeline_result)))
                model max_rounds
         else mret ([], None)) ;;
      mret {| ocr_text := ocr_text;
              prompt := prompt;
              extraction := result_extraction pipeline_result;
              analysis := result_analysis pipeline_result;
              negotiation := result_negotiation pipeline_result;
              summary_stats := result_stats pipeline_result;
              debate_transcript := fst debate;
              debate_summary := snd debate |}.

(** What [main] prints: the result, or [{"error": str(exc)}]. *)
Inductive printed : Type :=
| Result (result : Output)
| Error (error : string).

(** [main], lines 101-122: the exit status and the line printed. *)
Definition main (args : Args) : session -> Z * printed * session :=
  fun s =>
    match run_pipeline (file args) (arg_prompt args) (arg_model args)
            (max_debate_rounds args) (negb (no_debate args)) s with
    | (Ok result, s') => (0, Result result, s')
    | (Raise exc, s') => (1, Error (exn_str exc), s')
    end.

End WithServices.

End Cli.

(** ** What a returned pipeline result always satisfies *)

Section PipelineInvariants.
Context {L : PyLib} {Sv : Services}.

(** With no analysed item, the result carries the placeholder and the
    zero statistics. *)
Lemma empty_analysis_placeholder ocr_text api_key model t1 t2 t3
    (st st' : state) (r : PipelineResult) :
  process_medical_bill ocr_text api_key model t1 t2 t3 st = (Ok r, st') ->
  analysis r = [] ->
  negotiation r = placeholder_materials /\ summary_stats r = zero_stats.
Proof.
  unfold process_medical_bill, mbind, mret.
  destruct (extraction_agent ocr_text api_key model t1 st)
    as [[items|] st1]; [|discriminate].
  destruct (if nonempty items then _ else _) as [[an|] st2]; [|discriminate].
  destruct an as [|a an]; cbn [nonempty].
  - intros H _. inversion H. now split.
  - destruct (negotiation_agent _ _ _ _ st2) as [[neg|] st3]; [|discriminate].
    intros H E. inversion H; subst. discriminate.
Qed.

(** Every result the pipeline returns is coherent: its statistics are
    those of its analysis list; without extracted items there is no
    analysed item and only the extraction call was made; and with no
    analysed item the materials are the placeholder and the statistics
    are zero. *)
Theorem pipeline_result_is_coherent ocr_text api_key model t1 t2 t3
    (st st' : state) (r : PipelineResult) :
  process_medical_bill ocr_text api_key model t1 t2 t3 st = (Ok r, st') ->
  summary_stats r = summarize (analysis r)
  /\ (extraction r = [] ->
      analysis r = []
      /\ calls st' = (calls st ++ [ExtractionRequest ocr_text model t1])%list)
  /\ (analysis r = [] ->
      negotiation r = placeholder_materials /\ summary_stats r = zero_stats).
Proof.
  unfold process_medical_bill, mbind, mret.
  destruct (extraction_agent ocr_text api_key model t1 st)
    as [[items|] st1] eqn:He; [|discriminate].
  destruct items as [|item items]; cbn [nonempty].
  - intros H. inversion H; subst; clear H.
    cbn [summary_stats extraction analysis negotiation].
    split; [reflexivity|]. split; [|now split].
    intros _. split; [reflexivity|]. now apply extraction_agent_calls in He.
  - destruct (analysis_agent _ _ _ _ st1) as [[an|] st2]; [|discriminate].
    destruct an as [|a an]; cbn [nonempty].
    + intros H. inversion H; subst; clear H.
      cbn [summary_stats extraction analysis negotiation].
      split; [reflexivity|]. split; [discriminate | now split].
    + destruct (negotiation_agent _ _ _ _ st2) as [[neg|] st3]; [|discriminate].
      intros H. inversion H; subst; clear H.
      cbn [summary_stats extraction analysis negotiation].
      split; [reflexivity|]. split; discriminate.
Qed.

End PipelineInvariants.

Section ThreeFieldAnswers.
Context {L : PyLib}.

(** The negotiation materials and the debate summary are read the same
    way: from a JSON object the three fields are taken, each stripped and
    empty when its key is missing, whatever else the object holds, and
    nothing is raised for a missing field; a JSON value that is not an
    object raises [AttributeError], and a text that is no JSON raises
    [ValueError]. *)
Theorem three_fields_are_read_leniently :
  (forall text parsed,
      json_loads text = Parsed (VDict parsed) ->
      exists m s,
        parse_negotiation (Some text) = Ok m
        /\ parse_debate_summary (Some text) = Ok s
        /\ PyStr.strip (email m) = email m
        /\ PyStr.strip (phone_script m) = phone_script m
        /\ PyStr.strip (summary m) = summary m
        /\ PyStr.strip (patient_arguments s) = patient_arguments s
        /\ PyStr.strip (hospital_arguments s) = hospital_arguments s
        /\ PyStr.strip (recommendation s) = recommendation s
        /\ (dict_lookup "email" parsed = None -> email m = "")
        /\ (dict_lookup "phone_script" parsed = None -> phone_script m = "")
        /\ (dict_lookup "summary" parsed = None -> summary m = "")
        /\ (dict_lookup "patient_arguments" parsed = None ->
            patient_arguments s = "")
        /\ (dict_lookup "hospital_arguments" parsed = None ->
            hospital_arguments s = "")
        /\ (dict_lookup "recommendation" parsed = None -> recommendation s = "")
        /\ (forall t, dict_lookup "email" parsed = Some (VStr t) ->
                      email m = PyStr.strip t))
  /\ (forall text v,
         json_loads text = Parsed v -> is_dict v = false ->
         exists msg,
           parse_negotiation (Some text) = Raise (AttributeError msg)
           /\ parse_debate_summary (Some text) = Raise (AttributeError msg))
  /\ (forall text e,
         json_loads text = JSONDecodeError e ->
         parse_negotiation (Some text)
         = Raise (ValueError ("Invalid JSON response from Negotiation Agent: " ++ e))
         /\ parse_debate_summary (Some text)
            = Raise (ValueError ("Invalid JSON response from debate summary: " ++ e))).
Proof.
  unfold parse_negotiation, parse_debate_summary.
  split; [|split].
  - intros text parsed ->. eexists. eexists.
    split; [reflexivity|]. split; [reflexivity|].
    cbn [email phone_script summary patient_arguments hospital_arguments
         recommendation].
    unfold dict_get.
    repeat split; try apply PyStrFacts.strip_idempotent;
      try (intros ->; reflexivity).
    intros t ->. reflexivity.
  - intros text v -> Hv. destruct v; try discriminate; eexists; split; reflexivity.
  - intros text e ->. now split.
Qed.

End ThreeFieldAnswers.

Module CliFacts.
Import Cli.

Section WithServices.
Context {L : PyLib} {Sv : Services} {Sm : SummaryService Sv}.

Lemma in_agents_run {A} (m : M state A) (s : session) :
  in_agents m s
  = (fst (m (agents_state s)),
     {| agents_state := snd (m (agents_state s)); summaries := summaries s |}).
Proof. unfold in_agents. now destruct (m (agents_state s)). Qed.

Lemma debate_part_rounds bill_json model asked (s s' : session) t sm :
  debate_part bill_json model asked s = (Ok (t, sm), s') ->
  Z.of_nat (List.length t) = 2 * Z.min 3 (Z.max 1 asked)
  /\ alternating "fighter" "hospital" (map role t) = true.
Proof.
  unfold debate_part, mbind at 1, mlift.
  destruct (new_DebateManager None model Api.t_0_8 (Z.max 1 asked))
    as [dm|] eqn:E; [|discriminate].
  assert (Hm : max_rounds dm = Z.max 1 asked).
  { unfold new_DebateManager, rbind in E.
    destruct (resolve_api_key None); [|discriminate]. now inversion E. }
  unfold mbind at 1. rewrite in_agents_run.
  destruct (run_debate dm bill_json (Some (Z.max 1 asked)) (agents_state s))
    as [[tr|] st1] eqn:Er; cbn [fst snd]; [|discriminate].
  unfold mbind, mtry, mret.
  apply run_debate_shape in Er. unfold rounds_of, clamp in Er. rewrite Hm in Er.
  destruct (generate_debate_summary _ _ _ _ _ _) as [[sm'|] s3];
    intros H; inversion H; subst;
    destruct Er as [(Hn & f1 & h1 & ->)
                   | [(Hn & f1 & h1 & f2 & h2 & ->)
                     | (Hn & f1 & h1 & f2 & h2 & f3 & h3 & ->)]];
    (split; [cbn [List.length]; lia | reflexivity]).
Qed.

(** With the debate on and at least one analysed item, a run that returns
    has a transcript of 2 x min(3, max(1, max_rounds)) alternating
    messages: asking for zero rounds, or for a negative number, still
    plays one round of two messages. *)
Theorem zero_rounds_still_debate doc prompt model max_rounds
    (s s' : session) (out : Output) :
  run_pipeline doc prompt model max_rounds true s = (Ok out, s') ->
  nonempty (analysis out) = true ->
  Z.of_nat (List.length (debate_transcript out))
  = 2 * Z.min 3 (Z.max 1 max_rounds)
  /\ alternating "fighter" "hospital" (map role (debate_transcript out)) = true
  /\ (max_rounds <= 1 -> List.length (debate_transcript out) = 2%nat).
Proof.
  unfold run_pipeline.
  destruct (negb (Ocr.path_exists doc)); [discriminate|].
  unfold mbind at 1, mlift.
  destruct (fst (Ocr.extract doc false Ocr.default_min_text_threshold []));
    [|discriminate].
  destruct (String.eqb _ ""); [discriminate|].
  unfold mbind at 1. rewrite in_agents_run.
  destruct (fst (process_medical_bill _ _ _ _ _ _ _)) as [res|]; [|discriminate].
  unfold mbind at 1. cbn [andb].
  destruct (nonempty (result_analysis res)) eqn:Hn.
  - destruct (debate_part _ _ _ _) as [[[t sm]|] s2] eqn:Ed; [|discriminate].
    unfold mret. intros H _. inversion H; subst. cbn [debate_transcript fst].
    destruct (debate_part_rounds _ _ _ _ _ _ _ Ed) as [Hl Ha].
    split; [exact Hl|]. split; [exact Ha|]. lia.
  - unfold mret. intros H. inversion H; subst. cbn [analysis].
    intros Hn'. unfold result_analysis in *. congruence.
Qed.

(** Without analysed items, or with [--no-debate], a run that returns has
    an empty transcript and no summary, and no summary call was made;
    unlike the HTTP endpoint it returns the result of an empty analysis,
    with the placeholder materials and the zero statistics. *)
Theorem debate_is_skipped doc prompt model max_rounds run_debate
    (s s' : session) (out : Output) :
  run_pipeline doc prompt model max_rounds run_debate s = (Ok out, s') ->
  run_debate = false \/ analysis out = [] ->
  debate_transcript out = []
  /\ debate_summary out = None
  /\ summaries s' = summaries s
  /\ (analysis out = [] ->
      negotiation out = placeholder_materials /\ summary_stats out = zero_stats).
Proof.
  unfold run_pipeline.
  destruct (negb (Ocr.path_exists doc)); [discriminate|].
  unfold mbind at 1, mlift.
  destruct (fst (Ocr.extract doc false Ocr.default_min_text_threshold []));
    [|discriminate].
  destruct (String.eqb _ ""); [discriminate|].
  unfold mbind at 1. rewrite in_agents_run.
  destruct (process_medical_bill _ _ _ _ _ _ _) as [[res|] st1] eqn:Ep;
    cbn [fst snd]; [|discriminate].
  pose proof (empty_analysis_placeholder _ _ _ _ _ _ _ _ _ Ep) as Hempty.
  unfold mbind at 1.
  destruct (run_debate && nonempty (result_analysis res)) eqn:Hc.
  - destruct (debate_part _ _ _ _) as [[[t sm]|] s2]; [|discriminate].
    unfold mret. intros H Hor. inversion H; subst. cbn [analysis] in Hor.
    apply andb_true_iff in Hc. destruct Hc as [Hr Hn].
    destruct Hor as [-> | Ha]; [discriminate|].
    rewrite Ha in Hn. discriminate.
  - unfold mret. intros H _. inversion H; subst.
    cbn [debate_transcript debate_summary fst snd analysis negotiation
         summary_stats summaries].
    repeat split; apply Hempty; assumption.
Qed.

(** The command stops before any agent runs when the file does not
    exist, when the selector raises, or when the extracted text is blank:
    it prints the error and exits with status 1, the session untouched. *)
Theorem cli_stops_before_the_agents (args : Args) (s : session) :
  (Ocr.path_exists (file args) = false ->
   main args s
   = (1, Error ("File not found: " ++ Ocr.file_path (file args)), s))
  /\ (forall e,
         Ocr.path_exists (file args) = true ->
         fst (Ocr.extract (file args) false Ocr.default_min_text_threshold [])
         = Raise e ->
         main args s = (1, Error (exn_str e), s))
  /\ (forall r,
         Ocr.path_exists (file args) = true ->
         fst (Ocr.extract (file args) false Ocr.default_min_text_threshold [])
         = Ok r ->
         PyStr.strip (Api.text_of r) = "" ->
         main args s = (1, Error "OCR pipeline produced empty text", s)).
Proof.
  unfold main, run_pipeline. split; [|split].
  - now intros ->.
  - intros e -> He. cbn [negb]. unfold mbind, mlift. now rewrite He.
  - intros r -> Hr Hs. cbn [negb]. unfold mbind at 1, mlift. rewrite Hr, Hs.
    reflexivity.
Qed.

End WithServices.

End CliFacts.

Module CliSamples.
Import Scripted.

(** The digital bill, given by its path. *)
Definition bill_file : Ocr.Document :=
  {| Ocr.is_path := true;
     Ocr.file_path := "/tmp/upload/bill.pdf";
     Ocr.path_exists := true;
     Ocr.pdf_pages := Ocr.pdf_pages ApiSamples.digital;
     Ocr.tesseract_version := Ok tt;
     Ocr.page_images := Ok [] |}.

Definition materials : NegotiationMaterials :=
  {| email := "Dear billing"; phone_script := ""; summary := "" |}.

Definition materials_text : string :=
  "{" ++ q ++ "email" ++ q ++ ": " ++ q ++ "Dear billing" ++ q ++ "}".

Definition verdict : DebateSummary :=
  {| patient_arguments := "Duplicate line.";
     hospital_arguments := "";
     recommendation := "" |}.

(** [--max-debate-rounds 0]: three stages, one round, the summary. *)
Definition zero_rounds_run : script :=
  [answer Samples.messy_text; answer Samples.messy_text; answer materials_text;
   answer " A point. "; answer " A point. ";
   answer ("{" ++ q ++ "patient_arguments" ++ q ++ ": "
               ++ q ++ " Duplicate line. " ++ q ++ "}")].

Definition zero_rounds_output : Cli.Output :=
  {| Cli.ocr_text := ApiSamples.digital_text;
     Cli.prompt := "";
     Cli.extraction := [Samples.messy_line_item];
     Cli.analysis := [Samples.messy_record];
     Cli.negotiation := materials;
     Cli.summary_stats := summarize (L := ref_lib) [Samples.messy_record];
     Cli.debate_transcript := [say "fighter" "A point."; say "hospital" "A point."];
     Cli.debate_summary := Some verdict |}.

(** The same bill with [--no-debate]. *)
Definition no_debate_output : Cli.Output :=
  {| Cli.ocr_text := ApiSamples.digital_text;
     Cli.prompt := "";
     Cli.extraction := [Samples.messy_line_item];
     Cli.analysis := [Samples.messy_record];
     Cli.negotiation := materials;
     Cli.summary_stats := summarize (L := ref_lib) [Samples.messy_record];
     Cli.debate_transcript := [];
     Cli.debate_summary := None |}.

(** The command on a path that does not exist. *)
Definition missing_args : Cli.Args :=
  {| Cli.file := OcrSamples2.missing;
     Cli.arg_prompt := "";
     Cli.arg_model := "gpt-4o";
     Cli.max_debate_rounds := 3;
     Cli.no_debate := false |}.

Definition run (max_rounds : Z) (debate : bool) (w : script)
  : result Cli.Output * session :=
  Cli.run_pipeline (L := ref_lib) (Sm := ApiSamples.sm) bill_file "" "gpt-4o"
    max_rounds debate (ApiSamples.session_of w).

End CliSamples.

Lemma pipeline_result_is_coherent_witness :
  fst (process_medical_bill (L := ref_lib) (Sv := PipelineSamples.sv)
         PipelineSamples.ocr_text None "gpt-4o"
         PipelineSamples.t_extraction PipelineSamples.t_analysis
         PipelineSamples.t_negotiation PipelineSamples.st0)
  = Ok {| extraction := [Samples.messy_line_item];
          analysis := [];
          negotiation := placeholder_materials;
          summary_stats := zero_stats |}
  /\ summarize (L := ref_lib) [] = zero_stats.
Proof.
  assert (H : process_medical_bill (L := ref_lib) (Sv := PipelineSamples.sv)
                PipelineSamples.ocr_text None "gpt-4o"
                PipelineSamples.t_extraction PipelineSamples.t_analysis
                PipelineSamples.t_negotiation PipelineSamples.st0
              = (Ok {| extraction := [Samples.messy_line_item];
                       analysis := [];
                       negotiation := placeholder_materials;
                       summary_stats := zero_stats |}, PipelineSamples.st2))
    by reflexivity.
  split; [now rewrite H|].
  exact (eq_sym (proj1 (@pipeline_result_is_coherent ref_lib PipelineSamples.sv
                          _ _ _ _ _ _ _ _ _ H))).
Defined.

Lemma zero_rounds_still_debate_witness :
  fst (CliSamples.run 0 true CliSamples.zero_rounds_run)
  = Ok CliSamples.zero_rounds_output
  /\ List.length (Cli.debate_transcript CliSamples.zero_rounds_output) = 2%nat.
Proof.
  assert (H : fst (CliSamples.run 0 true CliSamples.zero_rounds_run)
              = Ok CliSamples.zero_rounds_output) by reflexivity.
  split; [exact H|].
  refine (proj2 (proj2 (@CliFacts.zero_rounds_still_debate ref_lib
                          PipelineSamples.sv ApiSamples.sm
                          CliSamples.bill_file "" "gpt-4o" 0
                          (ApiSamples.session_of CliSamples.zero_rounds_run)
                          (snd (CliSamples.run 0 true CliSamples.zero_rounds_run))
                          CliSamples.zero_rounds_output _ eq_refl)) _).
  - rewrite <- H. apply surjective_pairing.
  - lia.
Defined.

Lemma debate_is_skipped_witness :
  fst (CliSamples.run 3 false CliSamples.zero_rounds_run)
  = Ok CliSamples.no_debate_output
  /\ summaries (snd (CliSamples.run 3 false CliSamples.zero_rounds_run)) = [].
Proof.
  assert (H : fst (CliSamples.run 3 false CliSamples.zero_rounds_run)
              = Ok CliSamples.no_debate_output) by reflexivity.
  split; [exact H|].
  refine (proj1 (proj2 (proj2 (@CliFacts.debate_is_skipped ref_lib
                          PipelineSamples.sv ApiSamples.sm
                          CliSamples.bill_file "" "gpt-4o" 3 false
                          (ApiSamples.session_of CliSamples.zero_rounds_run)
                          (snd (CliSamples.run 3 false CliSamples.zero_rounds_run))
                          CliSamples.no_debate_output _ (or_introl eq_refl))))).
  rewrite <- H. apply surjective_pairing.
Defined.

Lemma cli_stops_before_the_agents_witness :
  Cli.main (L := ref_lib) (Sm := ApiSamples.sm) CliSamples.missing_args
    (ApiSamples.session_of CliSamples.zero_rounds_run)
  = (1, Cli.Error "File not found: /tmp/none.pdf",
     ApiSamples.session_of CliSamples.zero_rounds_run).
Proof.
  exact (proj1 (@CliFacts.cli_stops_before_the_agents ref_lib PipelineSamples.sv
                  ApiSamples.sm CliSamples.missing_args
                  (ApiSamples.session_of CliSamples.zero_rounds_run))
           eq_refl).
Defined.

Lemma three_fields_are_read_leniently_witness :
  parse_negotiation (L := ref_lib) (Some CliSamples.materials_text)
  = Ok CliSamples.materials
  /\ parse_negotiation (L := ref_lib) (Some "[1, 2]")
     = Raise (AttributeError "object has no attribute 'get'").
Proof.
  split; [vm_compute; reflexivity|].
  destruct (proj1 (proj2 (@three_fields_are_read_leniently ref_lib))
              "[1, 2]" (VList [VInt 1; VInt 2])) as (msg & E & _).
  - vm_compute. reflexivity.
  - reflexivity.
  - rewrite E. vm_compute in E. inversion E. reflexivity.
Defined.
